(** * kaanagas: order lifecycle and payment reconciliation

    A shallow embedding of the order, payment and delivery views of the
    kaanagas backend (orders/models.py, orders/serializers.py,
    orders/views.py, riders/views.py and the models they touch), with the
    database as an explicit store that every view threads through.

    Conventions.
    - A [DecimalField] with two decimal places is an integer number of
      hundredths ([Decimal2]); [dec_of_int] embeds a Python int. The digit
      limits of the columns are not enforced.
    - Instants are integers (seconds from 1970-01-01); every
      [timezone.now()] of one request reads the same instant [now], an
      argument of the view.
    - A table is a finite map from primary key to row; a model instance is a
      pair of its key and its row. The append-only tables whose keys are
      never read (order items, tracking rows, rider earnings) are lists,
      newest row first.
    - The [created_at]/[updated_at] columns that [TimeStampedModel] maintains
      by itself are not part of the rows. Of the uniqueness constraints, the
      one-to-one link of a delivery to its order is enforced by the store;
      that of [order_number] is left to the generator of the numbers.
    - The body of the payment callback and the reason of a cancellation are
      any parsed JSON value (numbers being integers). The other views take
      their request fields at the types their code expects, after the
      serializers' own field checks.
    - [Order.generate_order_number] and the geodesic distance depend on the
      calendar and on floating point: they are parameters of the views. *)

From stdpp Require Import base option gmap list strings pretty.
From Stdlib Require Import ZArith Lia.

Open Scope string_scope.
Open Scope Z_scope.
Open Scope list_scope.

(** ** Python values *)

Definition Decimal2 := Z.

Definition dec_of_int (n : Z) : Decimal2 := n * 100.

(** [int * Decimal]: exact, the exponent of the decimal is kept. *)
Definition int_mul_dec (n : Z) (d : Decimal2) : Decimal2 := n * d.

(** A parsed JSON body ([request.data]). Numbers are integers; a dict is its
    list of key/value pairs. *)
#[local] Unset Elimination Schemes.
Inductive json :=
| JNull
| JBool (b : bool)
| JNum (n : Z)
| JStr (s : string)
| JList (l : list json)
| JDict (kv : list (string * json)).
#[local] Set Elimination Schemes.

Inductive exn :=
| AttributeError
| KeyError
| TypeError
| ValueError
| DoesNotExist (model : string)
| MultipleObjectsReturned
| IntegrityError
| Http404
| NotAuthenticated
| PermissionDenied (detail : string)
| ValidationError (detail : string)
| OverflowError.

Inductive result (A : Type) :=
| Ok (a : A)
| Raise (e : exn).
Arguments Ok {A} a.
Arguments Raise {A} e.

Fixpoint assoc_get (key : string) (kv : list (string * json)) : option json :=
  match kv with
  | [] => None
  | (k, v) :: rest => if String.eqb k key then Some v else assoc_get key rest
  end.

(** [v.get(key, default)]: only a dict has the method. *)
Definition py_get (v : json) (key : string) (default : json) : result json :=
  match v with
  | JDict kv => Ok (from_option id default (assoc_get key kv))
  | _ => Raise AttributeError
  end.

(** Truth value of a Python object, as [if not x] tests it. *)
Definition truthy (v : json) : bool :=
  match v with
  | JNull => false
  | JBool b => b
  | JNum n => negb (n =? 0)
  | JStr s => negb (String.eqb s "")
  | JList l => negb (Nat.eqb (length l) 0)
  | JDict kv => negb (Nat.eqb (length kv) 0)
  end.

(** [v == 0]: an int compares by value, [False == 0] holds, nothing else
    equals the int 0. *)
Definition py_eq_zero (v : json) : bool :=
  match v with
  | JNum n => n =? 0
  | JBool b => negb b
  | _ => false
  end.

(** The text a [CharField]/[TextField] stores for a value that is not None
    ([str(value)]). The text of a list or dict is not modelled. *)
Definition to_text (v : json) : option string :=
  match v with
  | JStr s => Some s
  | JNum n => Some (pretty n)
  | JBool b => Some (if b then "True" else "False")
  | _ => None
  end.

(** ** Models *)

Module Role.
Inductive t := customer | vendor | rider | admin.
#[global] Instance eq_dec : EqDecision t.
Proof. solve_decision. Defined.
End Role.

Module User.
Record t := { pk : Z; role : Role.t }.
Definition is_customer (u : t) : bool := bool_decide (role u = Role.customer).
Definition is_vendor (u : t) : bool := bool_decide (role u = Role.vendor).
Definition is_rider (u : t) : bool := bool_decide (role u = Role.rider).
Definition is_admin_user (u : t) : bool := bool_decide (role u = Role.admin).
End User.

(** Order.ORDER_STATUS *)
Module OrderStatus.
Inductive t :=
| pending | confirmed | preparing | ready_for_pickup
| out_for_delivery | delivered | cancelled | refunded.
#[global] Instance eq_dec : EqDecision t.
Proof. solve_decision. Defined.
End OrderStatus.

(** Order.PAYMENT_STATUS *)
Module OrderPayment.
Inductive t := pending | paid | failed | refunded.
#[global] Instance eq_dec : EqDecision t.
Proof. solve_decision. Defined.
End OrderPayment.

(** Payment.PAYMENT_STATUS *)
Module PaymentStatus.
Inductive t := pending | processing | completed | failed | cancelled | refunded.
#[global] Instance eq_dec : EqDecision t.
Proof. solve_decision. Defined.
End PaymentStatus.

Module VendorProfile.
Record t := {
  user : Z;
  business_name : string;
  latitude : Z;
  longitude : Z;
  delivery_radius : Z;
  minimum_order_amount : Decimal2;
  delivery_fee : Decimal2
}.
End VendorProfile.

Module GasProduct.
Record t := {
  name : string;
  cylinder_size : string;
  brand : string;
  base_price : Decimal2;
  refill_price : Decimal2
}.
End GasProduct.

Module VendorInventory.
Record t := {
  current_stock : Z;
  reserved_stock : Z;
  selling_price : Decimal2;
  refill_price : option Decimal2
}.
Definition available_stock (i : t) : Z :=
  Z.max 0 (current_stock i - reserved_stock i).
End VendorInventory.

Module Order.
(** The columns an order is created with and that no view reads or writes
    afterwards. *)
Record details := {
  order_type : string;
  delivery_address : string;
  delivery_instructions : string;
  delivery_latitude : option Z;
  delivery_longitude : option Z;
  requested_delivery_time : option Z;
  special_instructions : string;
  is_emergency : bool
}.
Record t := {
  order_number : string;
  customer : Z;
  vendor : Z;
  rider : option Z;
  status : OrderStatus.t;
  info : details;
  estimated_delivery_time : option Z;
  actual_delivery_time : option Z;
  subtotal : Decimal2;
  delivery_fee : Decimal2;
  discount_amount : Decimal2;
  tax_amount : Decimal2;
  total_amount : Decimal2;
  payment_status : OrderPayment.t;
  cancellation_reason : string
}.
Definition set_order_number (v : string) (o : t) : t :=
  Build_t v (customer o) (vendor o) (rider o) (status o) (info o)
    (estimated_delivery_time o) (actual_delivery_time o) (subtotal o)
    (delivery_fee o) (discount_amount o) (tax_amount o) (total_amount o)
    (payment_status o) (cancellation_reason o).
Definition set_status (v : OrderStatus.t) (o : t) : t :=
  Build_t (order_number o) (customer o) (vendor o) (rider o) v (info o)
    (estimated_delivery_time o) (actual_delivery_time o) (subtotal o)
    (delivery_fee o) (discount_amount o) (tax_amount o) (total_amount o)
    (payment_status o) (cancellation_reason o).
Definition set_estimated_delivery_time (v : option Z) (o : t) : t :=
  Build_t (order_number o) (customer o) (vendor o) (rider o) (status o) (info o)
    v (actual_delivery_time o) (subtotal o)
    (delivery_fee o) (discount_amount o) (tax_amount o) (total_amount o)
    (payment_status o) (cancellation_reason o).
Definition set_actual_delivery_time (v : option Z) (o : t) : t :=
  Build_t (order_number o) (customer o) (vendor o) (rider o) (status o) (info o)
    (estimated_delivery_time o) v (subtotal o)
    (delivery_fee o) (discount_amount o) (tax_amount o) (total_amount o)
    (payment_status o) (cancellation_reason o).
Definition set_subtotal (v : Decimal2) (o : t) : t :=
  Build_t (order_number o) (customer o) (vendor o) (rider o) (status o) (info o)
    (estimated_delivery_time o) (actual_delivery_time o) v
    (delivery_fee o) (discount_amount o) (tax_amount o) (total_amount o)
    (payment_status o) (cancellation_reason o).
Definition set_delivery_fee (v : Decimal2) (o : t) : t :=
  Build_t (order_number o) (customer o) (vendor o) (rider o) (status o) (info o)
    (estimated_delivery_time o) (actual_delivery_time o) (subtotal o)
    v (discount_amount o) (tax_amount o) (total_amount o)
    (payment_status o) (cancellation_reason o).
Definition set_total_amount (v : Decimal2) (o : t) : t :=
  Build_t (order_number o) (customer o) (vendor o) (rider o) (status o) (info o)
    (estimated_delivery_time o) (actual_delivery_time o) (subtotal o)
    (delivery_fee o) (discount_amount o) (tax_amount o) v
    (payment_status o) (cancellation_reason o).
Definition set_payment_status (v : OrderPayment.t) (o : t) : t :=
  Build_t (order_number o) (customer o) (vendor o) (rider o) (status o) (info o)
    (estimated_delivery_time o) (actual_delivery_time o) (subtotal o)
    (delivery_fee o) (discount_amount o) (tax_amount o) (total_amount o)
    v (cancellation_reason o).
Definition set_cancellation_reason (v : string) (o : t) : t :=
  Build_t (order_number o) (customer o) (vendor o) (rider o) (status o) (info o)
    (estimated_delivery_time o) (actual_delivery_time o) (subtotal o)
    (delivery_fee o) (discount_amount o) (tax_amount o) (total_amount o)
    (payment_status o) v.
End Order.

Module OrderItem.
Record t := {
  order : Z;
  gas_product : Z;
  quantity : Z;
  unit_price : Decimal2;
  total_price : Decimal2;
  product_name : string;
  cylinder_size : string;
  brand : string;
  is_refill : bool;
  customer_cylinder_serial : string
}.
End OrderItem.

Module OrderTracking.
Record t := {
  order : Z;
  status : OrderStatus.t;
  notes : string;
  updated_by : option Z
}.
End OrderTracking.

Module Payment.
Record t := {
  order : Z;
  amount : Decimal2;
  payment_method : string;
  status : PaymentStatus.t;
  external_reference : string;
  transaction_id : string;
  phone_number : string;
  completed_at : option Z;
  gateway_response : option json;
  failure_reason : string
}.
Definition set_status (v : PaymentStatus.t) (p : t) : t :=
  Build_t (order p) (amount p) (payment_method p) v (external_reference p)
    (transaction_id p) (phone_number p) (completed_at p) (gateway_response p)
    (failure_reason p).
Definition set_completed_at (v : option Z) (p : t) : t :=
  Build_t (order p) (amount p) (payment_method p) (status p) (external_reference p)
    (transaction_id p) (phone_number p) v (gateway_response p)
    (failure_reason p).
Definition set_gateway_response (v : option json) (p : t) : t :=
  Build_t (order p) (amount p) (payment_method p) (status p) (external_reference p)
    (transaction_id p) (phone_number p) (completed_at p) v
    (failure_reason p).
Definition set_failure_reason (v : string) (p : t) : t :=
  Build_t (order p) (amount p) (payment_method p) (status p) (external_reference p)
    (transaction_id p) (phone_number p) (completed_at p) (gateway_response p)
    v.
End Payment.

Module Delivery.
(** [status] is the text the view writes: [UpdateDeliveryStatusView] stores
    the request's value as it comes. *)
Record t := {
  order : Z;
  rider : Z;
  status : string;
  delivered_at : option Z;
  actual_distance : option Decimal2;
  base_fee : Decimal2;
  distance_fee : Decimal2;
  total_earnings : Decimal2;
  pickup_notes : string;
  delivery_notes : string
}.
Definition set_status (v : string) (d : t) : t :=
  Build_t (order d) (rider d) v (delivered_at d) (actual_distance d)
    (base_fee d) (distance_fee d) (total_earnings d) (pickup_notes d)
    (delivery_notes d).
Definition set_delivered_at (v : option Z) (d : t) : t :=
  Build_t (order d) (rider d) (status d) v (actual_distance d)
    (base_fee d) (distance_fee d) (total_earnings d) (pickup_notes d)
    (delivery_notes d).
Definition set_fees (base dist total : Decimal2) (d : t) : t :=
  Build_t (order d) (rider d) (status d) (delivered_at d) (actual_distance d)
    base dist total (pickup_notes d) (delivery_notes d).
Definition set_pickup_notes (v : string) (d : t) : t :=
  Build_t (order d) (rider d) (status d) (delivered_at d) (actual_distance d)
    (base_fee d) (distance_fee d) (total_earnings d) v (delivery_notes d).
Definition set_delivery_notes (v : string) (d : t) : t :=
  Build_t (order d) (rider d) (status d) (delivered_at d) (actual_distance d)
    (base_fee d) (distance_fee d) (total_earnings d) (pickup_notes d) v.
End Delivery.

Module RiderEarnings.
Record t := {
  rider : Z;
  delivery : option Z;
  earning_type : string;
  amount : Decimal2;
  description : string;
  earning_date : Z
}.
End RiderEarnings.

(** ** The database *)

Record Store := {
  vendor_profiles : gmap Z VendorProfile.t;
  (** [unique_together = ['vendor', 'gas_product']]: keyed by the pair. *)
  inventory : gmap (Z * Z) VendorInventory.t;
  orders : gmap Z Order.t;
  order_items : list OrderItem.t;
  tracking : list OrderTracking.t;
  payments : gmap Z Payment.t;
  (** [RiderProfile]: profile key to the key of its user. *)
  rider_profiles : gmap Z Z;
  deliveries : gmap Z Delivery.t;
  rider_earnings : list RiderEarnings.t
}.

Definition with_orders (v : gmap Z Order.t) (st : Store) : Store :=
  Build_Store (vendor_profiles st) (inventory st) v (order_items st)
    (tracking st) (payments st) (rider_profiles st) (deliveries st)
    (rider_earnings st).
Definition with_order_items (v : list OrderItem.t) (st : Store) : Store :=
  Build_Store (vendor_profiles st) (inventory st) (orders st) v
    (tracking st) (payments st) (rider_profiles st) (deliveries st)
    (rider_earnings st).
Definition with_tracking (v : list OrderTracking.t) (st : Store) : Store :=
  Build_Store (vendor_profiles st) (inventory st) (orders st) (order_items st)
    v (payments st) (rider_profiles st) (deliveries st)
    (rider_earnings st).
Definition with_payments (v : gmap Z Payment.t) (st : Store) : Store :=
  Build_Store (vendor_profiles st) (inventory st) (orders st) (order_items st)
    (tracking st) v (rider_profiles st) (deliveries st)
    (rider_earnings st).
Definition with_deliveries (v : gmap Z Delivery.t) (st : Store) : Store :=
  Build_Store (vendor_profiles st) (inventory st) (orders st) (order_items st)
    (tracking st) (payments st) (rider_profiles st) v
    (rider_earnings st).
Definition with_rider_earnings (v : list RiderEarnings.t) (st : Store) : Store :=
  Build_Store (vendor_profiles st) (inventory st) (orders st) (order_items st)
    (tracking st) (payments st) (rider_profiles st) (deliveries st)
    v.

(** ** Views as store transformers

    A computation runs on the store and ends with a value, with a raised
    exception, or outside what is modelled ([Unmodelled]: a value whose
    text form [to_text] does not give). Whatever was written before an
    exception stays written: no view opens a transaction. *)

Inductive outcome (A : Type) :=
| Done (a : A)
| Raised (e : exn)
| Unmodelled.
Arguments Done {A} a.
Arguments Raised {A} e.
Arguments Unmodelled {A}.

Definition M (A : Type) : Type := Store -> outcome A * Store.

Definition ret {A} (a : A) : M A := fun st => (Done a, st).

Definition bind {A B} (m : M A) (k : A -> M B) : M B :=
  fun st =>
    match m st with
    | (Done a, st') => k a st'
    | (Raised e, st') => (Raised e, st')
    | (Unmodelled, st') => (Unmodelled, st')
    end.

Definition raise {A} (e : exn) : M A := fun st => (Raised e, st).

Definition unmodelled {A} : M A := fun st => (Unmodelled, st).

Definition gets {A} (f : Store -> A) : M A := fun st => (Done (f st), st).

Definition modify (f : Store -> Store) : M unit := fun st => (Done tt, f st).

Definition lift {A} (r : result A) : M A :=
  match r with
  | Ok a => ret a
  | Raise e => raise e
  end.

(** [try: m except <handles>: h] *)
Definition try_except {A} (m : M A) (handles : exn -> bool) (h : exn -> M A) : M A :=
  fun st =>
    match m st with
    | (Raised e, st') => if handles e then h e st' else (Raised e, st')
    | r => r
    end.

Notation "x <- c1 ;; c2" := (bind c1 (fun x => c2))
  (at level 100, c1 at next level, right associativity).
Notation "c1 ;;; c2" := (bind c1 (fun _ => c2))
  (at level 100, right associativity).

(** [for x in xs: acc = body acc x] *)
Fixpoint for_fold {A B} (xs : list A) (acc : B) (body : B -> A -> M B) : M B :=
  match xs with
  | [] => ret acc
  | x :: rest => acc' <- body acc x;; for_fold rest acc' body
  end.

Definition any_Exception (e : exn) : bool := true.

Definition is_DoesNotExist (model : string) (e : exn) : bool :=
  match e with
  | DoesNotExist m => String.eqb m model
  | _ => false
  end.

(** ** Responses *)

Record Response (A : Type) := { data : A; status_code : Z }.
Arguments data {A} r.
Arguments status_code {A} r.

(** [Response(data)] and [Response(data, status=code)] *)
Definition Response_ok {A} (d : A) : Response A := {| data := d; status_code := 200 |}.
Definition Response_status {A} (d : A) (code : Z) : Response A :=
  {| data := d; status_code := code |}.

(** [{'error': ...}] and [{'message': ...}] *)
Inductive Body :=
| error (msg : string)
| message (msg : string).

(** [permissions.IsAuthenticated]; an anonymous request has no user. *)
Definition IsAuthenticated (user : option User.t) : bool :=
  match user with Some _ => true | None => false end.

(** The permission check that runs before a view's handler:
    every class of [permission_classes] must grant the request. *)
Definition check_permissions (permission_classes : list (option User.t -> bool))
    (user : option User.t) : M unit :=
  if forallb (fun permission => permission user) permission_classes
  then ret tt else raise NotAuthenticated.

(** ** The rider side of the database

    The views of riders/views.py on rider profiles, bank accounts and
    deliveries, and the rating view, work on columns and tables that the
    store above does not hold. [Tables] adds them. The store keeps, of a
    rider profile, its user, and of a delivery, the columns the completion
    of a delivery uses; the columns written by the other rider views sit
    in tables of their own under the key of the row, and a row of which
    such a table records nothing has the defaults of those columns. *)

(** The columns [status], [is_available], [verified_at] and [verified_by]
    of a [RiderProfile]. *)
Module RiderState.
Record t := {
  status : string;
  is_available : bool;
  verified_at : option Z;
  verified_by : option Z
}.
Definition initial : t :=
  {| status := "pending"; is_available := false; verified_at := None; verified_by := None |}.
Definition set_status (v : string) (r : t) : t :=
  Build_t v (is_available r) (verified_at r) (verified_by r).
Definition set_is_available (v : bool) (r : t) : t :=
  Build_t (status r) v (verified_at r) (verified_by r).
Definition set_verified (at_ : option Z) (by_ : option Z) (r : t) : t :=
  Build_t (status r) (is_available r) at_ by_.
End RiderState.

(** The columns [accepted_at], [picked_up_at] and [failure_reason] of a
    [Delivery]. *)
Module DeliveryLog.
Record t := {
  accepted_at : option Z;
  picked_up_at : option Z;
  failure_reason : string
}.
Definition initial : t :=
  {| accepted_at := None; picked_up_at := None; failure_reason := "" |}.
Definition set_accepted_at (v : option Z) (l : t) : t :=
  Build_t v (picked_up_at l) (failure_reason l).
Definition set_picked_up_at (v : option Z) (l : t) : t :=
  Build_t (accepted_at l) v (failure_reason l).
Definition set_failure_reason (v : string) (l : t) : t :=
  Build_t (accepted_at l) (picked_up_at l) v.
End DeliveryLog.

Module RiderBankAccount.
Record t := {
  rider : Z;
  bank_name : string;
  account_name : string;
  account_number : string;
  branch : string;
  mpesa_number : string;
  mpesa_name : string;
  is_primary : bool;
  is_verified : bool;
  verification_date : option Z
}.
Definition set_is_primary (v : bool) (a : t) : t :=
  Build_t (rider a) (bank_name a) (account_name a) (account_number a) (branch a)
    (mpesa_number a) (mpesa_name a) v (is_verified a) (verification_date a).
End RiderBankAccount.

(** core/models.py: Rating *)
Module Rating.
Record t := {
  customer : Z;
  rating_type : string;
  vendor : option Z;
  rider : option Z;
  order : option Z;
  rating : Z;
  review : string;
  is_verified : bool;
  is_published : bool
}.
Definition set_defaults (rating_type' : string) (rating' : Z) (review' : string) (r : t) : t :=
  Build_t (customer r) rating_type' (vendor r) (rider r) (order r) rating' review'
    (is_verified r) (is_published r).
End Rating.

Record Tables := {
  db : Store;
  rider_state : gmap Z RiderState.t;
  delivery_log : gmap Z DeliveryLog.t;
  bank_accounts : gmap Z RiderBankAccount.t;
  ratings : gmap Z Rating.t
}.

Definition with_db (v : Store) (t : Tables) : Tables :=
  Build_Tables v (rider_state t) (delivery_log t) (bank_accounts t) (ratings t).
Definition with_rider_state (v : gmap Z RiderState.t) (t : Tables) : Tables :=
  Build_Tables (db t) v (delivery_log t) (bank_accounts t) (ratings t).
Definition with_delivery_log (v : gmap Z DeliveryLog.t) (t : Tables) : Tables :=
  Build_Tables (db t) (rider_state t) v (bank_accounts t) (ratings t).
Definition with_bank_accounts (v : gmap Z RiderBankAccount.t) (t : Tables) : Tables :=
  Build_Tables (db t) (rider_state t) (delivery_log t) v (ratings t).
Definition with_ratings (v : gmap Z Rating.t) (t : Tables) : Tables :=
  Build_Tables (db t) (rider_state t) (delivery_log t) (bank_accounts t) v.

(** The columns of a row, the defaults when nothing is recorded. *)
Definition rider_state_of (t : Tables) (profile : Z) : RiderState.t :=
  default RiderState.initial (rider_state t !! profile).
Definition delivery_log_of (t : Tables) (delivery : Z) : DeliveryLog.t :=
  default DeliveryLog.initial (delivery_log t !! delivery).

(** Computations on the tables: the monad of the views above with the
    larger state. *)
Definition TM (A : Type) : Type := Tables -> outcome A * Tables.

Definition retT {A} (a : A) : TM A := fun t => (Done a, t).

Definition bindT {A B} (m : TM A) (k : A -> TM B) : TM B :=
  fun t =>
    match m t with
    | (Done a, t') => k a t'
    | (Raised e, t') => (Raised e, t')
    | (Unmodelled, t') => (Unmodelled, t')
    end.

Notation "x <~ c1 ;; c2" := (bindT c1 (fun x => c2))
  (at level 100, c1 at next level, right associativity).
Notation "c1 ;;~ c2" := (bindT c1 (fun _ => c2))
  (at level 100, right associativity).

Definition raiseT {A} (e : exn) : TM A := fun t => (Raised e, t).

Definition getsT {A} (f : Tables -> A) : TM A := fun t => (Done (f t), t).

Definition modifyT (f : Tables -> Tables) : TM unit := fun t => (Done tt, f t).

(** A computation on the store, run on the store of the tables. *)
Definition in_store {A} (m : M A) : TM A :=
  fun t =>
    match m (db t) with
    | (r, st) => (r, with_db st t)
    end.

Definition try_exceptT {A} (m : TM A) (handles : exn -> bool) (h : exn -> TM A) : TM A :=
  fun t =>
    match m t with
    | (Raised e, t') => if handles e then h e t' else (Raised e, t')
    | r => r
    end.

Section Views.

#[local] Set Default Proof Using "Type".

(** [Order.generate_order_number]: reads the calendar date of the clock and
    the numbers already given that day. *)
Variable generate_order_number : Z -> Store -> result string.

(** [geopy.distance.geodesic(a, b).kilometers] and the float operations the
    estimate applies to it. Coordinates are in millionths of a degree. *)
Variable float : Type.
Variable geodesic_kilometers : Z * Z -> Z * Z -> result float.
Variable float_le_int : float -> Z -> bool.
Variable float_round2 : float -> float.

(** *** ORM operations *)

(** Following a foreign key to an order, or [Order.objects.get(id=pk)]. *)
Definition Order_objects_get (pk : Z) : M (Z * Order.t) :=
  fun st =>
    match orders st !! pk with
    | Some o => (Done (pk, o), st)
    | None => (Raised (DoesNotExist "Order"), st)
    end.

(** [Order.save]: an order without a number is given one first. *)
Definition Order_save (now : Z) (inst : Z * Order.t) : M (Z * Order.t) :=
  inst' <- (if String.eqb (Order.order_number inst.2) "" then
              number <- (fun st => lift (generate_order_number now st) st);;
              ret (inst.1, Order.set_order_number number inst.2)
            else ret inst);;
  modify (fun st => with_orders (<[inst'.1 := inst'.2]> (orders st)) st);;;
  ret inst'.

(** The key the database gives a new order: one that is not in use (and
    not 0, keys start at 1). *)
Definition next_order_pk (st : Store) : Z := fresh ({[0]} ∪ dom (orders st)).

(** [Order.objects.create(...)] *)
Definition Order_objects_create (now : Z) (o : Order.t) : M (Z * Order.t) :=
  pk <- gets next_order_pk;;
  Order_save now (pk, o).

Definition VendorProfile_objects_get (pk : Z) : M (Z * VendorProfile.t) :=
  fun st =>
    match vendor_profiles st !! pk with
    | Some v => (Done (pk, v), st)
    | None => (Raised (DoesNotExist "VendorProfile"), st)
    end.

(** [VendorInventory.objects.get(vendor=vendor, gas_product=gas_product)] *)
Definition VendorInventory_objects_get (vendor gas_product : Z) : M VendorInventory.t :=
  fun st =>
    match inventory st !! (vendor, gas_product) with
    | Some i => (Done i, st)
    | None => (Raised (DoesNotExist "VendorInventory"), st)
    end.

Definition OrderTracking_objects_create (row : OrderTracking.t) : M unit :=
  modify (fun st => with_tracking (row :: tracking st) st).

(** [OrderItem.objects.create(...)]; [OrderItem.save] recomputes
    [total_price]. *)
Definition OrderItem_objects_create (row : OrderItem.t) : M unit :=
  let row' :=
    {| OrderItem.order := OrderItem.order row;
       OrderItem.gas_product := OrderItem.gas_product row;
       OrderItem.quantity := OrderItem.quantity row;
       OrderItem.unit_price := OrderItem.unit_price row;
       OrderItem.total_price := int_mul_dec (OrderItem.quantity row) (OrderItem.unit_price row);
       OrderItem.product_name := OrderItem.product_name row;
       OrderItem.cylinder_size := OrderItem.cylinder_size row;
       OrderItem.brand := OrderItem.brand row;
       OrderItem.is_refill := OrderItem.is_refill row;
       OrderItem.customer_cylinder_serial := OrderItem.customer_cylinder_serial row |} in
  modify (fun st => with_order_items (row' :: order_items st) st).

(** [Payment.objects.get(external_reference=ref)] *)
Definition Payment_objects_get (ref : string) : M (Z * Payment.t) :=
  fun st =>
    match map_to_list
            (filter (fun kp => Payment.external_reference kp.2 = ref) (payments st)) with
    | [] => (Raised (DoesNotExist "Payment"), st)
    | [inst] => (Done inst, st)
    | _ => (Raised MultipleObjectsReturned, st)
    end.

Definition Payment_save (inst : Z * Payment.t) : M unit :=
  modify (fun st => with_payments (<[inst.1 := inst.2]> (payments st)) st).

Definition Delivery_save (inst : Z * Delivery.t) : M unit :=
  modify (fun st => with_deliveries (<[inst.1 := inst.2]> (deliveries st)) st).

Definition RiderEarnings_objects_create (row : RiderEarnings.t) : M unit :=
  modify (fun st => with_rider_earnings (row :: rider_earnings st) st).

(** ** orders/views.py: MpesaCallbackView *)

(** [callback_data.get('Body', {}).get('stkCallback', {}).get(field)] *)
Definition stkCallback_get (callback_data : json) (field : string) : result json :=
  match py_get callback_data "Body" (JDict []) with
  | Ok body =>
      match py_get body "stkCallback" (JDict []) with
      | Ok stk => py_get stk field JNull
      | Raise e => Raise e
      end
  | Raise e => Raise e
  end.

Definition MpesaCallbackView_permission_classes : list (option User.t -> bool) := [].

Definition MpesaCallbackView_post (now : Z) (callback_data : json) : M (Response Body) :=
  try_except
    (checkout_request_id <- lift (stkCallback_get callback_data "CheckoutRequestID");;
     result_code <- lift (stkCallback_get callback_data "ResultCode");;
     result_desc <- lift (stkCallback_get callback_data "ResultDesc");;
     if negb (truthy checkout_request_id) then
       ret (Response_status (error "Invalid callback data") 400)
     else
       match to_text checkout_request_id with
       | None => unmodelled
       | Some ref =>
           found <- try_except
                      (payment <- Payment_objects_get ref;; ret (Some payment))
                      (is_DoesNotExist "Payment")
                      (fun _ => ret None);;
           match found with
           | None => ret (Response_status (error "Payment not found") 404)
           | Some payment =>
               p2 <- (if py_eq_zero result_code then
                        let p1 := Payment.set_completed_at (Some now)
                                    (Payment.set_status PaymentStatus.completed payment.2) in
                        order <- Order_objects_get (Payment.order p1);;
                        order1 <- Order_save now
                                    (order.1, Order.set_payment_status OrderPayment.paid order.2);;
                        OrderTracking_objects_create
                          {| OrderTracking.order := order1.1;
                             OrderTracking.status := Order.status order1.2;
                             OrderTracking.notes := "Payment completed successfully via M-Pesa";
                             OrderTracking.updated_by := Some (Order.customer order1.2) |};;;
                        ret p1
                      else
                        let p1 := Payment.set_status PaymentStatus.failed payment.2 in
                        order <- Order_objects_get (Payment.order p1);;
                        Order_save now
                          (order.1, Order.set_payment_status OrderPayment.failed order.2);;;
                        (* payment.failure_reason = result_desc: the column is
                           not nullable, None is refused when the row is
                           written by payment.save() *)
                        match result_desc with
                        | JNull => raise IntegrityError
                        | _ =>
                            match to_text result_desc with
                            | Some reason => ret (Payment.set_failure_reason reason p1)
                            | None => unmodelled
                            end
                        end);;
               Payment_save (payment.1, Payment.set_gateway_response (Some callback_data) p2);;;
               ret (Response_ok (message "Callback processed successfully"))
           end
       end)
    any_Exception
    (fun _ => ret (Response_status (error "Callback processing failed") 500)).

(** The view as the framework runs it: permissions, then the handler. *)
Definition MpesaCallbackView (user : option User.t) (now : Z) (callback_data : json)
    : M (Response Body) :=
  check_permissions MpesaCallbackView_permission_classes user;;;
  MpesaCallbackView_post now callback_data.

(** ** orders/serializers.py: OrderCreateSerializer *)

(** One entry of [items] as the item serializer hands it over. [quantity]
    is read by subscript; [is_refill] and [customer_cylinder_serial] are
    read with [.get] and may be absent. The product is the instance the
    field resolved. *)
Record ItemData := {
  item_gas_product : Z * GasProduct.t;
  item_quantity : Z;
  item_is_refill : option bool;
  item_customer_cylinder_serial : option string
}.

(** The body of an order-creation request whose fields passed their own
    checks: the vendor is the instance its key resolved to. *)
Record OrderCreateData := {
  create_vendor : Z * VendorProfile.t;
  create_info : Order.details;
  create_items : list ItemData
}.

Fixpoint validate_items_loop (items : list ItemData) : result unit :=
  match items with
  | [] => Ok tt
  | item :: rest =>
      if item_quantity item <=? 0
      then Raise (ValidationError "Quantity must be greater than 0")
      else validate_items_loop rest
  end.

Definition validate_items (items : list ItemData) : result (list ItemData) :=
  match items with
  | [] => Raise (ValidationError "At least one item is required")
  | _ =>
      match validate_items_loop items with
      | Ok _ => Ok items
      | Raise e => Raise e
      end
  end.

(** [item_data.get('is_refill')] used as a condition *)
Definition is_refill_requested (item : ItemData) : bool :=
  from_option id false (item_is_refill item).

(** The price of one line: from the vendor's inventory row when there is
    one, from the catalogue otherwise. An inventory row may have no refill
    price. *)
Definition resolve_unit_price (vendor : Z) (item : ItemData) : M (option Decimal2) :=
  try_except
    (inv <- VendorInventory_objects_get vendor (item_gas_product item).1;;
     ret (if is_refill_requested item
          then VendorInventory.refill_price inv
          else Some (VendorInventory.selling_price inv)))
    (is_DoesNotExist "VendorInventory")
    (fun _ =>
       ret (Some (if is_refill_requested item
                  then GasProduct.refill_price (item_gas_product item).2
                  else GasProduct.base_price (item_gas_product item).2))).

(** [quantity * unit_price]; a missing price is None and the product fails. *)
Definition line_total (quantity : Z) (unit_price : option Decimal2) : result (Decimal2 * Decimal2) :=
  match unit_price with
  | Some price => Ok (price, int_mul_dec quantity price)
  | None => Raise TypeError
  end.

Definition new_order (customer : Z) (validated_data : OrderCreateData) : Order.t :=
  {| Order.order_number := "";
     Order.customer := customer;
     Order.vendor := (create_vendor validated_data).1;
     Order.rider := None;
     Order.status := OrderStatus.pending;
     Order.info := create_info validated_data;
     Order.estimated_delivery_time := None;
     Order.actual_delivery_time := None;
     Order.subtotal := 0;
     Order.delivery_fee := 0;
     Order.discount_amount := 0;
     Order.tax_amount := 0;
     Order.total_amount := 0;
     Order.payment_status := OrderPayment.pending;
     Order.cancellation_reason := "" |}.

(** The body of the loop over [items_data]: prices one line, stores its
    [OrderItem] and adds its total to [subtotal]. *)
Definition OrderCreateSerializer_create_item (order : Z * Order.t) (subtotal : Decimal2)
    (item_data : ItemData) : M Decimal2 :=
  let gas_product := item_gas_product item_data in
  let quantity := item_quantity item_data in
  unit_price <- resolve_unit_price (Order.vendor order.2) item_data;;
  priced <- lift (line_total quantity unit_price);;
  OrderItem_objects_create
    {| OrderItem.order := order.1;
       OrderItem.gas_product := gas_product.1;
       OrderItem.quantity := quantity;
       OrderItem.unit_price := priced.1;
       OrderItem.total_price := priced.2;
       OrderItem.product_name := GasProduct.name gas_product.2;
       OrderItem.cylinder_size := GasProduct.cylinder_size gas_product.2;
       OrderItem.brand := GasProduct.brand gas_product.2;
       OrderItem.is_refill := from_option id false (item_is_refill item_data);
       OrderItem.customer_cylinder_serial :=
         from_option id "" (item_customer_cylinder_serial item_data) |};;;
  ret (subtotal + priced.2).

Definition OrderCreateSerializer_create (now : Z) (request_user : User.t)
    (validated_data : OrderCreateData) : M (Z * Order.t) :=
  let items_data := create_items validated_data in
  order <- Order_objects_create now (new_order (User.pk request_user) validated_data);;
  subtotal <- for_fold items_data 0 (OrderCreateSerializer_create_item order);;
  let delivery_fee := VendorProfile.delivery_fee (create_vendor validated_data).2 in
  order1 <- Order_save now
              (order.1,
               Order.set_total_amount (subtotal + delivery_fee)
                 (Order.set_delivery_fee delivery_fee
                    (Order.set_subtotal subtotal order.2)));;
  OrderTracking_objects_create
    {| OrderTracking.order := order1.1;
       OrderTracking.status := OrderStatus.pending;
       OrderTracking.notes := "Order created successfully";
       OrderTracking.updated_by := Some (Order.customer order1.2) |};;;
  ret order1.

(** ** orders/views.py: CreateOrderView *)

(** What an order-creation view answers with. *)
Inductive CreateBody :=
| create_error (msg : string)
| create_errors (detail : string)
| created (order : Z * Order.t).

Definition CreateOrderView_post (now : Z) (request_user : User.t) (request_data : OrderCreateData)
    : M (Response CreateBody) :=
  if negb (User.is_customer request_user) then
    ret (Response_status (create_error "Only customers can create orders") 403)
  else
    match validate_items (create_items request_data) with
    | Ok _ =>
        order <- OrderCreateSerializer_create now request_user request_data;;
        ret (Response_status (created order) 201)
    | Raise (ValidationError detail) =>
        ret (Response_status (create_errors detail) 400)
    | Raise e => raise e
    end.

(** ** orders/views.py: OrderViewSet *)

(** [get_queryset]: the orders the caller may address. *)
Definition OrderViewSet_in_queryset (st : Store) (user : User.t) (o : Order.t) : bool :=
  if User.is_admin_user user then true
  else if User.is_customer user then bool_decide (Order.customer o = User.pk user)
  else if User.is_vendor user then
    bool_decide (VendorProfile.user <$> vendor_profiles st !! Order.vendor o = Some (User.pk user))
  else if User.is_rider user then bool_decide (Order.rider o = Some (User.pk user))
  else false.

(** [self.get_object()] *)
Definition OrderViewSet_get_object (user : User.t) (pk : Z) : M (Z * Order.t) :=
  fun st =>
    match orders st !! pk with
    | Some o =>
        if OrderViewSet_in_queryset st user o then (Done (pk, o), st)
        else (Raised Http404, st)
    | None => (Raised Http404, st)
    end.

(** [order.vendor.user == request.user] *)
Definition vendor_user_is (order : Order.t) (user : User.t) : M bool :=
  vendor <- VendorProfile_objects_get (Order.vendor order);;
  ret (bool_decide (VendorProfile.user vendor.2 = User.pk user)).

(** [not request.user.is_vendor or order.vendor.user != request.user] *)
Definition not_owning_vendor (order : Order.t) (user : User.t) : M bool :=
  if negb (User.is_vendor user) then ret true
  else owns <- vendor_user_is order user;; ret (negb owns).

(** [ModelViewSet.create] with [perform_create]: the serializer is checked
    with [raise_exception=True], then saved. For a caller who is no
    customer the view evaluates [permissions.PermissionDenied]; the module
    [rest_framework.permissions] has no such name (the exception lives in
    [rest_framework.exceptions]), so the lookup raises [AttributeError]. *)
Definition OrderViewSet_perform_create (now : Z) (request_user : User.t)
    (validated_data : OrderCreateData) : M (Z * Order.t) :=
  if negb (User.is_customer request_user) then
    raise AttributeError
  else
    order <- OrderCreateSerializer_create now request_user validated_data;;
    OrderTracking_objects_create
      {| OrderTracking.order := order.1;
         OrderTracking.status := OrderStatus.pending;
         OrderTracking.notes := "Order created successfully";
         OrderTracking.updated_by := Some (User.pk request_user) |};;;
    ret order.

Definition OrderViewSet_create (now : Z) (request_user : User.t) (request_data : OrderCreateData)
    : M (Response CreateBody) :=
  lift (validate_items (create_items request_data));;;
  order <- OrderViewSet_perform_create now request_user request_data;;
  ret (Response_status (created order) 201).

(** The first and the last instant a [datetime] holds (the years 1 to
    9999), in seconds from the instant 0 of [now], which is 1970-01-01;
    and [timedelta.max.days]. *)
Definition datetime_min : Z := -62135596800.
Definition datetime_max : Z := 253402300799.
Definition timedelta_max_days : Z := 999999999.

(** [timezone.now() + timezone.timedelta(minutes=minutes)] for an integer:
    [timedelta] refuses a span of more than [timedelta.max.days] days
    either way, and the sum must be an instant a [datetime] holds; both
    raise [OverflowError]. *)
Definition add_minutes (now minutes : Z) : result Z :=
  let days := 60 * minutes / 86400 in
  if (- timedelta_max_days <=? days) && (days <=? timedelta_max_days) then
    let when := now + 60 * minutes in
    if (datetime_min <=? when) && (when <=? datetime_max) then Ok when
    else Raise OverflowError
  else Raise OverflowError.

Definition OrderViewSet_confirm (now : Z) (request_user : User.t) (pk : Z)
    (estimated_time : option Z) : M (Response Body) :=
  order <- OrderViewSet_get_object request_user pk;;
  denied <- not_owning_vendor order.2 request_user;;
  if denied then ret (Response_status (error "Permission denied") 403)
  else if negb (bool_decide (Order.status order.2 = OrderStatus.pending)) then
    ret (Response_status (error "Order cannot be confirmed") 400)
  else
    let estimated_time := from_option id 30 estimated_time in
    estimated_delivery_time <- lift (add_minutes now estimated_time);;
    order1 <- Order_save now
                (order.1,
                 Order.set_estimated_delivery_time (Some estimated_delivery_time)
                   (Order.set_status OrderStatus.confirmed order.2));;
    OrderTracking_objects_create
      {| OrderTracking.order := order1.1;
         OrderTracking.status := OrderStatus.confirmed;
         OrderTracking.notes :=
           "Order confirmed. Estimated delivery time: " +:+ pretty estimated_time +:+ " minutes";
         OrderTracking.updated_by := Some (User.pk request_user) |};;;
    ret (Response_ok (message "Order confirmed successfully")).

Definition OrderViewSet_prepare (now : Z) (request_user : User.t) (pk : Z) : M (Response Body) :=
  order <- OrderViewSet_get_object request_user pk;;
  denied <- not_owning_vendor order.2 request_user;;
  if denied then ret (Response_status (error "Permission denied") 403)
  else
    order1 <- Order_save now (order.1, Order.set_status OrderStatus.preparing order.2);;
    OrderTracking_objects_create
      {| OrderTracking.order := order1.1;
         OrderTracking.status := OrderStatus.preparing;
         OrderTracking.notes := "Order is being prepared";
         OrderTracking.updated_by := Some (User.pk request_user) |};;;
    ret (Response_ok (message "Order marked as preparing")).

Definition OrderViewSet_ready_for_pickup (now : Z) (request_user : User.t) (pk : Z)
    : M (Response Body) :=
  order <- OrderViewSet_get_object request_user pk;;
  denied <- not_owning_vendor order.2 request_user;;
  if denied then ret (Response_status (error "Permission denied") 403)
  else
    order1 <- Order_save now (order.1, Order.set_status OrderStatus.ready_for_pickup order.2);;
    OrderTracking_objects_create
      {| OrderTracking.order := order1.1;
         OrderTracking.status := OrderStatus.ready_for_pickup;
         OrderTracking.notes := "Order is ready for pickup";
         OrderTracking.updated_by := Some (User.pk request_user) |};;;
    ret (Response_ok (message "Order marked as ready for pickup")).

(** [order.customer == request.user or (request.user.is_vendor and
    order.vendor.user == request.user) or request.user.is_admin_user] *)
Definition may_cancel (order : Order.t) (user : User.t) : M bool :=
  if bool_decide (Order.customer order = User.pk user) then ret true
  else
    as_vendor <- (if User.is_vendor user then vendor_user_is order user else ret false);;
    if as_vendor then ret true else ret (User.is_admin_user user).

Definition cannot_be_cancelled (order : Order.t) : bool :=
  bool_decide (Order.status order = OrderStatus.delivered)
  || bool_decide (Order.status order = OrderStatus.cancelled).

(** [order.save()] of an order whose [cancellation_reason] is [None]:
    [Order.save] gives the order its number if it has none, then the row is
    refused, the column is not nullable. *)
Definition Order_save_refused {A} (now : Z) (inst : Z * Order.t) : M A :=
  (if String.eqb (Order.order_number inst.2) "" then
     number <- (fun st => lift (generate_order_number now st) st);; ret tt
   else ret tt);;;
  raise IntegrityError.

(** The shared tail of both cancellation views. [reason] is the value the
    request holds under ['reason'], or the view's default: the column
    takes a text as it is and a number or a boolean as its text, and
    refuses [None]; the tracking note formats the same value. *)
Definition cancel_order (now : Z) (request_user : User.t) (order : Z * Order.t)
    (reason : json) : M (Response Body) :=
  match reason with
  | JNull =>
      Order_save_refused now
        (order.1, Order.set_status OrderStatus.cancelled order.2)
  | _ =>
      match to_text reason with
      | None => unmodelled
      | Some reason =>
          order1 <- Order_save now
                      (order.1,
                       Order.set_cancellation_reason reason
                         (Order.set_status OrderStatus.cancelled order.2));;
          OrderTracking_objects_create
            {| OrderTracking.order := order1.1;
               OrderTracking.status := OrderStatus.cancelled;
               OrderTracking.notes := "Order cancelled. Reason: " +:+ reason;
               OrderTracking.updated_by := Some (User.pk request_user) |};;;
          ret (Response_ok (message "Order cancelled successfully"))
      end
  end.

Definition OrderViewSet_cancel (now : Z) (request_user : User.t) (pk : Z)
    (reason : option json) : M (Response Body) :=
  order <- OrderViewSet_get_object request_user pk;;
  allowed <- may_cancel order.2 request_user;;
  if negb allowed then ret (Response_status (error "Permission denied") 403)
  else if cannot_be_cancelled order.2 then
    ret (Response_status (error "Order cannot be cancelled") 400)
  else
    cancel_order now request_user order
      (from_option id (JStr "No reason provided") reason).

(** ** orders/views.py: CancelOrderView *)

(** [not order_id]: the key is absent, or it is the integer 0. *)
Definition id_not_given (order_id : option Z) : bool :=
  match order_id with
  | Some n => n =? 0
  | None => true
  end.

Definition CancelOrderView_post (now : Z) (request_user : User.t) (order_id : option Z)
    (reason : option json) : M (Response Body) :=
  let reason := from_option id (JStr "Customer requested cancellation") reason in
  if id_not_given order_id then
    ret (Response_status (error "Order ID required") 400)
  else
    try_except
      (order <- Order_objects_get (from_option id 0 order_id);;
       allowed <- may_cancel order.2 request_user;;
       if negb allowed then ret (Response_status (error "Permission denied") 403)
       else if cannot_be_cancelled order.2 then
         ret (Response_status (error "Order cannot be cancelled") 400)
       else cancel_order now request_user order reason)
      (is_DoesNotExist "Order")
      (fun _ => ret (Response_status (error "Order not found") 404)).

(** ** orders/views.py: OrderEstimateView *)

Record EstimateData := {
  estimate_vendor : Z;
  estimate_items : list ItemData;
  estimate_delivery_latitude : Z;
  estimate_delivery_longitude : Z
}.

(** [OrderEstimateSerializer.validate] *)
Definition OrderEstimateSerializer_validate (attrs : EstimateData) : M (Z * VendorProfile.t) :=
  try_except
    (VendorProfile_objects_get (estimate_vendor attrs))
    (is_DoesNotExist "VendorProfile")
    (fun _ => raise (ValidationError "Vendor not found")).

Record EstimatedItem := {
  est_product_name : string;
  est_quantity : Z;
  est_unit_price : Decimal2;
  est_total_price : Decimal2;
  est_in_stock : bool
}.

(** [round(distance, 2)] of a float, or of the int 0. *)
Inductive distance_value :=
| km_float (f : float)
| km_int (n : Z).

Record Estimate := {
  est_vendor_id : Z;
  est_vendor_name : string;
  est_delivery_radius : Z;
  est_minimum_order_amount : Decimal2;
  est_items : list EstimatedItem;
  est_subtotal : Decimal2;
  est_delivery_fee : Decimal2;
  est_total_amount : Decimal2;
  est_distance_km : distance_value;
  est_can_deliver : bool;
  est_meets_minimum : bool;
  est_estimated_delivery_time : Z
}.

Inductive EstimateBody :=
| estimate (e : Estimate)
| estimate_errors (detail : string).

(** Price and stock of one line of an estimate. *)
Definition estimate_unit_price (vendor : Z) (item : ItemData) : M (option Decimal2 * bool) :=
  try_except
    (inv <- VendorInventory_objects_get vendor (item_gas_product item).1;;
     ret (if is_refill_requested item
          then VendorInventory.refill_price inv
          else Some (VendorInventory.selling_price inv),
          item_quantity item <=? VendorInventory.available_stock inv))
    (is_DoesNotExist "VendorInventory")
    (fun _ =>
       ret (Some (if is_refill_requested item
                  then GasProduct.refill_price (item_gas_product item).2
                  else GasProduct.base_price (item_gas_product item).2),
            false)).

Definition OrderEstimateView_permission_classes : list (option User.t -> bool) :=
  [IsAuthenticated].

(** The body of the loop over [items]: the running subtotal and the
    estimated lines so far, in request order. *)
Definition OrderEstimateView_item (vendor : Z * VendorProfile.t)
    (acc : Decimal2 * list EstimatedItem) (item_data : ItemData)
    : M (Decimal2 * list EstimatedItem) :=
  let gas_product := item_gas_product item_data in
  let quantity := item_quantity item_data in
  priced <- estimate_unit_price vendor.1 item_data;;
  line <- lift (line_total quantity priced.1);;
  ret (acc.1 + line.2,
       acc.2 ++ [{| est_product_name := GasProduct.name gas_product.2;
                    est_quantity := quantity;
                    est_unit_price := line.1;
                    est_total_price := line.2;
                    est_in_stock := priced.2 |}]).

Definition is_ValidationError (e : exn) : bool :=
  match e with ValidationError _ => true | _ => false end.

Definition OrderEstimateView_post (request_data : EstimateData) : M (Response EstimateBody) :=
  valid <- try_except
             (vendor <- OrderEstimateSerializer_validate request_data;; ret (inr vendor))
             is_ValidationError
             (fun e => ret (inl (match e with ValidationError d => d | _ => "" end)));;
  match valid with
  | inl detail => ret (Response_status (estimate_errors detail) 400)
  | inr vendor =>
     acc <- for_fold (estimate_items request_data) (0, @nil EstimatedItem)
              (OrderEstimateView_item vendor);;
     let subtotal := acc.1 in
     let delivery_fee := VendorProfile.delivery_fee vendor.2 in
     place <- (if negb (VendorProfile.latitude vendor.2 =? 0)
                  && negb (VendorProfile.longitude vendor.2 =? 0)
               then
                 distance <- lift (geodesic_kilometers
                                     (VendorProfile.latitude vendor.2,
                                      VendorProfile.longitude vendor.2)
                                     (estimate_delivery_latitude request_data,
                                      estimate_delivery_longitude request_data));;
                 ret (km_float (float_round2 distance),
                      float_le_int distance (VendorProfile.delivery_radius vendor.2))
               else ret (km_int 0, true));;
     ret (Response_ok (estimate
            {| est_vendor_id := vendor.1;
               est_vendor_name := VendorProfile.business_name vendor.2;
               est_delivery_radius := VendorProfile.delivery_radius vendor.2;
               est_minimum_order_amount := VendorProfile.minimum_order_amount vendor.2;
               est_items := acc.2;
               est_subtotal := subtotal;
               est_delivery_fee := delivery_fee;
               est_total_amount := subtotal + delivery_fee;
               est_distance_km := place.1;
               est_can_deliver := place.2;
               est_meets_minimum :=
                 VendorProfile.minimum_order_amount vendor.2 <=? subtotal;
               est_estimated_delivery_time := 60 |}))
  end.

(** The view as the framework runs it: permissions, then the handler. *)
Definition OrderEstimateView (user : option User.t) (request_data : EstimateData)
    : M (Response EstimateBody) :=
  check_permissions OrderEstimateView_permission_classes user;;;
  OrderEstimateView_post request_data.

(** ** riders/views.py: DeliveryViewSet and UpdateDeliveryStatusView *)

(** [delivery.rider.user], following the profile of the delivery.
    A user has at most one profile ([OneToOneField]). *)
Definition RiderProfile_user (profile : Z) : M Z :=
  fun st =>
    match rider_profiles st !! profile with
    | Some u => (Done u, st)
    | None => (Raised (DoesNotExist "RiderProfile"), st)
    end.

(** [get_queryset]: the deliveries the caller may address. *)
Definition DeliveryViewSet_in_queryset (st : Store) (user : User.t) (d : Delivery.t) : bool :=
  if User.is_admin_user user then true
  else if User.is_rider user then
    bool_decide (rider_profiles st !! Delivery.rider d = Some (User.pk user))
  else if User.is_vendor user then
    bool_decide ((orders st !! Delivery.order d) ≫=
                 (fun o => VendorProfile.user <$> vendor_profiles st !! Order.vendor o)
                 = Some (User.pk user))
  else if User.is_customer user then
    bool_decide (Order.customer <$> orders st !! Delivery.order d = Some (User.pk user))
  else false.

Definition DeliveryViewSet_get_object (user : User.t) (pk : Z) : M (Z * Delivery.t) :=
  fun st =>
    match deliveries st !! pk with
    | Some d =>
        if DeliveryViewSet_in_queryset st user d then (Done (pk, d), st)
        else (Raised Http404, st)
    | None => (Raised Http404, st)
    end.

(** The calendar day of an instant ([timezone.now().date()]). *)
Definition date_of (now : Z) : Z := now / 86400.

(** [delivery.actual_distance * 10 if delivery.actual_distance else 0] *)
Definition distance_fee_of (actual_distance : option Decimal2) : Decimal2 :=
  match actual_distance with
  | Some d => if d =? 0 then dec_of_int 0 else int_mul_dec 10 d
  | None => dec_of_int 0
  end.

Definition DeliveryViewSet_deliver (now : Z) (request_user : User.t) (pk : Z)
    (notes : option string) : M (Response Body) :=
  delivery <- DeliveryViewSet_get_object request_user pk;;
  denied <- (if negb (User.is_rider request_user) then ret true
             else u <- RiderProfile_user (Delivery.rider delivery.2);;
                  ret (negb (bool_decide (u = User.pk request_user))));;
  if denied then ret (Response_status (error "Permission denied") 403)
  else
    let d1 := Delivery.set_delivery_notes (from_option id "" notes)
                (Delivery.set_delivered_at (Some now)
                   (Delivery.set_status "delivered" delivery.2)) in
    Delivery_save (delivery.1, d1);;;
    order <- Order_objects_get (Delivery.order d1);;
    order1 <- Order_save now
                (order.1,
                 Order.set_actual_delivery_time (Some now)
                   (Order.set_status OrderStatus.delivered order.2));;
    let base_fee := dec_of_int 100 in
    let distance_fee := distance_fee_of (Delivery.actual_distance d1) in
    let total_earnings := base_fee + distance_fee in
    let d2 := Delivery.set_fees base_fee distance_fee total_earnings d1 in
    Delivery_save (delivery.1, d2);;;
    RiderEarnings_objects_create
      {| RiderEarnings.rider := Delivery.rider d2;
         RiderEarnings.delivery := Some delivery.1;
         RiderEarnings.earning_type := "delivery";
         RiderEarnings.amount := total_earnings;
         RiderEarnings.description :=
           "Delivery for order " +:+ Order.order_number order1.2;
         RiderEarnings.earning_date := date_of now |};;;
    ret (Response_ok (message "Order delivered successfully")).

(** [Delivery.objects.get(id=delivery_id, rider__user=request.user)] *)
Definition Delivery_objects_get_for (delivery_id : Z) (user : User.t) : M (Z * Delivery.t) :=
  fun st =>
    match deliveries st !! delivery_id with
    | Some d =>
        if bool_decide (rider_profiles st !! Delivery.rider d = Some (User.pk user))
        then (Done (delivery_id, d), st)
        else (Raised (DoesNotExist "Delivery"), st)
    | None => (Raised (DoesNotExist "Delivery"), st)
    end.

Definition UpdateDeliveryStatusView_post (now : Z) (request_user : User.t)
    (delivery_id : option Z) (new_status : option string) (notes : option string)
    : M (Response Body) :=
  if negb (User.is_rider request_user) then
    ret (Response_status (error "Only riders can update delivery status") 403)
  else
    let notes := from_option id "" notes in
    if id_not_given delivery_id || String.eqb (from_option id "" new_status) "" then
      ret (Response_status (error "Delivery ID and status required") 400)
    else
      let new_status := from_option id "" new_status in
      found <- try_except
                 (d <- Delivery_objects_get_for (from_option id 0 delivery_id) request_user;;
                  ret (Some d))
                 (is_DoesNotExist "Delivery")
                 (fun _ => ret None);;
      match found with
      | None => ret (Response_status (error "Delivery not found") 404)
      | Some delivery =>
          let d1 := Delivery.set_status new_status delivery.2 in
          d2 <- (if String.eqb new_status "picking_up" then
                   ret (Delivery.set_pickup_notes notes d1)
                 else if String.eqb new_status "delivered" then
                   let d2 := Delivery.set_delivery_notes notes
                               (Delivery.set_delivered_at (Some now) d1) in
                   order <- Order_objects_get (Delivery.order d2);;
                   Order_save now
                     (order.1,
                      Order.set_actual_delivery_time (Some now)
                        (Order.set_status OrderStatus.delivered order.2));;;
                   ret d2
                 else ret d1);;
          Delivery_save (delivery.1, d2);;;
          ret (Response_ok (message ("Delivery status updated to " +:+ new_status)))
      end.

(** ** orders/models.py: Order.generate_order_number

    The generator the views above take as a parameter, as the model
    defines it. The calendar date of [datetime.now()], printed with
    ['%Y%m%d'], is its argument [date_str]. *)

(** [s[-4:]]: the last four characters, or all of a shorter text. *)
Definition last_four (s : string) : string :=
  String.substring (String.length s - 4)%nat 4 s.

Definition digit_value (a : Ascii.ascii) : option Z :=
  let code := Z.of_N (Ascii.N_of_ascii a) in
  if (48 <=? code) && (code <=? 57) then Some (code - 48) else None.

Fixpoint int_of_digits (acc : Z) (s : string) : option Z :=
  match s with
  | EmptyString => Some acc
  | String a rest =>
      match digit_value a with
      | Some d => int_of_digits (10 * acc + d) rest
      | None => None
      end
  end.

(** [int(s)] of a text of decimal digits. Python reads more texts as
    numbers (a sign, blanks around the digits, underscores between them)
    and raises [ValueError] on the rest: for all of those the result here
    is [None]. *)
Definition py_int (s : string) : option Z :=
  match s with
  | EmptyString => None
  | _ => int_of_digits 0 s
  end.

Fixpoint zeros (n : nat) : string :=
  match n with
  | O => ""
  | S n => "0" +:+ zeros n
  end.

(** The text padded on the left with zeros up to [width] characters. *)
Definition zero_pad (width : nat) (s : string) : string :=
  zeros (width - String.length s) +:+ s.

(** [f"{n:04d}"]: the sign counts in the width. *)
Definition format_04d (n : Z) : string :=
  if n <? 0 then "-" +:+ zero_pad 3 (pretty (- n)) else zero_pad 4 (pretty n).

(** The later of two numbers in the order of [order_by]: texts compared
    character by character. *)
Definition later_number (a b : string) : string :=
  if String.leb a b then b else a.

(** The greatest, in that order, of the numbers that start with [prefix]. *)
Definition last_of (prefix : string) (numbers : list string) : option string :=
  foldr (fun number acc =>
           if String.prefix prefix number
           then Some (from_option (later_number number) number acc)
           else acc)
        None numbers.

(** [Order.objects.filter(order_number__startswith=prefix)
    .order_by('-order_number').first()], of which the generator reads the
    number only. The prefix is matched as it is written. *)
Definition last_order_number (prefix : string) (st : Store) : option string :=
  last_of prefix (Order.order_number <$> (map_to_list (orders st)).*2).

(** [f'KAA{date_str}'] *)
Definition day_prefix (date_str : string) : string := "KAA" +:+ date_str.

Definition Order_generate_order_number (date_str : string) (st : Store) : outcome string :=
  let prefix := day_prefix date_str in
  match last_order_number prefix st with
  | Some number =>
      match py_int (last_four number) with
      | Some last_sequence => Done (prefix +:+ format_04d (last_sequence + 1))
      | None => Unmodelled
      end
  | None => Done (prefix +:+ "0001")
  end.

(** ** orders/serializers.py: OrderUpdateSerializer *)

(** The value of a status as the column stores it. *)
Definition OrderStatus_value (s : OrderStatus.t) : string :=
  match s with
  | OrderStatus.pending => "pending"
  | OrderStatus.confirmed => "confirmed"
  | OrderStatus.preparing => "preparing"
  | OrderStatus.ready_for_pickup => "ready_for_pickup"
  | OrderStatus.out_for_delivery => "out_for_delivery"
  | OrderStatus.delivered => "delivered"
  | OrderStatus.cancelled => "cancelled"
  | OrderStatus.refunded => "refunded"
  end.

Definition Order_set_rider (v : option Z) (o : Order.t) : Order.t :=
  {| Order.order_number := Order.order_number o;
     Order.customer := Order.customer o;
     Order.vendor := Order.vendor o;
     Order.rider := v;
     Order.status := Order.status o;
     Order.info := Order.info o;
     Order.estimated_delivery_time := Order.estimated_delivery_time o;
     Order.actual_delivery_time := Order.actual_delivery_time o;
     Order.subtotal := Order.subtotal o;
     Order.delivery_fee := Order.delivery_fee o;
     Order.discount_amount := Order.discount_amount o;
     Order.tax_amount := Order.tax_amount o;
     Order.total_amount := Order.total_amount o;
     Order.payment_status := Order.payment_status o;
     Order.cancellation_reason := Order.cancellation_reason o |}.

(** The validated fields of an update: each of
    [fields = ['status', 'rider', 'estimated_delivery_time',
    'actual_delivery_time']] may be left out; the last three may be given
    as null. The rider is the key of the user the field resolved. *)
Record OrderUpdateData := {
  update_status : option OrderStatus.t;
  update_rider : option (option Z);
  update_estimated_delivery_time : option (option Z);
  update_actual_delivery_time : option (option Z)
}.

(** [setattr(instance, attr, value)] for the fields that are given. *)
Definition set_given {A} (set : A -> Order.t -> Order.t) (given : option A) (o : Order.t)
    : Order.t :=
  match given with
  | Some v => set v o
  | None => o
  end.

Definition apply_update (validated_data : OrderUpdateData) (o : Order.t) : Order.t :=
  set_given Order.set_actual_delivery_time (update_actual_delivery_time validated_data)
    (set_given Order.set_estimated_delivery_time
       (update_estimated_delivery_time validated_data)
       (set_given Order_set_rider (update_rider validated_data)
          (set_given Order.set_status (update_status validated_data) o))).

(** [ModelSerializer.update]: the given fields are set, the instance is
    saved. *)
Definition ModelSerializer_update (now : Z) (instance : Z * Order.t)
    (validated_data : OrderUpdateData) : M (Z * Order.t) :=
  Order_save now (instance.1, apply_update validated_data instance.2).

Definition OrderUpdateSerializer_update (now : Z) (request_user : User.t)
    (instance : Z * Order.t) (validated_data : OrderUpdateData) : M (Z * Order.t) :=
  let old_status := Order.status instance.2 in
  instance1 <- ModelSerializer_update now instance validated_data;;
  (if negb (bool_decide (old_status = Order.status instance1.2)) then
     OrderTracking_objects_create
       {| OrderTracking.order := instance1.1;
          OrderTracking.status := Order.status instance1.2;
          OrderTracking.notes :=
            "Status updated from " +:+ OrderStatus_value old_status +:+ " to "
            +:+ OrderStatus_value (Order.status instance1.2);
          OrderTracking.updated_by := Some (User.pk request_user) |}
   else ret tt);;;
  ret instance1.

(** [ModelViewSet.update] and [partial_update] of [OrderViewSet], whose
    serializer for both is [OrderUpdateSerializer]: the object is taken from
    the caller's queryset and the checked fields are saved. The answer
    shows the order as saved. *)
Definition OrderViewSet_update (now : Z) (request_user : User.t) (pk : Z)
    (validated_data : OrderUpdateData) : M (Response (Z * Order.t)) :=
  instance <- OrderViewSet_get_object request_user pk;;
  instance1 <- OrderUpdateSerializer_update now request_user instance validated_data;;
  ret (Response_ok instance1).

(** ** orders/views.py: TrackOrderView *)

(** [Order.objects.get(order_number=order_number)] *)
Definition Order_objects_get_by_number (order_number : string) : M (Z * Order.t) :=
  fun st =>
    match map_to_list
            (filter (fun ko => Order.order_number ko.2 = order_number) (orders st)) with
    | [] => (Raised (DoesNotExist "Order"), st)
    | [inst] => (Done inst, st)
    | _ => (Raised MultipleObjectsReturned, st)
    end.

(** [order.customer == request.user or (request.user.is_vendor and
    order.vendor.user == request.user) or (request.user.is_rider and
    order.rider == request.user) or request.user.is_admin_user] *)
Definition may_track (order : Order.t) (user : User.t) : M bool :=
  if bool_decide (Order.customer order = User.pk user) then ret true
  else
    as_vendor <- (if User.is_vendor user then vendor_user_is order user else ret false);;
    if as_vendor then ret true
    else if User.is_rider user && bool_decide (Order.rider order = Some (User.pk user))
    then ret true
    else ret (User.is_admin_user user).

(** What the tracking view answers with: an error, or the order. *)
Inductive TrackBody :=
| track_error (msg : string)
| tracked (order : Z * Order.t).

Definition TrackOrderView_get (request_user : User.t) (order_number : string)
    : M (Response TrackBody) :=
  try_except
    (order <- Order_objects_get_by_number order_number;;
     allowed <- may_track order.2 request_user;;
     if negb allowed then ret (Response_status (track_error "Permission denied") 403)
     else ret (Response_ok (tracked order)))
    (is_DoesNotExist "Order")
    (fun _ => ret (Response_status (track_error "Order not found") 404)).

(** ** orders/views.py: InitiatePaymentView *)

Definition Payment_set_external_reference (v : string) (p : Payment.t) : Payment.t :=
  {| Payment.order := Payment.order p;
     Payment.amount := Payment.amount p;
     Payment.payment_method := Payment.payment_method p;
     Payment.status := Payment.status p;
     Payment.external_reference := v;
     Payment.transaction_id := Payment.transaction_id p;
     Payment.phone_number := Payment.phone_number p;
     Payment.completed_at := Payment.completed_at p;
     Payment.gateway_response := Payment.gateway_response p;
     Payment.failure_reason := Payment.failure_reason p |}.

(** The key the database gives a new payment. *)
Definition next_payment_pk (st : Store) : Z := fresh ({[0]} ∪ dom (payments st)).

(** [Payment.objects.create(...)] *)
Definition Payment_objects_create (p : Payment.t) : M (Z * Payment.t) :=
  pk <- gets next_payment_pk;;
  Payment_save (pk, p);;;
  ret (pk, p).

(** [Order.objects.get(id=order_id, customer=request.user)] *)
Definition Order_objects_get_of_customer (order_id : Z) (user : User.t) : M (Z * Order.t) :=
  fun st =>
    match orders st !! order_id with
    | Some o =>
        if bool_decide (Order.customer o = User.pk user) then (Done (order_id, o), st)
        else (Raised (DoesNotExist "Order"), st)
    | None => (Raised (DoesNotExist "Order"), st)
    end.

(** [d[key]] *)
Definition py_subscript (v : json) (key : string) : result json :=
  match v with
  | JDict kv =>
      match assoc_get key kv with
      | Some x => Ok x
      | None => Raise KeyError
      end
  | _ => Raise TypeError
  end.

(** [v == s] for a text [s] *)
Definition py_eq_str (v : json) (s : string) : bool :=
  match v with
  | JStr s' => String.eqb s' s
  | _ => false
  end.

(** The answer of the gateway, which the view makes up itself.
    [payment_id] is the text of the UUID the new payment was given. *)
Definition simulated_mpesa_response (payment_id : string) : json :=
  JDict [("CheckoutRequestID", JStr ("ws_CO_" +:+ payment_id));
         ("ResponseCode", JStr "0");
         ("ResponseDescription", JStr "Success. Request accepted for processing");
         ("CustomerMessage", JStr "Success. Request accepted for processing")].

Inductive PaymentBody :=
| payment_error (msg : string)
| payment_initiated (msg : string) (checkout_request_id customer_message : json)
| payment_failed (msg : string) (reason : string).

(** [not order_id or not phone_number], for a phone number given as text *)
Definition text_not_given (s : option string) : bool :=
  match s with
  | Some s => String.eqb s ""
  | None => true
  end.

Definition InitiatePaymentView_post (payment_id : string) (request_user : User.t)
    (order_id : option Z) (phone_number : option string) : M (Response PaymentBody) :=
  if negb (User.is_customer request_user) then
    ret (Response_status (payment_error "Only customers can initiate payments") 403)
  else if id_not_given order_id || text_not_given phone_number then
    ret (Response_status (payment_error "Order ID and phone number required") 400)
  else
    found <- try_except
               (order <- Order_objects_get_of_customer (from_option id 0 order_id)
                           request_user;;
                ret (Some order))
               (is_DoesNotExist "Order")
               (fun _ => ret None);;
    match found with
    | None => ret (Response_status (payment_error "Order not found") 404)
    | Some order =>
        if bool_decide (Order.payment_status order.2 = OrderPayment.paid) then
          ret (Response_status (payment_error "Order already paid") 400)
        else
          payment <- Payment_objects_create
                       {| Payment.order := order.1;
                          Payment.amount := Order.total_amount order.2;
                          Payment.payment_method := "mpesa";
                          Payment.status := PaymentStatus.pending;
                          Payment.external_reference := "";
                          Payment.transaction_id := "";
                          Payment.phone_number := from_option id "" phone_number;
                          Payment.completed_at := None;
                          Payment.gateway_response := None;
                          Payment.failure_reason := "" |};;
          let mpesa_response := simulated_mpesa_response payment_id in
          code <- lift (py_get mpesa_response "ResponseCode" JNull);;
          if py_eq_str code "0" then
            reference <- lift (py_subscript mpesa_response "CheckoutRequestID");;
            match to_text reference with
            | None => unmodelled
            | Some external_reference =>
                Payment_save
                  (payment.1,
                   Payment.set_gateway_response (Some mpesa_response)
                     (Payment.set_status PaymentStatus.processing
                        (Payment_set_external_reference external_reference payment.2)));;;
                customer_message <- lift (py_subscript mpesa_response "CustomerMessage");;
                ret (Response_ok
                       (payment_initiated "Payment initiated successfully"
                          reference customer_message))
            end
          else
            description <- lift (py_get mpesa_response "ResponseDescription"
                                   (JStr "Unknown error"));;
            match to_text description with
            | None => unmodelled
            | Some failure_reason =>
                Payment_save
                  (payment.1,
                   Payment.set_gateway_response (Some mpesa_response)
                     (Payment.set_failure_reason failure_reason
                        (Payment.set_status PaymentStatus.failed payment.2)));;;
                ret (Response_status
                       (payment_failed "Payment initiation failed" failure_reason) 400)
            end
    end.

(** ** riders/views.py: AcceptDeliveryView *)

(** [request.user.rider_profile]: the profile whose user is the caller. *)
Definition User_rider_profile (user : User.t) : M Z :=
  fun st =>
    match map_to_list (filter (fun pu : Z * Z => pu.2 = User.pk user) (rider_profiles st)) with
    | [] => (Raised (DoesNotExist "RiderProfile"), st)
    | [pu] => (Done pu.1, st)
    | _ => (Raised MultipleObjectsReturned, st)
    end.

(** [Order.objects.get(id=order_id, rider__isnull=True)] *)
Definition Order_objects_get_unassigned (order_id : Z) : M (Z * Order.t) :=
  fun st =>
    match orders st !! order_id with
    | Some o =>
        match Order.rider o with
        | None => (Done (order_id, o), st)
        | Some _ => (Raised (DoesNotExist "Order"), st)
        end
    | None => (Raised (DoesNotExist "Order"), st)
    end.

Definition next_delivery_pk (st : Store) : Z := fresh ({[0]} ∪ dom (deliveries st)).

(** A delivery with the defaults of its columns. *)
Definition new_delivery (order rider : Z) (status : string) : Delivery.t :=
  {| Delivery.order := order;
     Delivery.rider := rider;
     Delivery.status := status;
     Delivery.delivered_at := None;
     Delivery.actual_distance := None;
     Delivery.base_fee := 0;
     Delivery.distance_fee := 0;
     Delivery.total_earnings := 0;
     Delivery.pickup_notes := "";
     Delivery.delivery_notes := "" |}.

(** [Delivery.objects.create(order=..., rider=..., status=...)]. The order
    is a [OneToOneField]: a second delivery of one order is refused. *)
Definition Delivery_objects_create (order rider : Z) (status : string) : M (Z * Delivery.t) :=
  fun st =>
    if bool_decide (map_Forall (fun _ d => Delivery.order d ≠ order) (deliveries st)) then
      let pk := next_delivery_pk st in
      let d := new_delivery order rider status in
      (Done (pk, d), with_deliveries (<[pk := d]> (deliveries st)) st)
    else (Raised IntegrityError, st).

Inductive AcceptBody :=
| accept_error (msg : string)
| accept_done (msg : string) (delivery_id : Z) (order_number : string).

Definition AcceptDeliveryView_post (now : Z) (request_user : User.t) (order_id : option Z)
    : M (Response AcceptBody) :=
  if negb (User.is_rider request_user) then
    ret (Response_status (accept_error "Only riders can accept deliveries") 403)
  else
    profile <- try_except
                 (rider_profile <- User_rider_profile request_user;; ret (Some rider_profile))
                 (is_DoesNotExist "RiderProfile")
                 (fun _ => ret None);;
    match profile with
    | None => ret (Response_status (accept_error "Rider profile not found") 404)
    | Some rider_profile =>
        if id_not_given order_id then
          ret (Response_status (accept_error "Order ID required") 400)
        else
          found <- try_except
                     (order <- Order_objects_get_unassigned (from_option id 0 order_id);;
                      ret (Some order))
                     (is_DoesNotExist "Order")
                     (fun _ => ret None);;
          match found with
          | None =>
              ret (Response_status (accept_error "Order not found or already assigned") 404)
          | Some order =>
              order1 <- Order_save now
                          (order.1, Order_set_rider (Some (User.pk request_user)) order.2);;
              delivery <- Delivery_objects_create order1.1 rider_profile "assigned";;
              ret (Response_ok
                     (accept_done "Delivery accepted successfully" delivery.1
                        (Order.order_number order1.2)))
          end
    end.

(** ** orders/views.py: OrderViewSet.assign_rider *)

(** [User.objects.get(id=rider_id, role='rider')] on the table of users,
    which no view here writes: a user's role and the text that
    [get_full_name] gives for them. *)
Definition User_objects_get_rider (users : gmap Z (Role.t * string)) (rider_id : Z)
    : M (User.t * string) :=
  match users !! rider_id with
  | Some (Role.rider, full_name) =>
      ret ({| User.pk := rider_id; User.role := Role.rider |}, full_name)
  | _ => raise (DoesNotExist "User")
  end.

Definition OrderViewSet_assign_rider (users : gmap Z (Role.t * string)) (now : Z)
    (request_user : User.t) (pk : Z) (rider_id : option Z) : M (Response Body) :=
  order <- OrderViewSet_get_object request_user pk;;
  denied <- not_owning_vendor order.2 request_user;;
  if denied then ret (Response_status (error "Permission denied") 403)
  else if id_not_given rider_id then
    ret (Response_status (error "Rider ID required") 400)
  else
    try_except
      (rider <- User_objects_get_rider users (from_option id 0 rider_id);;
       order1 <- Order_save now
                   (order.1,
                    Order.set_status OrderStatus.out_for_delivery
                      (Order_set_rider (Some (User.pk rider.1)) order.2));;
       rider_profile <- User_rider_profile rider.1;;
       Delivery_objects_create order1.1 rider_profile "assigned";;;
       OrderTracking_objects_create
         {| OrderTracking.order := order1.1;
            OrderTracking.status := OrderStatus.out_for_delivery;
            OrderTracking.notes := "Order assigned to rider " +:+ rider.2;
            OrderTracking.updated_by := Some (User.pk request_user) |};;;
       ret (Response_ok (message "Rider assigned successfully")))
      (is_DoesNotExist "User")
      (fun _ => ret (Response_status (error "Rider not found") 404)).

(** ** riders/views.py: RiderProfileViewSet *)

(** A rider profile as a view holds it: its key, its user and the columns
    the availability views write. *)
Record RiderProfileInstance := {
  profile_pk : Z;
  profile_user : Z;
  profile_state : RiderState.t
}.

(** [get_queryset]: the profiles the caller may address. *)
Definition RiderProfileViewSet_in_queryset (user : User.t) (rider : RiderProfileInstance)
    : bool :=
  if User.is_admin_user user then true
  else if User.is_rider user then bool_decide (profile_user rider = User.pk user)
  else if User.is_vendor user then
    String.eqb (RiderState.status (profile_state rider)) "active"
    && RiderState.is_available (profile_state rider)
  else false.

(** [self.get_object()] *)
Definition RiderProfileViewSet_get_object (user : User.t) (pk : Z) : TM RiderProfileInstance :=
  fun t =>
    match rider_profiles (db t) !! pk with
    | Some u =>
        let rider := {| profile_pk := pk; profile_user := u;
                        profile_state := rider_state_of t pk |} in
        if RiderProfileViewSet_in_queryset user rider then (Done rider, t)
        else (Raised Http404, t)
    | None => (Raised Http404, t)
    end.

(** [rider.save()] *)
Definition RiderProfile_save (rider : RiderProfileInstance) : TM unit :=
  modifyT (fun t =>
    with_rider_state (<[profile_pk rider := profile_state rider]> (rider_state t)) t).

Definition RiderProfileViewSet_verify (now : Z) (request_user : User.t) (pk : Z)
    : TM (Response Body) :=
  if negb (User.is_admin_user request_user) then
    retT (Response_status (error "Permission denied") 403)
  else
    rider <~ RiderProfileViewSet_get_object request_user pk;;
    RiderProfile_save
      {| profile_pk := profile_pk rider;
         profile_user := profile_user rider;
         profile_state :=
           RiderState.set_verified (Some now) (Some (User.pk request_user))
             (RiderState.set_status "active" (profile_state rider)) |};;~
    retT (Response_ok (message "Rider verified successfully")).

Definition RiderProfileViewSet_suspend (request_user : User.t) (pk : Z)
    : TM (Response Body) :=
  if negb (User.is_admin_user request_user) then
    retT (Response_status (error "Permission denied") 403)
  else
    rider <~ RiderProfileViewSet_get_object request_user pk;;
    RiderProfile_save
      {| profile_pk := profile_pk rider;
         profile_user := profile_user rider;
         profile_state :=
           RiderState.set_is_available false
             (RiderState.set_status "suspended" (profile_state rider)) |};;~
    retT (Response_ok (message "Rider suspended successfully")).

Definition RiderProfileViewSet_toggle_availability (request_user : User.t) (pk : Z)
    : TM (Response Body) :=
  rider <~ RiderProfileViewSet_get_object request_user pk;;
  if negb (bool_decide (profile_user rider = User.pk request_user))
     && negb (User.is_admin_user request_user)
  then retT (Response_status (error "Permission denied") 403)
  else
    let is_available := negb (RiderState.is_available (profile_state rider)) in
    RiderProfile_save
      {| profile_pk := profile_pk rider;
         profile_user := profile_user rider;
         profile_state := RiderState.set_is_available is_available (profile_state rider) |};;~
    let status_text := if is_available then "available" else "unavailable" in
    retT (Response_ok (message ("Rider is now " +:+ status_text))).

(** ** riders/models.py and riders/views.py: bank accounts *)

(** [RiderBankAccount.objects.filter(rider=rider, is_primary=True)
    .update(is_primary=False)] *)
Definition demote_primary_accounts (rider : Z) : TM unit :=
  modifyT (fun t =>
    with_bank_accounts
      ((fun a => if bool_decide (RiderBankAccount.rider a = rider)
                    && RiderBankAccount.is_primary a
                 then RiderBankAccount.set_is_primary false a else a)
       <$> bank_accounts t) t).

(** [RiderBankAccount.save] *)
Definition RiderBankAccount_save (inst : Z * RiderBankAccount.t) : TM unit :=
  (if RiderBankAccount.is_primary inst.2
   then demote_primary_accounts (RiderBankAccount.rider inst.2)
   else retT tt);;~
  modifyT (fun t => with_bank_accounts (<[inst.1 := inst.2]> (bank_accounts t)) t).

(** [get_queryset] of [RiderBankAccountViewSet]: all accounts for an admin,
    the accounts of the caller's profile for a rider who has one. *)
Definition RiderBankAccountViewSet_queryset (user : User.t)
    : TM (Z * RiderBankAccount.t -> bool) :=
  if User.is_admin_user user then retT (fun _ => true)
  else if User.is_rider user then
    try_exceptT
      (rider_profile <~ in_store (User_rider_profile user);;
       retT (fun inst : Z * RiderBankAccount.t =>
               bool_decide (RiderBankAccount.rider inst.2 = rider_profile)))
      (is_DoesNotExist "RiderProfile")
      (fun _ => retT (fun _ => false))
  else retT (fun _ => false).

(** [get_object_or_404(queryset, pk=pk)] *)
Definition RiderBankAccount_get_or_404 (queryset : Z * RiderBankAccount.t -> bool) (pk : Z)
    : TM (Z * RiderBankAccount.t) :=
  fun t =>
    match bank_accounts t !! pk with
    | Some a => if queryset (pk, a) then (Done (pk, a), t) else (Raised Http404, t)
    | None => (Raised Http404, t)
    end.

Definition RiderBankAccountViewSet_get_object (user : User.t) (pk : Z)
    : TM (Z * RiderBankAccount.t) :=
  queryset <~ RiderBankAccountViewSet_queryset user;;
  RiderBankAccount_get_or_404 queryset pk.

Definition RiderBankAccountViewSet_set_primary (request_user : User.t) (pk : Z)
    : TM (Response Body) :=
  bank_account <~ RiderBankAccountViewSet_get_object request_user pk;;
  demote_primary_accounts (RiderBankAccount.rider bank_account.2);;~
  RiderBankAccount_save
    (bank_account.1, RiderBankAccount.set_is_primary true bank_account.2);;~
  retT (Response_ok (message "Bank account set as primary")).

(** ** riders/views.py: DeliveryViewSet.accept, pickup and report_issue *)

(** A delivery as a view holds it: its key and all its columns. *)
Record DeliveryInstance := {
  delivery_pk : Z;
  delivery_row : Delivery.t;
  delivery_more : DeliveryLog.t
}.

Definition DeliveryViewSet_get_instance (user : User.t) (pk : Z) : TM DeliveryInstance :=
  delivery <~ in_store (DeliveryViewSet_get_object user pk);;
  log <~ getsT (fun t => delivery_log_of t delivery.1);;
  retT {| delivery_pk := delivery.1; delivery_row := delivery.2; delivery_more := log |}.

(** [delivery.save()] *)
Definition Delivery_save_instance (delivery : DeliveryInstance) : TM unit :=
  in_store (Delivery_save (delivery_pk delivery, delivery_row delivery));;~
  modifyT (fun t =>
    with_delivery_log (<[delivery_pk delivery := delivery_more delivery]> (delivery_log t)) t).

(** [not request.user.is_rider or delivery.rider.user != request.user] *)
Definition not_delivering_rider (delivery : Delivery.t) (user : User.t) : M bool :=
  if negb (User.is_rider user) then ret true
  else u <- RiderProfile_user (Delivery.rider delivery);;
       ret (negb (bool_decide (u = User.pk user))).

Definition DeliveryViewSet_accept (now : Z) (request_user : User.t) (pk : Z)
    : TM (Response Body) :=
  delivery <~ DeliveryViewSet_get_instance request_user pk;;
  denied <~ in_store (not_delivering_rider (delivery_row delivery) request_user);;
  if denied then retT (Response_status (error "Permission denied") 403)
  else if negb (String.eqb (Delivery.status (delivery_row delivery)) "assigned") then
    retT (Response_status (error "Delivery cannot be accepted") 400)
  else
    let delivery1 :=
      {| delivery_pk := delivery_pk delivery;
         delivery_row := Delivery.set_status "accepted" (delivery_row delivery);
         delivery_more := DeliveryLog.set_accepted_at (Some now) (delivery_more delivery) |} in
    Delivery_save_instance delivery1;;~
    in_store
      (order <- Order_objects_get (Delivery.order (delivery_row delivery1));;
       Order_save now (order.1, Order.set_status OrderStatus.out_for_delivery order.2));;~
    retT (Response_ok (message "Delivery accepted successfully")).

Definition DeliveryViewSet_pickup (now : Z) (request_user : User.t) (pk : Z)
    (notes : option string) : TM (Response Body) :=
  delivery <~ DeliveryViewSet_get_instance request_user pk;;
  denied <~ in_store (not_delivering_rider (delivery_row delivery) request_user);;
  if denied then retT (Response_status (error "Permission denied") 403)
  else
    Delivery_save_instance
      {| delivery_pk := delivery_pk delivery;
         delivery_row :=
           Delivery.set_pickup_notes (from_option id "" notes)
             (Delivery.set_status "in_transit" (delivery_row delivery));
         delivery_more := DeliveryLog.set_picked_up_at (Some now) (delivery_more delivery) |};;~
    retT (Response_ok (message "Order picked up successfully")).

Definition DeliveryViewSet_report_issue (now : Z) (request_user : User.t) (pk : Z)
    (reason : option string) : TM (Response Body) :=
  delivery <~ DeliveryViewSet_get_instance request_user pk;;
  denied <~ in_store (not_delivering_rider (delivery_row delivery) request_user);;
  if denied then retT (Response_status (error "Permission denied") 403)
  else
    let issue_reason := from_option id "" reason in
    let delivery1 :=
      {| delivery_pk := delivery_pk delivery;
         delivery_row := Delivery.set_status "failed" (delivery_row delivery);
         delivery_more := DeliveryLog.set_failure_reason issue_reason (delivery_more delivery) |} in
    Delivery_save_instance delivery1;;~
    in_store
      (order <- Order_objects_get (Delivery.order (delivery_row delivery1));;
       Order_save now
         (order.1,
          Order.set_cancellation_reason ("Delivery failed: " +:+ issue_reason)
            (Order.set_status OrderStatus.cancelled order.2)));;~
    retT (Response_ok (message "Issue reported successfully")).

(** ** orders/views.py: RateOrderView *)

(** The fields of [OrderRatingSerializer] as its fields read them from the
    request: the integers and the texts that are given. *)
Record OrderRatingData := {
  rating_order : option Z;
  rating_vendor_rating : option Z;
  rating_vendor_review : option string;
  rating_rider_rating : option Z;
  rating_rider_review : option string
}.

(** [IntegerField(min_value=1, max_value=5, required=False)] *)
Definition rating_field_valid (value : option Z) : bool :=
  match value with
  | Some n => (1 <=? n) && (n <=? 5)
  | None => true
  end.

(** [serializer.errors]: the fields that were refused. *)
Definition OrderRatingSerializer_errors (request_data : OrderRatingData) : list string :=
  (if rating_order request_data is Some _ then [] else ["order"])
  ++ (if rating_field_valid (rating_vendor_rating request_data) then [] else ["vendor_rating"])
  ++ (if rating_field_valid (rating_rider_rating request_data) then [] else ["rider_rating"]).

Inductive RateBody :=
| rate_error (msg : string)
| rate_errors (fields : list string)
| rate_message (msg : string).

(** [if vendor_rating:] for a rating that may be absent *)
Definition rating_given (value : option Z) : bool :=
  match value with
  | Some n => negb (n =? 0)
  | None => false
  end.

Definition next_rating_pk (t : Tables) : Z := fresh ({[0]} ∪ dom (ratings t)).

(** [Rating.objects.update_or_create(<lookup>, defaults={'rating_type': ...,
    'rating': ..., 'review': ...})]: the one row the lookup finds is given
    the defaults; when it finds none, a row is created from the lookup and
    the defaults. *)
Definition Rating_objects_update_or_create (lookup : Rating.t -> bool) (created : Rating.t)
    : TM unit :=
  fun t =>
    match map_to_list (filter (fun kr : Z * Rating.t => lookup kr.2 = true) (ratings t)) with
    | [] => (Done tt, with_ratings (<[next_rating_pk t := created]> (ratings t)) t)
    | [(pk, row)] =>
        (Done tt,
         with_ratings
           (<[pk := Rating.set_defaults (Rating.rating_type created) (Rating.rating created)
                      (Rating.review created) row]> (ratings t)) t)
    | _ => (Raised MultipleObjectsReturned, t)
    end.

Definition vendor_rating_lookup (customer vendor order : Z) (r : Rating.t) : bool :=
  bool_decide (Rating.customer r = customer)
  && bool_decide (Rating.vendor r = Some vendor)
  && bool_decide (Rating.order r = Some order).

Definition rider_rating_lookup (customer rider order : Z) (r : Rating.t) : bool :=
  bool_decide (Rating.customer r = customer)
  && bool_decide (Rating.rider r = Some rider)
  && bool_decide (Rating.order r = Some order).

Definition new_vendor_rating (customer vendor order rating : Z) (review : string) : Rating.t :=
  {| Rating.customer := customer;
     Rating.rating_type := "vendor";
     Rating.vendor := Some vendor;
     Rating.rider := None;
     Rating.order := Some order;
     Rating.rating := rating;
     Rating.review := review;
     Rating.is_verified := false;
     Rating.is_published := true |}.

Definition new_rider_rating (customer rider order rating : Z) (review : string) : Rating.t :=
  {| Rating.customer := customer;
     Rating.rating_type := "rider";
     Rating.vendor := None;
     Rating.rider := Some rider;
     Rating.order := Some order;
     Rating.rating := rating;
     Rating.review := review;
     Rating.is_verified := false;
     Rating.is_published := true |}.

Definition RateOrderView_post (request_user : User.t) (request_data : OrderRatingData)
    : TM (Response RateBody) :=
  if negb (User.is_customer request_user) then
    retT (Response_status (rate_error "Only customers can rate orders") 403)
  else
    match OrderRatingSerializer_errors request_data with
    | (_ :: _) as errors => retT (Response_status (rate_errors errors) 400)
    | [] =>
        found <~ try_exceptT
                  (order <~ in_store (Order_objects_get_of_customer
                                       (from_option id 0 (rating_order request_data))
                                       request_user);;
                   retT (Some order))
                  (is_DoesNotExist "Order")
                  (fun _ => retT None);;
        match found with
        | None => retT (Response_status (rate_error "Order not found") 404)
        | Some order =>
            if negb (bool_decide (Order.status order.2 = OrderStatus.delivered)) then
              retT (Response_status (rate_error "Can only rate delivered orders") 400)
            else
              (if rating_given (rating_vendor_rating request_data) then
                 vendor <~ in_store (VendorProfile_objects_get (Order.vendor order.2));;
                 Rating_objects_update_or_create
                   (vendor_rating_lookup (User.pk request_user)
                      (VendorProfile.user vendor.2) order.1)
                   (new_vendor_rating (User.pk request_user)
                      (VendorProfile.user vendor.2) order.1
                      (from_option id 0 (rating_vendor_rating request_data))
                      (from_option id "" (rating_vendor_review request_data)))
               else retT tt);;~
              match Order.rider order.2 with
              | Some rider =>
                  if rating_given (rating_rider_rating request_data) then
                    Rating_objects_update_or_create
                      (rider_rating_lookup (User.pk request_user) rider order.1)
                      (new_rider_rating (User.pk request_user) rider order.1
                         (from_option id 0 (rating_rider_rating request_data))
                         (from_option id "" (rating_rider_review request_data)))
                  else retT tt
              | None => retT tt
              end;;~
              retT (Response_ok (rate_message "Order rated successfully"))
        end
    end.

(** * Properties

    The vocabulary of the statements first. *)

(** Every stored order carries its number: [Order.save] gives one to an
    order the first time the row is written. *)
Definition orders_numbered (st : Store) : Prop :=
  map_Forall (fun _ o => Order.order_number o ≠ "") (orders st).

(** The payments whose [external_reference] is [ref] are exactly the one
    stored under [pk]. *)
Definition only_match (st : Store) (ref : string) (pk : Z) (p : Payment.t) : Prop :=
  payments st !! pk = Some p /\
  Payment.external_reference p = ref /\
  forall pk' p', payments st !! pk' = Some p' ->
                 Payment.external_reference p' = ref -> pk' = pk.

(** A caller is turned down: an error status or an exception. *)
Definition rejected {A} (r : outcome (Response A)) : Prop :=
  match r with
  | Done resp => 400 <= status_code resp
  | Raised _ => True
  | Unmodelled => False
  end.

(** The three fields the handler reads from the body. *)
Definition stk_fields (callback_data id code desc : json) : Prop :=
  stkCallback_get callback_data "CheckoutRequestID" = Ok id /\
  stkCallback_get callback_data "ResultCode" = Ok code /\
  stkCallback_get callback_data "ResultDesc" = Ok desc.

(** The handler cannot read the fields: the body, its [Body] or the
    [stkCallback] in it is no JSON object, so that [.get] fails on it. *)
Definition unreadable (callback_data : json) : Prop :=
  exists e, stkCallback_get callback_data "CheckoutRequestID" = Raise e.

Definition payment_tracking_row (pk : Z) (o : Order.t) : OrderTracking.t :=
  {| OrderTracking.order := pk;
     OrderTracking.status := Order.status o;
     OrderTracking.notes := "Payment completed successfully via M-Pesa";
     OrderTracking.updated_by := Some (Order.customer o) |}.

(** The store a processed success callback leaves. *)
Definition store_after_success (now : Z) (callback_data : json) (pk : Z) (p : Payment.t)
    (o : Order.t) (st : Store) : Store :=
  with_payments
    (<[pk := Payment.set_gateway_response (Some callback_data)
               (Payment.set_completed_at (Some now)
                  (Payment.set_status PaymentStatus.completed p))]> (payments st))
    (with_tracking (payment_tracking_row (Payment.order p) o :: tracking st)
       (with_orders
          (<[Payment.order p := Order.set_payment_status OrderPayment.paid o]> (orders st))
          st)).

(** The store a processed failure callback leaves. *)
Definition store_after_failure (callback_data : json) (reason : string) (pk : Z)
    (p : Payment.t) (o : Order.t) (st : Store) : Store :=
  with_payments
    (<[pk := Payment.set_gateway_response (Some callback_data)
               (Payment.set_failure_reason reason
                  (Payment.set_status PaymentStatus.failed p))]> (payments st))
    (with_orders
       (<[Payment.order p := Order.set_payment_status OrderPayment.failed o]> (orders st))
       st).


(** The unit price of a line as the creation rule words it: the vendor's
    inventory price (refill or selling) when the vendor has an inventory row
    for the product, the catalogue's (refill or base) otherwise. *)
Definition line_unit_price (st : Store) (vendor : Z) (item : ItemData) : option Decimal2 :=
  match inventory st !! (vendor, (item_gas_product item).1) with
  | Some inv =>
      if is_refill_requested item then VendorInventory.refill_price inv
      else Some (VendorInventory.selling_price inv)
  | None =>
      Some (if is_refill_requested item
            then GasProduct.refill_price (item_gas_product item).2
            else GasProduct.base_price (item_gas_product item).2)
  end.

(** The [OrderItem] row of a line of order [pk] priced at [price]. *)
Definition item_row (pk : Z) (item : ItemData) (price : Decimal2) : OrderItem.t :=
  {| OrderItem.order := pk;
     OrderItem.gas_product := (item_gas_product item).1;
     OrderItem.quantity := item_quantity item;
     OrderItem.unit_price := price;
     OrderItem.total_price := item_quantity item * price;
     OrderItem.product_name := GasProduct.name (item_gas_product item).2;
     OrderItem.cylinder_size := GasProduct.cylinder_size (item_gas_product item).2;
     OrderItem.brand := GasProduct.brand (item_gas_product item).2;
     OrderItem.is_refill := from_option id false (item_is_refill item);
     OrderItem.customer_cylinder_serial :=
       from_option id "" (item_customer_cylinder_serial item) |}.

(** The sum over the rows of [quantity * unit_price]. *)
Definition rows_total (rows : list OrderItem.t) : Decimal2 :=
  foldr (fun row acc => OrderItem.quantity row * OrderItem.unit_price row + acc) 0 rows.

(** The rows of [items] for order [pk], each at the price the rule gives. *)
Definition rows_of (st : Store) (vendor pk : Z) (items : list ItemData)
    (rows : list OrderItem.t) : Prop :=
  Forall2 (fun item row =>
             exists price, line_unit_price st vendor item = Some price /\
                           row = item_row pk item price) items rows.

(** The tracking row that records a creation. *)
Definition creation_row (pk : Z) (by_user : Z) : OrderTracking.t :=
  {| OrderTracking.order := pk;
     OrderTracking.status := OrderStatus.pending;
     OrderTracking.notes := "Order created successfully";
     OrderTracking.updated_by := Some by_user |}.

(** The tracking row and the store a cancellation leaves. *)
Definition cancellation_row (pk : Z) (by_user : Z) (reason : string) : OrderTracking.t :=
  {| OrderTracking.order := pk;
     OrderTracking.status := OrderStatus.cancelled;
     OrderTracking.notes := "Order cancelled. Reason: " +:+ reason;
     OrderTracking.updated_by := Some by_user |}.

Definition cancelled_order (reason : string) (o : Order.t) : Order.t :=
  Order.set_cancellation_reason reason (Order.set_status OrderStatus.cancelled o).

Definition store_after_cancel (user : User.t) (pk : Z) (o : Order.t) (reason : string)
    (st : Store) : Store :=
  with_tracking (cancellation_row pk (User.pk user) reason :: tracking st)
    (with_orders (<[pk := cancelled_order reason o]> (orders st)) st).

(** The reason of a cancellation is one the column takes: none is given
    (the view has a default), or the value is a text, a number or a
    boolean. *)
Definition reason_taken (reason : option json) : Prop :=
  match reason with
  | None => True
  | Some v => is_Some (to_text v)
  end.

(** [st'] is [st] with the order under [pk] cancelled for some reason and
    its cancellation row, signed by [user], on top of the tracking rows;
    every other row of every table is the same. *)
Definition cancels (user : User.t) (pk : Z) (st st' : Store) : Prop :=
  exists o reason,
    orders st !! pk = Some o /\
    st' = store_after_cancel user pk o reason st.

(** Two states of one order that differ at most in [status] and
    [cancellation_reason]. *)
Definition same_but_status_and_reason (o o' : Order.t) : Prop :=
  Order.order_number o' = Order.order_number o /\
  Order.customer o' = Order.customer o /\
  Order.vendor o' = Order.vendor o /\
  Order.rider o' = Order.rider o /\
  Order.info o' = Order.info o /\
  Order.estimated_delivery_time o' = Order.estimated_delivery_time o /\
  Order.actual_delivery_time o' = Order.actual_delivery_time o /\
  Order.subtotal o' = Order.subtotal o /\
  Order.delivery_fee o' = Order.delivery_fee o /\
  Order.discount_amount o' = Order.discount_amount o /\
  Order.tax_amount o' = Order.tax_amount o /\
  Order.total_amount o' = Order.total_amount o /\
  Order.payment_status o' = Order.payment_status o.

(** The same, for what two stores hold under one key. *)
Definition row_same_but_status_and_reason (before after : option Order.t) : Prop :=
  match before, after with
  | Some o, Some o' => same_but_status_and_reason o o'
  | None, None => True
  | _, _ => False
  end.

(** The earnings record [DeliveryViewSet.deliver] writes. *)
Definition delivery_earnings (now : Z) (pk : Z) (d : Delivery.t) (order_number : string)
    : RiderEarnings.t :=
  {| RiderEarnings.rider := Delivery.rider d;
     RiderEarnings.delivery := Some pk;
     RiderEarnings.earning_type := "delivery";
     RiderEarnings.amount := dec_of_int 100 + distance_fee_of (Delivery.actual_distance d);
     RiderEarnings.description := "Delivery for order " +:+ order_number;
     RiderEarnings.earning_date := date_of now |}.

(** An order as a completed delivery leaves it. *)
Definition delivered_order (now : Z) (o : Order.t) : Order.t :=
  Order.set_actual_delivery_time (Some now) (Order.set_status OrderStatus.delivered o).

(** One estimated line prices one requested line. *)
Definition estimates_line (st : Store) (vendor : Z) (item : ItemData)
    (line : EstimatedItem) : Prop :=
  est_product_name line = GasProduct.name (item_gas_product item).2 /\
  est_quantity line = item_quantity item /\
  line_unit_price st vendor item = Some (est_unit_price line) /\
  est_total_price line = item_quantity item * est_unit_price line.

(** The sum of the line totals of an estimate. *)
Definition lines_total (lines : list EstimatedItem) : Decimal2 :=
  foldr (fun line acc => est_total_price line + acc) 0 lines.

(** An order with the number [number] is stored. *)
Definition number_stored (st : Store) (number : string) : Prop :=
  exists pk o, orders st !! pk = Some o /\ Order.order_number o = number.

(** No stored order number starts with [prefix]. *)
Definition no_number_of (st : Store) (prefix : string) : Prop :=
  forall pk o, orders st !! pk = Some o ->
               String.prefix prefix (Order.order_number o) = false.

(** [number] is the greatest, in the order of texts, of the stored order
    numbers that start with [prefix]. *)
Definition greatest_number_of (st : Store) (prefix number : string) : Prop :=
  number_stored st number /\
  String.prefix prefix number = true /\
  forall pk o, orders st !! pk = Some o ->
               String.prefix prefix (Order.order_number o) = true ->
               String.leb (Order.order_number o) number = true.

(** What is checked of [format_04d] on one number below 10000: four
    characters, read back by [int] as the number, and before the text of
    the next number. *)
Definition format_04d_check (n : Z) : bool :=
  Nat.eqb (String.length (format_04d n)) 4
  && bool_decide (py_int (format_04d n) = Some n)
  && (bool_decide (n = 9999)
      || bool_decide (String.compare (format_04d n) (format_04d (n + 1)) = Lt)).

(** The tracking row an update that changes the status writes. *)
Definition status_update_row (pk by_user : Z) (old new : OrderStatus.t) : OrderTracking.t :=
  {| OrderTracking.order := pk;
     OrderTracking.status := new;
     OrderTracking.notes :=
       "Status updated from " +:+ OrderStatus_value old +:+ " to " +:+ OrderStatus_value new;
     OrderTracking.updated_by := Some by_user |}.

(** [o'] is [o] with the fields that [data] gives set to what it gives,
    and every other column as it was. *)
Definition updated_by_fields (data : OrderUpdateData) (o o' : Order.t) : Prop :=
  Order.status o' = from_option id (Order.status o) (update_status data) /\
  Order.rider o' = from_option id (Order.rider o) (update_rider data) /\
  Order.estimated_delivery_time o'
  = from_option id (Order.estimated_delivery_time o) (update_estimated_delivery_time data) /\
  Order.actual_delivery_time o'
  = from_option id (Order.actual_delivery_time o) (update_actual_delivery_time data) /\
  Order.order_number o' = Order.order_number o /\
  Order.customer o' = Order.customer o /\
  Order.vendor o' = Order.vendor o /\
  Order.info o' = Order.info o /\
  Order.subtotal o' = Order.subtotal o /\
  Order.delivery_fee o' = Order.delivery_fee o /\
  Order.discount_amount o' = Order.discount_amount o /\
  Order.tax_amount o' = Order.tax_amount o /\
  Order.total_amount o' = Order.total_amount o /\
  Order.payment_status o' = Order.payment_status o /\
  Order.cancellation_reason o' = Order.cancellation_reason o.

(** The orders whose number is [number] are exactly the one stored under
    [pk]. *)
Definition only_order (st : Store) (number : string) (pk : Z) (o : Order.t) : Prop :=
  orders st !! pk = Some o /\
  Order.order_number o = number /\
  forall pk' o', orders st !! pk' = Some o' -> Order.order_number o' = number -> pk' = pk.

(** The user the order's vendor profile belongs to. *)
Definition vendor_user_of (st : Store) (o : Order.t) : option Z :=
  VendorProfile.user <$> vendor_profiles st !! Order.vendor o.

(** The parties to an order, as the tracking view tells them: its
    customer, the user of its vendor, its rider, and any admin. *)
Definition party_to (st : Store) (o : Order.t) (user : User.t) : Prop :=
  Order.customer o = User.pk user \/
  (User.role user = Role.vendor /\ vendor_user_of st o = Some (User.pk user)) \/
  (User.role user = Role.rider /\ Order.rider o = Some (User.pk user)) \/
  User.role user = Role.admin.

(** The payment row a successful initiation leaves. *)
Definition initiated_payment (order : Z) (o : Order.t) (phone_number payment_id : string)
    : Payment.t :=
  {| Payment.order := order;
     Payment.amount := Order.total_amount o;
     Payment.payment_method := "mpesa";
     Payment.status := PaymentStatus.processing;
     Payment.external_reference := "ws_CO_" +:+ payment_id;
     Payment.transaction_id := "";
     Payment.phone_number := phone_number;
     Payment.completed_at := None;
     Payment.gateway_response := Some (simulated_mpesa_response payment_id);
     Payment.failure_reason := "" |}.

(** The answer of a successful initiation. *)
Definition payment_initiated_response (payment_id : string) : Response PaymentBody :=
  Response_ok
    (payment_initiated "Payment initiated successfully"
       (JStr ("ws_CO_" +:+ payment_id))
       (JStr "Success. Request accepted for processing")).

(** The store after a successful initiation for order [pk]. *)
Definition store_after_initiation (payment_id : string) (pk : Z) (o : Order.t)
    (phone_number : string) (st : Store) : Store :=
  with_payments
    (<[next_payment_pk st := initiated_payment pk o phone_number payment_id]> (payments st))
    st.

(** The rider profiles of [user] are exactly the one with key [profile]. *)
Definition only_profile (st : Store) (user : User.t) (profile : Z) : Prop :=
  rider_profiles st !! profile = Some (User.pk user) /\
  forall profile' u, rider_profiles st !! profile' = Some u -> u = User.pk user ->
                     profile' = profile.

(** No delivery of the order is stored. *)
Definition no_delivery_of (st : Store) (order : Z) : Prop :=
  map_Forall (fun _ d => Delivery.order d ≠ order) (deliveries st).

(** The answer of [AcceptDeliveryView] that an order cannot be taken. *)
Definition already_assigned : Response AcceptBody :=
  Response_status (accept_error "Order not found or already assigned") 404.

(** The order as [OrderViewSet.confirm] stores it. *)
Definition confirmed_order (now : Z) (estimated_time : option Z) (o : Order.t) : Order.t :=
  Order.set_estimated_delivery_time (Some (now + 60 * from_option id 30 estimated_time))
    (Order.set_status OrderStatus.confirmed o).

(** The minutes are a span a [timedelta] holds, and [now] plus the minutes
    is an instant a [datetime] holds. *)
Definition time_in_range (now minutes : Z) : Prop :=
  (- timedelta_max_days <= 60 * minutes / 86400 <= timedelta_max_days) /\
  (datetime_min <= now + 60 * minutes <= datetime_max).

(** The tracking row of a confirmation. *)
Definition confirmation_row (pk by_user : Z) (estimated_time : option Z) : OrderTracking.t :=
  {| OrderTracking.order := pk;
     OrderTracking.status := OrderStatus.confirmed;
     OrderTracking.notes :=
       "Order confirmed. Estimated delivery time: "
       +:+ pretty (from_option id 30 estimated_time) +:+ " minutes";
     OrderTracking.updated_by := Some by_user |}.

(** The delivery as [DeliveryViewSet.deliver] stores it. *)
Definition delivered_delivery (now : Z) (notes : option string) (d : Delivery.t) : Delivery.t :=
  Delivery.set_fees (dec_of_int 100) (distance_fee_of (Delivery.actual_distance d))
    (dec_of_int 100 + distance_fee_of (Delivery.actual_distance d))
    (Delivery.set_delivery_notes (from_option id "" notes)
       (Delivery.set_delivered_at (Some now) (Delivery.set_status "delivered" d))).

(** The store [DeliveryViewSet.deliver] leaves. *)
Definition store_after_deliver (now : Z) (pk : Z) (notes : option string) (d : Delivery.t)
    (o : Order.t) (st : Store) : Store :=
  with_rider_earnings
    (delivery_earnings now pk d (Order.order_number o) :: rider_earnings st)
    (with_deliveries (<[pk := delivered_delivery now notes d]> (deliveries st))
       (with_orders (<[Delivery.order d := delivered_order now o]> (orders st)) st)).

(** [st'] holds all that [st] holds: the tables of vendors, inventory and
    rider profiles are the same, every key of an order, a payment or a
    delivery is still there, and the logs of items, tracking rows and
    earnings have only got longer. *)
Definition grows (st st' : Store) : Prop :=
  vendor_profiles st' = vendor_profiles st /\
  inventory st' = inventory st /\
  rider_profiles st' = rider_profiles st /\
  dom (orders st) ⊆ dom (orders st') /\
  dom (payments st) ⊆ dom (payments st') /\
  dom (deliveries st) ⊆ dom (deliveries st') /\
  order_items st `suffix_of` order_items st' /\
  tracking st `suffix_of` tracking st' /\
  rider_earnings st `suffix_of` rider_earnings st'.

(** If every order of [st] has its number, so has every order of [st']. *)
Definition numbers_kept (st st' : Store) : Prop :=
  orders_numbered st -> orders_numbered st'.

(** A computation whose final store is always related by [R] to the store
    it started on, whatever it ends with: an answer or an exception. *)
Definition preserved (R : Store -> Store -> Prop) {A} (m : M A) : Prop :=
  forall st, R st (m st).2.

(** The generator never gives the empty text as a number. *)
Definition gives_numbers (generator : Z -> Store -> result string) : Prop :=
  forall now st number, generator now st = Ok number -> number ≠ "".

(** ** Vocabulary of the rider views and of the rating view *)

(** The order as [assign_rider] saves it. *)
Definition assigned_order (rider : Z) (o : Order.t) : Order.t :=
  Order.set_status OrderStatus.out_for_delivery (Order_set_rider (Some rider) o).

(** The tracking row [assign_rider] writes. *)
Definition assignment_row (order : Z) (full_name : string) (updated_by : Z) : OrderTracking.t :=
  {| OrderTracking.order := order;
     OrderTracking.status := OrderStatus.out_for_delivery;
     OrderTracking.notes := "Order assigned to rider " +:+ full_name;
     OrderTracking.updated_by := Some updated_by |}.

(** A user of the role rider, as [User.objects.get(..., role='rider')] gives it. *)
Definition rider_user (pk : Z) : User.t := {| User.pk := pk; User.role := Role.rider |}.

Definition permission_denied : Response Body :=
  Response_status (error "Permission denied") 403.

(** A rider profile's columns after [suspend], and after [verify]. *)
Definition suspended (s : RiderState.t) : RiderState.t :=
  RiderState.set_is_available false (RiderState.set_status "suspended" s).

Definition verified (now verifier : Z) (s : RiderState.t) : RiderState.t :=
  RiderState.set_verified (Some now) (Some verifier) (RiderState.set_status "active" s).

(** The answer of [toggle_availability] for a rider who was available or not. *)
Definition toggled (was_available : bool) : Response Body :=
  Response_ok (message ("Rider is now " +:+
                        (if was_available then "unavailable" else "available"))).

(** Apart from the columns of one rider profile, the tables are the same. *)
Definition same_but_rider_state (pk : Z) (t t' : Tables) : Prop :=
  db t' = db t /\
  delivery_log t' = delivery_log t /\
  bank_accounts t' = bank_accounts t /\
  ratings t' = ratings t /\
  forall pk', pk' ≠ pk -> rider_state_of t' pk' = rider_state_of t pk'.

(** Of the rider's bank accounts, the one under [pk] is primary and no
    other is. *)
Definition one_primary (accounts : gmap Z RiderBankAccount.t) (rider pk : Z) : Prop :=
  forall k b, accounts !! k = Some b -> RiderBankAccount.rider b = rider ->
              (RiderBankAccount.is_primary b = true <-> k = pk).

(** The callers [RiderBankAccountViewSet] shows an account to: an admin,
    and the rider whose profile the account belongs to. *)
Definition may_address (t : Tables) (user : User.t) (a : RiderBankAccount.t) : Prop :=
  User.is_admin_user user = true \/
  (User.is_rider user = true /\ only_profile (db t) user (RiderBankAccount.rider a)).

(** The user has no rider profile. *)
Definition no_profile (st : Store) (user : User.t) : Prop :=
  forall profile, rider_profiles st !! profile ≠ Some (User.pk user).

(** What the update of [set_primary] and of [RiderBankAccount.save] does
    to one account. *)
Definition demoted (rider : Z) (a : RiderBankAccount.t) : RiderBankAccount.t :=
  if bool_decide (RiderBankAccount.rider a = rider) && RiderBankAccount.is_primary a
  then RiderBankAccount.set_is_primary false a else a.

(** The delivery under [pk] is stored, and the user is the rider it is
    assigned to. *)
Definition delivers (t : Tables) (user : User.t) (pk : Z) (d : Delivery.t) : Prop :=
  User.is_rider user = true /\
  deliveries (db t) !! pk = Some d /\
  rider_profiles (db t) !! Delivery.rider d = Some (User.pk user).

(** The tables a save of the delivery's two parts leaves. *)
Definition with_delivery (pk : Z) (d : Delivery.t) (log : DeliveryLog.t) (t : Tables) : Tables :=
  with_delivery_log (<[pk := log]> (delivery_log t))
    (with_db (with_deliveries (<[pk := d]> (deliveries (db t))) (db t)) t).

(** The tables with one order saved. *)
Definition with_order (pk : Z) (o : Order.t) (t : Tables) : Tables :=
  with_db (with_orders (<[pk := o]> (orders (db t))) (db t)) t.

(** The tables [DeliveryViewSet.accept], [pickup] and [report_issue] leave. *)
Definition tables_after_accept (now pk : Z) (d : Delivery.t) (o : Order.t) (t : Tables)
    : Tables :=
  with_order (Delivery.order d) (Order.set_status OrderStatus.out_for_delivery o)
    (with_delivery pk (Delivery.set_status "accepted" d)
       (DeliveryLog.set_accepted_at (Some now) (delivery_log_of t pk)) t).

Definition tables_after_pickup (now pk : Z) (notes : option string) (d : Delivery.t)
    (t : Tables) : Tables :=
  with_delivery pk
    (Delivery.set_pickup_notes (from_option id "" notes) (Delivery.set_status "in_transit" d))
    (DeliveryLog.set_picked_up_at (Some now) (delivery_log_of t pk)) t.

Definition failed_order (reason : option string) (o : Order.t) : Order.t :=
  Order.set_cancellation_reason ("Delivery failed: " +:+ from_option id "" reason)
    (Order.set_status OrderStatus.cancelled o).

Definition tables_after_report (pk : Z) (reason : option string) (d : Delivery.t)
    (o : Order.t) (t : Tables) : Tables :=
  with_order (Delivery.order d) (failed_order reason o)
    (with_delivery pk (Delivery.set_status "failed" d)
       (DeliveryLog.set_failure_reason (from_option id "" reason) (delivery_log_of t pk)) t).

Definition cannot_be_accepted : Response Body :=
  Response_status (error "Delivery cannot be accepted") 400.

(** The tables record delivery columns of stored deliveries only. *)
Definition logs_of_stored (t : Tables) : Prop :=
  forall k, deliveries (db t) !! k = None -> delivery_log t !! k = None.

(** A request that rates the vendor only, and one that rates the rider only. *)
Definition vendor_rating_request (order rating : Z) (review : option string)
    : OrderRatingData :=
  {| rating_order := Some order;
     rating_vendor_rating := Some rating;
     rating_vendor_review := review;
     rating_rider_rating := None;
     rating_rider_review := None |}.

Definition rider_rating_request (order rating : Z) (review : option string)
    : OrderRatingData :=
  {| rating_order := Some order;
     rating_vendor_rating := None;
     rating_vendor_review := None;
     rating_rider_rating := Some rating;
     rating_rider_review := review |}.

Definition order_rated : Response RateBody :=
  Response_ok (rate_message "Order rated successfully").

(** No rating of the vendor by the customer for the order is stored. *)
Definition not_rated_yet (t : Tables) (customer vendor order : Z) : Prop :=
  forall k r, ratings t !! k = Some r -> vendor_rating_lookup customer vendor order r = false.

(** The tables [t'] hold all that [t] holds: the store has only grown, and
    every rider profile, delivery, bank account and rating of which columns
    are recorded has them recorded still. *)
Definition tables_grow (t t' : Tables) : Prop :=
  grows (db t) (db t') /\
  dom (rider_state t) ⊆ dom (rider_state t') /\
  dom (delivery_log t) ⊆ dom (delivery_log t') /\
  dom (bank_accounts t) ⊆ dom (bank_accounts t') /\
  dom (ratings t) ⊆ dom (ratings t').

(** A computation whose final tables are always related by [R] to the
    tables it started on, whatever it ends with. *)
Definition preservedT (R : Tables -> Tables -> Prop) {A} (m : TM A) : Prop :=
  forall t, R t (m t).2.

(** ** Running a computation *)

Lemma bind_Done {A B} (m : M A) (k : A -> M B) st a st1 :
  m st = (Done a, st1) -> bind m k st = k a st1.
Proof. intros H. unfold bind. by rewrite H. Qed.

Lemma bind_Raised {A B} (m : M A) (k : A -> M B) st e st1 :
  m st = (Raised e, st1) -> bind m k st = (Raised e, st1).
Proof. intros H. unfold bind. by rewrite H. Qed.

Lemma try_except_Done {A} (m : M A) handles h st a st1 :
  m st = (Done a, st1) -> try_except m handles h st = (Done a, st1).
Proof. intros H. unfold try_except. by rewrite H. Qed.

Lemma try_except_Raised {A} (m : M A) handles h st e st1 :
  m st = (Raised e, st1) ->
  try_except m handles h st = if handles e then h e st1 else (Raised e, st1).
Proof. intros H. unfold try_except. by rewrite H. Qed.

(** ** The store operations *)

Lemma Order_save_numbered now pk o st :
  Order.order_number o ≠ "" ->
  Order_save now (pk, o) st = (Done (pk, o), with_orders (<[pk := o]> (orders st)) st).
Proof.
  intros Hn. unfold Order_save, bind. cbn.
  destruct (String.eqb_spec (Order.order_number o) "") as [E | _]; [done |].
  reflexivity.
Qed.

Lemma Order_objects_get_Some pk o st :
  orders st !! pk = Some o -> Order_objects_get pk st = (Done (pk, o), st).
Proof. intros H. unfold Order_objects_get. by rewrite H. Qed.

Lemma Payment_filter_only ref st pk p :
  only_match st ref pk p ->
  filter (fun kp : Z * Payment.t => Payment.external_reference kp.2 = ref) (payments st)
  = {[pk := p]}.
Proof.
  intros (Hp & Hr & Hu). apply map_eq. intros k.
  destruct (decide (k = pk)) as [-> | Hne].
  - rewrite lookup_singleton_eq. by apply map_lookup_filter_Some.
  - rewrite lookup_singleton_ne by done.
    apply map_lookup_filter_None. right. intros p' Hp' Hr'.
    apply Hne. eapply Hu; eauto.
Qed.

Lemma Payment_objects_get_only ref st pk p :
  only_match st ref pk p ->
  Payment_objects_get ref st = (Done (pk, p), st).
Proof.
  intros H. unfold Payment_objects_get.
  rewrite (Payment_filter_only _ _ _ _ H), map_to_list_singleton. reflexivity.
Qed.

Lemma Payment_objects_get_none ref st :
  (forall pk p, payments st !! pk = Some p -> Payment.external_reference p ≠ ref) ->
  Payment_objects_get ref st = (Raised (DoesNotExist "Payment"), st).
Proof.
  intros H. unfold Payment_objects_get.
  rewrite map_empty_filter_2, map_to_list_empty; [done |].
  intros k p Hp. cbn. exact (H k p Hp).
Qed.

Lemma Payment_objects_get_Done ref st st' inst :
  Payment_objects_get ref st = (Done inst, st') ->
  st' = st /\ only_match st ref inst.1 inst.2.
Proof.
  unfold Payment_objects_get.
  destruct (map_to_list _) as [| kp [| ? ?]] eqn:E; intros [= <- <-].
  split; [done |].
  assert (Hf : filter (fun kp : Z * Payment.t => Payment.external_reference kp.2 = ref)
                 (payments st) = {[kp.1 := kp.2]}).
  { apply map_to_list_inj. rewrite E, map_to_list_singleton. by destruct kp. }
  repeat split.
  - eapply map_lookup_filter_Some_1_1. rewrite Hf. apply lookup_singleton_eq.
  - eapply (map_lookup_filter_Some_1_2 (fun kp : Z * Payment.t =>
              Payment.external_reference kp.2 = ref)).
    rewrite Hf. apply lookup_singleton_eq.
  - intros pk' p' Hp' Hr'.
    assert (Hin : ({[kp.1 := kp.2]} : gmap Z Payment.t) !! pk' = Some p').
    { rewrite <- Hf. by apply map_lookup_filter_Some. }
    apply lookup_singleton_Some in Hin. by destruct Hin.
Qed.

Lemma Payment_objects_get_several ref st pk1 pk2 p1 p2 :
  pk1 ≠ pk2 ->
  payments st !! pk1 = Some p1 -> Payment.external_reference p1 = ref ->
  payments st !! pk2 = Some p2 -> Payment.external_reference p2 = ref ->
  Payment_objects_get ref st = (Raised MultipleObjectsReturned, st).
Proof.
  intros Hne H1 Hr1 H2 Hr2.
  destruct (Payment_objects_get ref st) as [[inst | e |] st'] eqn:E.
  - apply Payment_objects_get_Done in E as (_ & _ & _ & Hu).
    destruct Hne. by rewrite (Hu _ _ H1 Hr1), (Hu _ _ H2 Hr2).
  - revert E. unfold Payment_objects_get.
    destruct (map_to_list _) as [| kp [| ? ?]] eqn:El; intros [= <- <-]; [| done].
    apply map_to_list_empty_iff in El.
    assert (Hin : filter (fun kp : Z * Payment.t => Payment.external_reference kp.2 = ref)
                    (payments st) !! pk1 = Some p1) by by apply map_lookup_filter_Some.
    by rewrite El, lookup_empty in Hin.
  - revert E. unfold Payment_objects_get. by destruct (map_to_list _) as [| kp [| ? ?]].
Qed.

(** Saving a payment under its own reference keeps it the only match. *)
Lemma only_match_saved st ref pk p p' :
  only_match st ref pk p ->
  Payment.external_reference p' = ref ->
  forall st', payments st' = <[pk := p']> (payments st) ->
  only_match st' ref pk p'.
Proof.
  intros (Hp & Hr & Hu) Hr' st' Hst. unfold only_match. rewrite Hst. repeat split.
  - apply lookup_insert_eq.
  - done.
  - intros k q Hk Hq. destruct (decide (k = pk)) as [| Hne]; [done |].
    rewrite lookup_insert_ne in Hk by done. eauto.
Qed.

(** ** The M-Pesa callback *)

(** The callback view has no permission class: the handler runs for an
    anonymous caller as for any other. *)
Lemma MpesaCallbackView_open user now callback_data st :
  MpesaCallbackView user now callback_data st
  = MpesaCallbackView_post now callback_data st.
Proof. reflexivity. Qed.

Lemma truthy_JStr ref : ref ≠ "" -> truthy (JStr ref) = true.
Proof.
  intros H. cbn. by destruct (String.eqb_spec ref "").
Qed.

Lemma to_text_not_null desc reason : to_text desc = Some reason -> desc ≠ JNull.
Proof. by intros H ->. Qed.

Lemma mpesa_post_not_found now callback_data id ref code desc st :
  stk_fields callback_data id code desc ->
  truthy id = true ->
  to_text id = Some ref ->
  (forall pk p, payments st !! pk = Some p -> Payment.external_reference p ≠ ref) ->
  MpesaCallbackView_post now callback_data st
  = (Done (Response_status (error "Payment not found") 404), st).
Proof.
  intros (Hid & Hcode & Hdesc) Hne Href Hnone.
  unfold MpesaCallbackView_post, try_except, bind.
  rewrite Hid, Hcode, Hdesc. cbn [lift ret].
  rewrite Hne, Href. cbn [negb].
  by rewrite (Payment_objects_get_none _ _ Hnone).
Qed.

Lemma mpesa_post_invalid now callback_data id code desc st :
  stk_fields callback_data id code desc ->
  truthy id = false ->
  MpesaCallbackView_post now callback_data st
  = (Done (Response_status (error "Invalid callback data") 400), st).
Proof.
  intros (Hid & Hcode & Hdesc) Hne.
  unfold MpesaCallbackView_post, try_except, bind.
  rewrite Hid, Hcode, Hdesc. cbn [lift ret].
  by rewrite Hne.
Qed.

Lemma mpesa_post_several now callback_data id ref code desc st pk1 pk2 p1 p2 :
  stk_fields callback_data id code desc ->
  truthy id = true ->
  to_text id = Some ref ->
  pk1 ≠ pk2 ->
  payments st !! pk1 = Some p1 -> Payment.external_reference p1 = ref ->
  payments st !! pk2 = Some p2 -> Payment.external_reference p2 = ref ->
  MpesaCallbackView_post now callback_data st
  = (Done (Response_status (error "Callback processing failed") 500), st).
Proof.
  intros (Hid & Hcode & Hdesc) Hne Href Hpk H1 Hr1 H2 Hr2.
  unfold MpesaCallbackView_post, try_except, bind.
  rewrite Hid, Hcode, Hdesc. cbn [lift ret].
  rewrite Hne, Href. cbn [negb].
  by rewrite (Payment_objects_get_several _ _ _ _ _ _ Hpk H1 Hr1 H2 Hr2).
Qed.

Lemma mpesa_post_success now callback_data id ref code desc st pk p o :
  stk_fields callback_data id code desc ->
  truthy id = true ->
  to_text id = Some ref ->
  py_eq_zero code = true ->
  only_match st ref pk p ->
  orders st !! Payment.order p = Some o ->
  Order.order_number o ≠ "" ->
  MpesaCallbackView_post now callback_data st
  = (Done (Response_ok (message "Callback processed successfully")),
     store_after_success now callback_data pk p o st).
Proof.
  intros (Hid & Hcode & Hdesc) Hne Href Hzero Hm Ho Hn.
  unfold MpesaCallbackView_post, try_except, bind.
  rewrite Hid, Hcode, Hdesc. cbn [lift ret].
  rewrite Hne, Href. cbn [negb].
  rewrite (Payment_objects_get_only _ _ _ _ Hm). cbn [ret is_DoesNotExist fst snd].
  rewrite Hzero. cbn [Payment.order Payment.set_completed_at Payment.set_status].
  rewrite (Order_objects_get_Some _ _ _ Ho). cbn [fst snd].
  rewrite Order_save_numbered by done.
  reflexivity.
Qed.

Lemma mpesa_post_failure now callback_data id ref code desc reason st pk p o :
  stk_fields callback_data id code desc ->
  to_text desc = Some reason ->
  truthy id = true ->
  to_text id = Some ref ->
  py_eq_zero code = false ->
  only_match st ref pk p ->
  orders st !! Payment.order p = Some o ->
  Order.order_number o ≠ "" ->
  MpesaCallbackView_post now callback_data st
  = (Done (Response_ok (message "Callback processed successfully")),
     store_after_failure callback_data reason pk p o st).
Proof.
  intros (Hid & Hcode & Hdesc) Hreason Hne Href Hzero Hm Ho Hn.
  unfold MpesaCallbackView_post, try_except, bind.
  rewrite Hid, Hcode, Hdesc. cbn [lift ret].
  rewrite Hne, Href. cbn [negb].
  rewrite (Payment_objects_get_only _ _ _ _ Hm). cbn [ret is_DoesNotExist fst snd].
  rewrite Hzero. cbn [Payment.order Payment.set_status].
  rewrite (Order_objects_get_Some _ _ _ Ho). cbn [fst snd].
  rewrite Order_save_numbered by done.
  rewrite Hreason. by destruct desc.
Qed.

(** A callback that was answered 200 went through one of the two branches. *)
Lemma mpesa_post_processed now callback_data st resp st1 :
  orders_numbered st ->
  MpesaCallbackView_post now callback_data st = (Done resp, st1) ->
  status_code resp = 200 ->
  exists id ref code desc pk p o,
    stk_fields callback_data id code desc /\
    truthy id = true /\ to_text id = Some ref /\
    only_match st ref pk p /\
    orders st !! Payment.order p = Some o /\
    resp = Response_ok (message "Callback processed successfully") /\
    ((py_eq_zero code = true /\
      st1 = store_after_success now callback_data pk p o st) \/
     (py_eq_zero code = false /\
      exists reason, to_text desc = Some reason /\
        st1 = store_after_failure callback_data reason pk p o st)).
Proof.
  intros Hnum Hrun H200. revert Hrun.
  unfold MpesaCallbackView_post, try_except, bind.
  destruct (stkCallback_get callback_data "CheckoutRequestID") as [id | e] eqn:Hid;
    cbn [lift ret raise any_Exception];
    [| intros [= <- <-]; done].
  destruct (stkCallback_get callback_data "ResultCode") as [code | e] eqn:Hcode;
    cbn [lift ret raise any_Exception];
    [| intros [= <- <-]; done].
  destruct (stkCallback_get callback_data "ResultDesc") as [desc | e] eqn:Hdesc;
    cbn [lift ret raise any_Exception];
    [| intros [= <- <-]; done].
  destruct (truthy id) eqn:Htruthy; cbn [negb]; [| intros [= <- <-]; done].
  destruct (to_text id) as [ref |] eqn:Href; [| done].
  destruct (Payment_objects_get ref st) as [[inst | e |] st0] eqn:Hget;
    cbn [ret is_DoesNotExist]; [| | done].
  2:{ destruct (is_DoesNotExist "Payment" e); intros [= <- <-]; done. }
  apply Payment_objects_get_Done in Hget as [-> Hm]. destruct inst as [pk p].
  cbn [fst snd] in *.
  destruct (py_eq_zero code) eqn:Hzero.
  - cbn [Payment.order Payment.set_completed_at Payment.set_status].
    unfold Order_objects_get.
    destruct (orders st !! Payment.order p) as [o |] eqn:Ho;
      [| intros [= <- <-]; done].
    cbn [fst snd]. rewrite Order_save_numbered by exact (Hnum _ _ Ho).
    intros [= <- <-].
    exists id, ref, code, desc, pk, p, o.
    split_and!; [done .. | by left].
  - cbn [Payment.order Payment.set_status].
    unfold Order_objects_get.
    destruct (orders st !! Payment.order p) as [o |] eqn:Ho;
      [| intros [= <- <-]; done].
    cbn [fst snd]. rewrite Order_save_numbered by exact (Hnum _ _ Ho).
    destruct (to_text desc) as [reason |] eqn:Hreason.
    + assert (Hd := to_text_not_null _ _ Hreason).
      destruct desc; try done; intros [= <- <-];
        exists id, ref, code; eexists; exists pk, p, o;
        (split_and!; [done .. |]); right; (split; [done |]);
        eexists; (split; [exact Hreason | done]).
    + destruct desc; try done; intros [= <- <-]; done.
Qed.

Lemma store_after_failure_again callback_data reason pk p o st :
  store_after_failure callback_data reason pk
    (Payment.set_gateway_response (Some callback_data)
       (Payment.set_failure_reason reason (Payment.set_status PaymentStatus.failed p)))
    (Order.set_payment_status OrderPayment.failed o)
    (store_after_failure callback_data reason pk p o st)
  = store_after_failure callback_data reason pk p o st.
Proof.
  unfold store_after_failure, with_payments, with_orders. cbn.
  by rewrite !insert_insert_eq.
Qed.

(** C1 (as amended). Replaying a callback that was answered 200: the second
    delivery is answered 200 as well and leaves every order as the first
    delivery left it, so the order's payment status makes no second
    transition. With a result code other than the success code the replay
    changes nothing in the store. With the success code the payment stays
    'completed', but its [completed_at] is stamped again and one more
    tracking row is appended. *)
Theorem mpesa_callback_replay now1 now2 callback_data st resp st1 :
  orders_numbered st ->
  MpesaCallbackView_post now1 callback_data st = (Done resp, st1) ->
  status_code resp = 200 ->
  exists code st2,
    stkCallback_get callback_data "ResultCode" = Ok code /\
    MpesaCallbackView_post now2 callback_data st1 = (Done resp, st2) /\
    orders st2 = orders st1 /\
    if py_eq_zero code
    then exists pk p row,
           payments st1 !! pk = Some p /\
           Payment.status p = PaymentStatus.completed /\
           payments st2 = <[pk := Payment.set_completed_at (Some now2) p]> (payments st1) /\
           tracking st2 = row :: tracking st1
    else st2 = st1.
Proof.
  intros Hnum Hrun H200.
  destruct (mpesa_post_processed _ _ _ _ _ Hnum Hrun H200)
    as (id & ref & code & desc & pk & p & o & Hf & Ht & Href & Hm & Ho & -> & Hcase).
  exists code.
  destruct Hcase as [[Hzero ->] | [Hzero (reason & Hreason & ->)]]; rewrite Hzero.
  - set (p1 := Payment.set_gateway_response (Some callback_data)
                 (Payment.set_completed_at (Some now1)
                    (Payment.set_status PaymentStatus.completed p))).
    set (o1 := Order.set_payment_status OrderPayment.paid o).
    set (st1 := store_after_success now1 callback_data pk p o st).
    assert (Hm1 : only_match st1 ref pk p1).
    { eapply only_match_saved; [exact Hm | | reflexivity]. by destruct Hm as (_ & ? & _). }
    assert (Ho1 : orders st1 !! Payment.order p1 = Some o1) by apply lookup_insert_eq.
    assert (Hn1 : Order.order_number o1 ≠ "") by exact (Hnum _ _ Ho).
    eexists. split; [apply Hf |]. split.
    { exact (mpesa_post_success now2 _ _ _ _ _ _ _ _ _ Hf Ht Href Hzero Hm1 Ho1 Hn1). }
    split.
    { cbn. by rewrite insert_insert_eq. }
    exists pk, p1, (payment_tracking_row (Payment.order p1) o1).
    split_and!; [apply lookup_insert_eq | done | | done].
    cbn. by rewrite !insert_insert_eq.
  - set (p1 := Payment.set_gateway_response (Some callback_data)
                 (Payment.set_failure_reason reason
                    (Payment.set_status PaymentStatus.failed p))).
    set (o1 := Order.set_payment_status OrderPayment.failed o).
    set (st1 := store_after_failure callback_data reason pk p o st).
    assert (Hm1 : only_match st1 ref pk p1).
    { eapply only_match_saved; [exact Hm | | reflexivity]. by destruct Hm as (_ & ? & _). }
    assert (Ho1 : orders st1 !! Payment.order p1 = Some o1) by apply lookup_insert_eq.
    assert (Hn1 : Order.order_number o1 ≠ "") by exact (Hnum _ _ Ho).
    exists st1. split; [apply Hf |]. split.
    { rewrite (mpesa_post_failure now2 _ _ _ _ _ _ _ _ _ _ Hf Hreason Ht Href Hzero Hm1 Ho1 Hn1).
      f_equal. apply store_after_failure_again. }
    done.
Qed.

Lemma stkCallback_get_cases callback_data :
  unreadable callback_data \/ exists id code desc, stk_fields callback_data id code desc.
Proof.
  unfold unreadable, stk_fields, stkCallback_get.
  destruct (py_get callback_data "Body" (JDict [])) as [body | e]; [| left; by eexists].
  destruct (py_get body "stkCallback" (JDict [])) as [stk | e]; [| left; by eexists].
  destruct stk; cbn; try (left; by eexists).
  right. by eexists _, _, _.
Qed.

Lemma mpesa_post_unreadable now callback_data st :
  unreadable callback_data ->
  MpesaCallbackView_post now callback_data st
  = (Done (Response_status (error "Callback processing failed") 500), st).
Proof.
  intros [e He]. unfold MpesaCallbackView_post, try_except, bind.
  by rewrite He.
Qed.

(** C2 (as amended). Every callback either cannot be read (the body, its
    [Body] or the [stkCallback] in it is no JSON object) or gives the
    handler its three fields. A callback that cannot be read is answered
    500 and changes nothing. Of one that can be read: without a
    CheckoutRequestID, or with an empty one, it is answered 400 and changes
    nothing. When the CheckoutRequestID is a non-empty text: when no
    payment carries it as [external_reference] the handler answers 404 and
    changes nothing; when exactly one payment carries it, and the order of
    that payment is stored with its number, a ResultCode equal to 0 makes
    the payment 'completed' with [completed_at] set, the order 'paid', and
    writes one tracking row with the order's current status; any other
    code, with a text ResultDesc, makes the payment 'failed' with that text
    recorded and the order 'failed'; in both cases the payment keeps the
    whole body as [gateway_response]; when several payments carry it the
    handler answers 500 and changes nothing. *)
Theorem mpesa_callback_outcomes now callback_data st :
  (unreadable callback_data \/
   exists id code desc, stk_fields callback_data id code desc) /\
  (unreadable callback_data ->
   MpesaCallbackView_post now callback_data st
   = (Done (Response_status (error "Callback processing failed") 500), st)) /\
  (forall id code desc,
     stk_fields callback_data id code desc ->
     (truthy id = false ->
      MpesaCallbackView_post now callback_data st
      = (Done (Response_status (error "Invalid callback data") 400), st)) /\
     (forall ref,
        id = JStr ref -> ref ≠ "" ->
        (forall pk p, payments st !! pk = Some p -> Payment.external_reference p ≠ ref) ->
        MpesaCallbackView_post now callback_data st
        = (Done (Response_status (error "Payment not found") 404), st)) /\
     (forall ref pk p o,
        id = JStr ref -> ref ≠ "" ->
        only_match st ref pk p ->
        orders st !! Payment.order p = Some o ->
        Order.order_number o ≠ "" ->
        py_eq_zero code = true ->
        exists st',
          MpesaCallbackView_post now callback_data st
          = (Done (Response_ok (message "Callback processed successfully")), st') /\
          (exists p', payments st' !! pk = Some p' /\
             Payment.status p' = PaymentStatus.completed /\
             Payment.completed_at p' = Some now /\
             Payment.gateway_response p' = Some callback_data) /\
          (exists o', orders st' !! Payment.order p = Some o' /\
             Order.payment_status o' = OrderPayment.paid /\
             Order.status o' = Order.status o) /\
          (exists row, tracking st' = row :: tracking st /\
             OrderTracking.order row = Payment.order p /\
             OrderTracking.status row = Order.status o)) /\
     (forall ref pk p o reason,
        id = JStr ref -> ref ≠ "" ->
        only_match st ref pk p ->
        orders st !! Payment.order p = Some o ->
        Order.order_number o ≠ "" ->
        py_eq_zero code = false ->
        desc = JStr reason ->
        exists st',
          MpesaCallbackView_post now callback_data st
          = (Done (Response_ok (message "Callback processed successfully")), st') /\
          (exists p', payments st' !! pk = Some p' /\
             Payment.status p' = PaymentStatus.failed /\
             Payment.failure_reason p' = reason /\
             Payment.gateway_response p' = Some callback_data) /\
          (exists o', orders st' !! Payment.order p = Some o' /\
             Order.payment_status o' = OrderPayment.failed) /\
          tracking st' = tracking st) /\
     (forall ref pk1 pk2 p1 p2,
        id = JStr ref -> ref ≠ "" ->
        pk1 ≠ pk2 ->
        payments st !! pk1 = Some p1 -> Payment.external_reference p1 = ref ->
        payments st !! pk2 = Some p2 -> Payment.external_reference p2 = ref ->
        MpesaCallbackView_post now callback_data st
        = (Done (Response_status (error "Callback processing failed") 500), st))).
Proof.
  split; [apply stkCallback_get_cases |].
  split; [apply mpesa_post_unreadable |].
  intros id code desc Hf. split_and!.
  - intros Ht. by eapply mpesa_post_invalid.
  - intros ref -> Hne Hnone. eapply mpesa_post_not_found; [done | | done ..].
    by apply truthy_JStr.
  - intros ref pk p o -> Hne Hm Ho Hn Hzero. pose proof (truthy_JStr _ Hne) as Ht.
    eexists. split.
    { exact (mpesa_post_success now _ _ _ _ _ _ _ _ _ Hf Ht eq_refl Hzero Hm Ho Hn). }
    split_and!.
    + eexists. split; [apply lookup_insert_eq | done].
    + eexists. split; [apply lookup_insert_eq | done].
    + eexists. split; [reflexivity | done].
  - intros ref pk p o reason -> Hne Hm Ho Hn Hzero ->.
    pose proof (truthy_JStr _ Hne) as Ht. eexists. split.
    { exact (mpesa_post_failure now _ _ _ _ _ reason _ _ _ _ Hf eq_refl Ht eq_refl Hzero Hm Ho Hn). }
    split_and!.
    + eexists. split; [apply lookup_insert_eq | done].
    + eexists. split; [apply lookup_insert_eq | done].
    + done.
  - intros ref pk1 pk2 p1 p2 -> Hne Hpk H1 Hr1 H2 Hr2.
    eapply mpesa_post_several; [done | by apply truthy_JStr | done ..].
Qed.

(** ** Order creation *)

Lemma Order_save_Done now inst st inst' st' :
  Order_save now inst st = (Done inst', st') ->
  inst'.1 = inst.1 /\
  st' = with_orders (<[inst.1 := inst'.2]> (orders st)) st /\
  (inst'.2 = inst.2 \/ exists number, inst'.2 = Order.set_order_number number inst.2).
Proof.
  unfold Order_save, bind. destruct inst as [pk o]. cbn [fst snd].
  destruct (String.eqb (Order.order_number o) "").
  - destruct (generate_order_number now st) as [number | e]; cbn; [| done].
    intros [= <- <-]. split_and!; [done .. |]. right. by eexists.
  - cbn. intros [= <- <-]. split_and!; [done .. |]. by left.
Qed.

(** Orders are written by [Order.save] only, and a saved order has a
    number as soon as the generator never gives an empty one: the stores the
    views reach from numbered orders hold numbered orders. *)
Lemma Order_save_keeps_numbered now inst st r st' :
  (forall t s number, generate_order_number t s = Ok number -> number ≠ "") ->
  orders_numbered st ->
  Order_save now inst st = (r, st') ->
  orders_numbered st'.
Proof.
  intros Hgen Hnum. unfold Order_save, bind. destruct inst as [pk o]. cbn [fst snd].
  destruct (String.eqb_spec (Order.order_number o) "") as [He | Hne].
  - destruct (generate_order_number now st) as [number | e] eqn:Hg; cbn.
    + intros [= <- <-]. apply map_Forall_insert_2; [| done].
      cbn. by eapply Hgen.
    + by intros [= <- <-].
  - cbn. intros [= <- <-]. by apply map_Forall_insert_2.
Qed.

Lemma resolve_unit_price_spec vendor item st :
  resolve_unit_price vendor item st = (Done (line_unit_price st vendor item), st).
Proof.
  unfold resolve_unit_price, line_unit_price, try_except, bind, VendorInventory_objects_get.
  by destruct (inventory st !! _).
Qed.

Lemma create_item_Done order acc item st acc' st' :
  OrderCreateSerializer_create_item order acc item st = (Done acc', st') ->
  exists price,
    line_unit_price st (Order.vendor order.2) item = Some price /\
    acc' = acc + item_quantity item * price /\
    st' = with_order_items (item_row order.1 item price :: order_items st) st.
Proof.
  unfold OrderCreateSerializer_create_item, bind.
  rewrite resolve_unit_price_spec.
  destruct (line_unit_price st (Order.vendor order.2) item) as [price |]; cbn; [| done].
  intros [= <- <-]. by exists price.
Qed.

Lemma create_items_loop order items : forall acc st total st',
  for_fold items acc (OrderCreateSerializer_create_item order) st = (Done total, st') ->
  exists rows,
    rows_of st (Order.vendor order.2) order.1 items rows /\
    total = acc + rows_total rows /\
    st' = with_order_items (rev rows ++ order_items st) st.
Proof.
  induction items as [| item rest IH]; intros acc st total st'; cbn [for_fold].
  - intros [= <- <-]. exists [].
    split_and!; [constructor | unfold rows_total, Decimal2 in *; cbn [foldr]; lia | by destruct st].
  - unfold bind at 1.
    destruct (OrderCreateSerializer_create_item order acc item st) as [[acc1 | e |] st1] eqn:E;
      [| done ..].
    apply create_item_Done in E as (price & Hprice & -> & ->).
    intros Hrest. apply IH in Hrest as (rows & Hrows & -> & ->).
    exists (item_row order.1 item price :: rows). split_and!.
    + constructor; [by exists price | exact Hrows].
    + unfold rows_total, Decimal2 in *.
      cbn [foldr item_row OrderItem.quantity OrderItem.unit_price]. lia.
    + cbn [rev]. rewrite <- app_assoc. reflexivity.
Qed.

Lemma rows_of_inventory st st' vendor pk items rows :
  inventory st' = inventory st ->
  rows_of st' vendor pk items rows -> rows_of st vendor pk items rows.
Proof.
  intros Hinv. unfold rows_of, line_unit_price. by rewrite Hinv.
Qed.

(** What a completed [OrderCreateSerializer.create] has written. *)
Lemma create_Done now user data st order st' :
  OrderCreateSerializer_create now user data st = (Done order, st') ->
  exists rows,
    rows_of st (create_vendor data).1 order.1 (create_items data) rows /\
    orders st' = <[order.1 := order.2]> (orders st) /\
    order_items st' = rev rows ++ order_items st /\
    tracking st' = creation_row order.1 (User.pk user) :: tracking st /\
    payments st' = payments st /\
    Order.status order.2 = OrderStatus.pending /\
    Order.payment_status order.2 = OrderPayment.pending /\
    Order.customer order.2 = User.pk user /\
    Order.subtotal order.2 = rows_total rows /\
    Order.delivery_fee order.2 = VendorProfile.delivery_fee (create_vendor data).2 /\
    Order.total_amount order.2
    = rows_total rows + VendorProfile.delivery_fee (create_vendor data).2.
Proof.
  unfold OrderCreateSerializer_create, Order_objects_create.
  unfold bind at 1. unfold bind at 1. cbn [gets].
  destruct (Order_save now _ st) as [[[pk0 o0] | e |] st0] eqn:E0; [| done ..].
  apply Order_save_Done in E0 as (Hpk0 & -> & Ho0). cbn [fst snd] in Hpk0, Ho0.
  unfold bind at 1.
  destruct (for_fold _ _ _ _) as [[subtotal | e |] st1] eqn:E1; [| done ..].
  apply create_items_loop in E1 as (rows & Hrows & -> & ->).
  unfold bind at 1.
  destruct (Order_save now _ _) as [[[pk1 o1] | e |] st2] eqn:E2; [| done ..].
  apply Order_save_Done in E2 as (Hpk1 & -> & Ho1). cbn [fst snd] in Hpk1, Ho1.
  unfold bind, OrderTracking_objects_create, modify, ret. intros [= <- <-].
  cbn [fst snd] in *. subst pk1. exists rows.
  assert (Hv : Order.vendor o0 = (create_vendor data).1).
  { by destruct Ho0 as [-> | [number ->]]. }
  assert (Hc : Order.customer o0 = User.pk user).
  { by destruct Ho0 as [-> | [number ->]]. }
  assert (Hs : Order.status o0 = OrderStatus.pending).
  { by destruct Ho0 as [-> | [number ->]]. }
  assert (Hp : Order.payment_status o0 = OrderPayment.pending).
  { by destruct Ho0 as [-> | [number ->]]. }
  rewrite Hv in Hrows.
  split_and!.
  - eapply rows_of_inventory; [| exact Hrows]. reflexivity.
  - cbn [orders with_orders with_order_items with_tracking fst snd].
    rewrite <- Hpk0. by rewrite insert_insert_eq.
  - reflexivity.
  - cbn. unfold creation_row.
    by destruct Ho1 as [-> | [number ->]]; cbn; rewrite Hc.
  - reflexivity.
  - by destruct Ho1 as [-> | [number ->]].
  - by destruct Ho1 as [-> | [number ->]].
  - by destruct Ho1 as [-> | [number ->]].
  - destruct Ho1 as [-> | [number ->]]; cbn; unfold Decimal2 in *; lia.
  - by destruct Ho1 as [-> | [number ->]].
  - destruct Ho1 as [-> | [number ->]]; cbn; unfold Decimal2 in *; lia.
Qed.



Lemma validate_items_Ok items items' :
  validate_items items = Ok items' ->
  items' = items /\ items ≠ [] /\ Forall (fun item => 0 < item_quantity item) items.
Proof.
  unfold validate_items. destruct items as [| item rest]; [done |].
  destruct (validate_items_loop (item :: rest)) as [[] | e] eqn:E; [| done].
  intros [= <-]. split_and!; [done .. |].
  revert E. generalize (item :: rest). clear.
  induction l as [| x l IH]; cbn [validate_items_loop]; [by constructor |].
  destruct (Z.leb_spec (item_quantity x) 0); [done |].
  intros E. constructor; [lia | auto].
Qed.

(** A 201 of [CreateOrderView.post] is a completed serializer [create]. *)
Lemma CreateOrderView_created now user data st order st' :
  CreateOrderView_post now user data st = (Done (Response_status (created order) 201), st') ->
  User.is_customer user = true /\
  validate_items (create_items data) = Ok (create_items data) /\
  OrderCreateSerializer_create now user data st = (Done order, st').
Proof.
  unfold CreateOrderView_post.
  destruct (User.is_customer user); cbn [negb]; [| done].
  destruct (validate_items (create_items data)) as [items | e] eqn:Hv.
  - apply validate_items_Ok in Hv as (-> & _). unfold bind.
    destruct (OrderCreateSerializer_create now user data st) as [[order' | e |] st1];
      [| done ..].
    by intros [= -> ->].
  - by destruct e.
Qed.

(** A 201 of [OrderViewSet.create] is a completed serializer [create]
    followed by the tracking row of [perform_create]. *)
Lemma OrderViewSet_created now user data st order st' :
  OrderViewSet_create now user data st = (Done (Response_status (created order) 201), st') ->
  User.is_customer user = true /\
  validate_items (create_items data) = Ok (create_items data) /\
  exists st1,
    OrderCreateSerializer_create now user data st = (Done order, st1) /\
    st' = with_tracking (creation_row order.1 (User.pk user) :: tracking st1) st1.
Proof.
  unfold OrderViewSet_create, OrderViewSet_perform_create, bind.
  destruct (validate_items (create_items data)) as [items | e] eqn:Hv; cbn [lift ret raise];
    [| done].
  apply validate_items_Ok in Hv as (-> & _).
  destruct (User.is_customer user); cbn [negb raise]; [| done].
  destruct (OrderCreateSerializer_create now user data st) as [[order' | e |] st1];
    [| done ..].
  cbn. intros [= -> <-]. split_and!; [done .. |]. by exists st1.
Qed.

(** C3. A successfully created order, by either creation view, is stored
    with [total_amount] equal to the sum over its items of
    [quantity * unit_price] plus the delivery fee, the fee being the
    vendor's flat fee and each unit price the vendor's inventory price
    (refill or selling) when the vendor has a row for the product and the
    catalogue's (refill or base) otherwise. *)
Theorem created_order_total now user data st pk o st' :
  CreateOrderView_post now user data st
  = (Done (Response_status (created (pk, o)) 201), st') \/
  OrderViewSet_create now user data st
  = (Done (Response_status (created (pk, o)) 201), st') ->
  exists rows,
    create_items data ≠ [] /\
    rows_of st (create_vendor data).1 pk (create_items data) rows /\
    order_items st' = rev rows ++ order_items st /\
    orders st' !! pk = Some o /\
    Order.delivery_fee o = VendorProfile.delivery_fee (create_vendor data).2 /\
    Order.total_amount o = rows_total rows + Order.delivery_fee o.
Proof.
  intros [H | H].
  - apply CreateOrderView_created in H as (_ & Hv & Hc).
    apply validate_items_Ok in Hv as (_ & Hne & _).
    apply create_Done in Hc
      as (rows & Hrows & Ho & Hi & _ & _ & _ & _ & _ & _ & Hfee & Htotal).
    exists rows. cbn [fst snd] in *. split_and!; try done.
    + rewrite Ho. apply lookup_insert_eq.
    + by rewrite Hfee.
  - apply OrderViewSet_created in H as (_ & Hv & st1 & Hc & ->).
    apply validate_items_Ok in Hv as (_ & Hne & _).
    apply create_Done in Hc
      as (rows & Hrows & Ho & Hi & _ & _ & _ & _ & _ & _ & Hfee & Htotal).
    exists rows. cbn [fst snd] in *. split_and!; try done.
    + cbn. rewrite Ho. apply lookup_insert_eq.
    + by rewrite Hfee.
Qed.


(** A caller who is not a customer is turned down before the items are
    looked at, and nothing is written either. *)
Lemma CreateOrderView_not_customer now user data st :
  User.is_customer user = false ->
  CreateOrderView_post now user data st
  = (Done (Response_status (create_error "Only customers can create orders") 403), st).
Proof. intros H. unfold CreateOrderView_post. by rewrite H. Qed.

(** Through [CreateOrderView] a creation writes exactly one tracking row,
    'pending' with the note "Order created successfully", and the order is
    stored 'pending', unpaid, with one item row per line. *)
Lemma CreateOrderView_one_tracking_row now user data st pk o st' :
  CreateOrderView_post now user data st
  = (Done (Response_status (created (pk, o)) 201), st') ->
  tracking st' = creation_row pk (User.pk user) :: tracking st /\
  orders st' !! pk = Some o /\
  Order.status o = OrderStatus.pending /\
  Order.payment_status o = OrderPayment.pending /\
  exists rows,
    rows_of st (create_vendor data).1 pk (create_items data) rows /\
    order_items st' = rev rows ++ order_items st.
Proof.
  intros H. apply CreateOrderView_created in H as (_ & _ & Hc).
  apply create_Done in Hc
    as (rows & Hrows & Ho & Hi & Ht & _ & Hs & Hp & _).
  cbn [fst snd] in *. split_and!; try done.
  - rewrite Ho. apply lookup_insert_eq.
  - by exists rows.
Qed.

(** Through the viewset a creation writes that row twice: once in the
    serializer's [create], once more in [perform_create]. *)
Lemma OrderViewSet_two_tracking_rows now user data st pk o st' :
  OrderViewSet_create now user data st
  = (Done (Response_status (created (pk, o)) 201), st') ->
  tracking st'
  = creation_row pk (User.pk user) :: creation_row pk (User.pk user) :: tracking st.
Proof.
  intros H. apply OrderViewSet_created in H as (_ & _ & st1 & Hc & ->).
  apply create_Done in Hc as (rows & _ & _ & _ & Ht & _).
  cbn [fst snd] in *. cbn. by rewrite Ht.
Qed.

(** ** The status actions *)

Lemma get_object_cases user pk st :
  OrderViewSet_get_object user pk st = (Raised Http404, st) \/
  exists o, orders st !! pk = Some o /\
            OrderViewSet_in_queryset st user o = true /\
            OrderViewSet_get_object user pk st = (Done (pk, o), st).
Proof.
  unfold OrderViewSet_get_object.
  destruct (orders st !! pk) as [o |]; [| by left].
  destruct (OrderViewSet_in_queryset st user o) eqn:E; [| by left].
  right. by exists o.
Qed.

Lemma get_object_Some user pk o st :
  orders st !! pk = Some o ->
  OrderViewSet_in_queryset st user o = true ->
  OrderViewSet_get_object user pk st = (Done (pk, o), st).
Proof. intros Ho Hq. unfold OrderViewSet_get_object. by rewrite Ho, Hq. Qed.

(** The permission tests read the store and leave it alone. *)
Lemma vendor_user_is_cases o user st :
  (exists b, vendor_user_is o user st = (Done b, st)) \/
  vendor_user_is o user st = (Raised (DoesNotExist "VendorProfile"), st).
Proof.
  unfold vendor_user_is, bind, VendorProfile_objects_get.
  destruct (vendor_profiles st !! Order.vendor o); [left; by eexists | by right].
Qed.

Lemma not_owning_vendor_cases o user st :
  (exists b, not_owning_vendor o user st = (Done b, st)) \/
  not_owning_vendor o user st = (Raised (DoesNotExist "VendorProfile"), st).
Proof.
  unfold not_owning_vendor.
  destruct (User.is_vendor user); cbn [negb]; [| left; by eexists].
  unfold bind.
  destruct (vendor_user_is_cases o user st) as [[b ->] | ->];
    [left; by eexists | by right].
Qed.

Lemma may_cancel_cases o user st :
  (exists b, may_cancel o user st = (Done b, st)) \/
  may_cancel o user st = (Raised (DoesNotExist "VendorProfile"), st).
Proof.
  unfold may_cancel.
  destruct (bool_decide (Order.customer o = User.pk user)); [left; by eexists |].
  unfold bind.
  destruct (User.is_vendor user).
  - destruct (vendor_user_is_cases o user st) as [[[] ->] | ->];
      [left; by eexists | left; by eexists | by right].
  - left. by eexists.
Qed.

Lemma cancel_order_numbered now user pk o reason text st :
  Order.order_number o ≠ "" ->
  to_text reason = Some text ->
  cancel_order now user (pk, o) reason st
  = (Done (Response_ok (message "Order cancelled successfully")),
     store_after_cancel user pk o text st).
Proof.
  intros Hn Ht. unfold cancel_order. rewrite Ht.
  destruct reason; try done; unfold bind; cbn [fst snd];
    by rewrite Order_save_numbered.
Qed.

Lemma cancel_order_null now user pk o st :
  Order.order_number o ≠ "" ->
  cancel_order now user (pk, o) JNull st = (Raised IntegrityError, st).
Proof.
  intros Hn. unfold cancel_order, Order_save_refused, bind. cbn [fst snd Order.order_number
    Order.set_status].
  by destruct (String.eqb_spec (Order.order_number o) "").
Qed.

(** The write of a cancellation, on an order that has its number: the
    order is cancelled, or nothing is written. *)
Lemma cancel_order_cases now user pk o reason st :
  Order.order_number o ≠ "" ->
  (exists text, to_text reason = Some text /\
     cancel_order now user (pk, o) reason st
     = (Done (Response_ok (message "Order cancelled successfully")),
        store_after_cancel user pk o text st)) \/
  (exists r, cancel_order now user (pk, o) reason st = (r, st) /\
             (r = Raised IntegrityError \/ r = Unmodelled)).
Proof.
  intros Hn. destruct (to_text reason) as [text |] eqn:Ht.
  - left. exists text. split; [done |]. by apply cancel_order_numbered.
  - right. destruct reason; try done.
    + exists (Raised IntegrityError). split; [by apply cancel_order_null | by left].
    + exists Unmodelled. split; [done | by right].
    + exists Unmodelled. split; [done | by right].
Qed.

(** Each cancellation view either turns the caller down and leaves the
    store as it was, or reaches the write with an order that may be
    cancelled. *)
Lemma OrderViewSet_cancel_cases now user pk reason st :
  (exists r, OrderViewSet_cancel now user pk reason st = (r, st) /\ rejected r) \/
  (exists o, orders st !! pk = Some o /\
     OrderViewSet_in_queryset st user o = true /\
     may_cancel o user st = (Done true, st) /\
     cannot_be_cancelled o = false /\
     OrderViewSet_cancel now user pk reason st
     = cancel_order now user (pk, o) (from_option id (JStr "No reason provided") reason) st).
Proof.
  unfold OrderViewSet_cancel, bind.
  destruct (get_object_cases user pk st) as [-> | (o & Ho & Hq & ->)].
  { left. by eexists. }
  cbn [fst snd].
  destruct (may_cancel_cases o user st) as [[[] Hm] | Hm]; rewrite Hm; cbn [negb].
  - destruct (cannot_be_cancelled o) eqn:Hc.
    + left. eexists. split; [reflexivity | cbn; lia].
    + right. exists o. by split_and!.
  - left. eexists. split; [reflexivity | cbn; lia].
  - left. by eexists.
Qed.

Lemma CancelOrderView_cases now user order_id reason st :
  (exists r, CancelOrderView_post now user order_id reason st = (r, st) /\ rejected r) \/
  (exists pk o, order_id = Some pk /\ pk ≠ 0 /\ orders st !! pk = Some o /\
     may_cancel o user st = (Done true, st) /\
     cannot_be_cancelled o = false /\
     (forall r st',
        cancel_order now user (pk, o)
          (from_option id (JStr "Customer requested cancellation") reason) st = (r, st') ->
        (forall e, r = Raised e -> is_DoesNotExist "Order" e = false) ->
        CancelOrderView_post now user order_id reason st = (r, st'))).
Proof.
  unfold CancelOrderView_post.
  destruct order_id as [pk |]; cbn [id_not_given from_option id];
    [| left; eexists; split; [reflexivity | cbn; lia]].
  destruct (Z.eqb_spec pk 0) as [-> | Hne];
    [left; eexists; split; [reflexivity | cbn; lia] |].
  destruct (orders st !! pk) as [o |] eqn:Ho.
  2:{ left. exists (Done (Response_status (error "Order not found") 404)).
      split; [| cbn; lia].
      rewrite (try_except_Raised _ _ _ _ (DoesNotExist "Order") st); [reflexivity |].
      apply bind_Raised. unfold Order_objects_get. by rewrite Ho. }
  pose proof (Order_objects_get_Some _ _ _ Ho) as Hget.
  destruct (may_cancel_cases o user st) as [[[] Hm] | Hm].
  - destruct (cannot_be_cancelled o) eqn:Hc.
    + left. exists (Done (Response_status (error "Order cannot be cancelled") 400)).
      split; [| cbn; lia].
      apply try_except_Done. erewrite bind_Done by exact Hget.
      erewrite bind_Done by exact Hm. cbn [negb snd]. by rewrite Hc.
    + right. exists pk, o. split_and!; try done.
      intros r st' Hrun Hexn. unfold try_except.
      erewrite bind_Done by exact Hget.
      erewrite bind_Done by exact Hm. cbn [negb snd]. rewrite Hc, Hrun.
      destruct r as [resp | e |]; [done | | done].
      by rewrite (Hexn e eq_refl).
  - left. exists (Done (Response_status (error "Permission denied") 403)).
    split; [| cbn; lia].
    apply try_except_Done. erewrite bind_Done by exact Hget.
    by erewrite bind_Done by exact Hm.
  - left. exists (Raised (DoesNotExist "VendorProfile")). split; [| done].
    rewrite (try_except_Raised _ _ _ _ (DoesNotExist "VendorProfile") st); [reflexivity |].
    erewrite bind_Done by exact Hget. apply bind_Raised. exact Hm.
Qed.

Lemma confirm_not_pending now user pk estimated_time st o :
  orders st !! pk = Some o ->
  Order.status o ≠ OrderStatus.pending ->
  exists r, OrderViewSet_confirm now user pk estimated_time st = (r, st) /\ rejected r.
Proof.
  intros Ho Hs. unfold OrderViewSet_confirm.
  destruct (get_object_cases user pk st) as [Hg | (o' & Ho' & Hq & Hg)].
  { exists (Raised Http404). split; [by apply bind_Raised | done]. }
  rewrite Ho in Ho'. injection Ho' as <-.
  erewrite bind_Done by exact Hg. cbn [snd].
  destruct (not_owning_vendor_cases o user st) as [[[] Hd] | Hd].
  - exists (Done (Response_status (error "Permission denied") 403)).
    split; [by erewrite bind_Done by exact Hd | cbn; lia].
  - exists (Done (Response_status (error "Order cannot be confirmed") 400)).
    split; [| cbn; lia].
    erewrite bind_Done by exact Hd.
    by rewrite bool_decide_eq_false_2.
  - exists (Raised (DoesNotExist "VendorProfile")). split; [by apply bind_Raised | done].
Qed.

Lemma cannot_be_cancelled_true o :
  cannot_be_cancelled o = true <->
  Order.status o = OrderStatus.delivered \/ Order.status o = OrderStatus.cancelled.
Proof.
  unfold cannot_be_cancelled. by rewrite orb_true_iff, !bool_decide_eq_true.
Qed.

Lemma cancel_views_reject now user pk reason st o :
  orders st !! pk = Some o ->
  cannot_be_cancelled o = true ->
  (exists r, OrderViewSet_cancel now user pk reason st = (r, st) /\ rejected r) /\
  (exists r, CancelOrderView_post now user (Some pk) reason st = (r, st) /\ rejected r).
Proof.
  intros Ho Hc. split.
  - destruct (OrderViewSet_cancel_cases now user pk reason st)
      as [H | (o' & Ho' & _ & _ & Hc' & _)]; [done |].
    rewrite Ho in Ho'. injection Ho' as <-. congruence.
  - destruct (CancelOrderView_cases now user (Some pk) reason st)
      as [H | (pk' & o' & [= <-] & _ & Ho' & _ & Hc' & _)]; [done |].
    rewrite Ho in Ho'. injection Ho' as <-. congruence.
Qed.

(** C5 (as amended). An order that is not 'pending' cannot be confirmed,
    and an order that is 'delivered' or 'cancelled' cannot be cancelled, by
    either cancellation view: the caller is turned down and the store is
    left as it was, so the status is unchanged and no tracking row is
    written. *)
Theorem confirm_cancel_reject_invalid now user pk st o :
  orders st !! pk = Some o ->
  (Order.status o ≠ OrderStatus.pending ->
   forall estimated_time,
     exists r, OrderViewSet_confirm now user pk estimated_time st = (r, st) /\ rejected r) /\
  (Order.status o = OrderStatus.delivered \/ Order.status o = OrderStatus.cancelled ->
   forall reason,
     (exists r, OrderViewSet_cancel now user pk reason st = (r, st) /\ rejected r) /\
     (exists r, CancelOrderView_post now user (Some pk) reason st = (r, st) /\ rejected r)).
Proof.
  intros Ho. split.
  - intros Hs estimated_time. by eapply confirm_not_pending.
  - intros Hs reason. apply cancel_views_reject with o; [done |].
    by apply cannot_be_cancelled_true.
Qed.

(** C6 (as amended). A cancellation of an order that is 'delivered' or
    'cancelled' is turned down, by either view and for every caller and
    reason, and the store is left as it was: status and cancellation
    reason unchanged, no tracking row. For an order in any other status and
    a caller the view admits (the customer of the order, the vendor's user,
    or an admin): when no reason is given, or the reason is a text, a
    number or a boolean, the order is cancelled, the answer is 200 and the
    stored status is 'cancelled'; when the reason is null, the request
    fails with [IntegrityError] and nothing is written. *)
Theorem cancel_guard now user pk reason st o :
  orders st !! pk = Some o ->
  (Order.status o = OrderStatus.delivered \/ Order.status o = OrderStatus.cancelled ->
   (exists r, OrderViewSet_cancel now user pk reason st = (r, st) /\ rejected r) /\
   (exists r, CancelOrderView_post now user (Some pk) reason st = (r, st) /\ rejected r)) /\
  (Order.status o ≠ OrderStatus.delivered ->
   Order.status o ≠ OrderStatus.cancelled ->
   Order.order_number o ≠ "" ->
   may_cancel o user st = (Done true, st) ->
   (reason_taken reason ->
    (OrderViewSet_in_queryset st user o = true ->
     exists st',
       OrderViewSet_cancel now user pk reason st
       = (Done (Response_ok (message "Order cancelled successfully")), st') /\
       Order.status <$> orders st' !! pk = Some OrderStatus.cancelled) /\
    (pk ≠ 0 ->
     exists st',
       CancelOrderView_post now user (Some pk) reason st
       = (Done (Response_ok (message "Order cancelled successfully")), st') /\
       Order.status <$> orders st' !! pk = Some OrderStatus.cancelled)) /\
   (reason = Some JNull ->
    (OrderViewSet_in_queryset st user o = true ->
     OrderViewSet_cancel now user pk reason st = (Raised IntegrityError, st)) /\
    (pk ≠ 0 ->
     CancelOrderView_post now user (Some pk) reason st = (Raised IntegrityError, st)))).
Proof.
  intros Ho. split.
  - intros Hs. apply cancel_views_reject with o; [done |].
    by apply cannot_be_cancelled_true.
  - intros Hd Hc Hn Hm.
    assert (Hcc : cannot_be_cancelled o = false).
    { apply not_true_is_false. rewrite cannot_be_cancelled_true. by intros [|]. }
    assert (Hset :
              OrderViewSet_in_queryset st user o = true ->
              OrderViewSet_cancel now user pk reason st
              = cancel_order now user (pk, o)
                  (from_option id (JStr "No reason provided") reason) st).
    { intros Hq. unfold OrderViewSet_cancel.
      erewrite bind_Done by (by apply get_object_Some).
      erewrite bind_Done by exact Hm. cbn [negb snd]. by rewrite Hcc. }
    assert (Hview : forall r st',
              pk ≠ 0 ->
              cancel_order now user (pk, o)
                (from_option id (JStr "Customer requested cancellation") reason) st
              = (r, st') ->
              (forall e, r = Raised e -> is_DoesNotExist "Order" e = false) ->
              CancelOrderView_post now user (Some pk) reason st = (r, st')).
    { intros r st' Hne Hrun Hexn.
      destruct (CancelOrderView_cases now user (Some pk) reason st)
        as [(r0 & Hr0 & _) | (pk' & o' & [= <-] & _ & Ho' & _ & _ & Hr)].
      - revert Hr0. unfold CancelOrderView_post. cbn [id_not_given from_option id].
        destruct (Z.eqb_spec pk 0) as [| _]; [done |].
        unfold try_except.
        erewrite bind_Done by (by apply Order_objects_get_Some).
        erewrite bind_Done by exact Hm. cbn [negb snd]. rewrite Hcc, Hrun.
        destruct r as [resp | e |]; [done | | done].
        by rewrite (Hexn e eq_refl).
      - rewrite Ho in Ho'. injection Ho' as <-. by apply Hr. }
    split.
    + intros Htaken.
      assert (Htext : forall default, exists text,
                to_text (from_option id (JStr default) reason) = Some text).
      { intros default. destruct reason as [v |]; cbn in *; [| by eexists].
        destruct Htaken as [text Ht]. by exists text. }
      split.
      * intros Hq. destruct (Htext "No reason provided") as [text Ht].
        eexists. split.
        -- rewrite (Hset Hq). by apply cancel_order_numbered.
        -- cbn. by rewrite lookup_insert_eq.
      * intros Hne. destruct (Htext "Customer requested cancellation") as [text Ht].
        eexists. split.
        -- apply Hview; [done | by apply cancel_order_numbered | done].
        -- cbn. by rewrite lookup_insert_eq.
    + intros ->. split.
      * intros Hq. rewrite (Hset Hq). by apply cancel_order_null.
      * intros Hne. apply Hview; [done | by apply cancel_order_null |].
        by intros e [= <-].
Qed.

Lemma store_after_cancel_payments user pk o reason st k o0 :
  orders st !! pk = Some o ->
  orders st !! k = Some o0 ->
  Order.payment_status o0 = OrderPayment.paid ->
  Order.payment_status <$> orders (store_after_cancel user pk o reason st) !! k
  = Some OrderPayment.paid.
Proof.
  intros Ho Hk Hpaid. cbn. destruct (decide (k = pk)) as [-> | Hne].
  - rewrite lookup_insert_eq. cbn. rewrite Ho in Hk. injection Hk as <-. by rewrite Hpaid.
  - rewrite lookup_insert_ne by done. by rewrite Hk; cbn; rewrite Hpaid.
Qed.

(** C10. Whatever either cancellation view does, for any caller, reason
    and outcome, the store afterwards is the store before, or the store
    before with two changes: the addressed order has its [status] set to
    'cancelled' and its [cancellation_reason] set, and one tracking row of
    that order is put on top. Nothing else is written: no other order and
    no other column of the order, no payment, item, delivery, earnings or
    inventory row. So every payment is as it was and a 'paid' order is
    still 'paid'. *)
Theorem cancel_frame now user reason st :
  orders_numbered st ->
  (forall pk r st',
     OrderViewSet_cancel now user pk reason st = (r, st') ->
     (st' = st \/ cancels user pk st st') /\
     payments st' = payments st /\
     (forall k o, orders st !! k = Some o ->
        Order.payment_status o = OrderPayment.paid ->
        Order.payment_status <$> orders st' !! k = Some OrderPayment.paid)) /\
  (forall order_id r st',
     CancelOrderView_post now user order_id reason st = (r, st') ->
     (st' = st \/ exists pk, order_id = Some pk /\ cancels user pk st st') /\
     payments st' = payments st /\
     (forall k o, orders st !! k = Some o ->
        Order.payment_status o = OrderPayment.paid ->
        Order.payment_status <$> orders st' !! k = Some OrderPayment.paid)).
Proof.
  intros Hnum.
  assert (Hwrite : forall pk o reason' r st',
            orders st !! pk = Some o ->
            cancel_order now user (pk, o) reason' st = (r, st') ->
            (st' = st \/ cancels user pk st st') /\
            (forall e, r = Raised e -> is_DoesNotExist "Order" e = false)).
  { intros pk o reason' r st' Ho Hrun.
    destruct (cancel_order_cases now user pk o reason' st (Hnum _ _ Ho))
      as [(text & _ & Hr) | (r0 & Hr & Hr0)]; rewrite Hr in Hrun.
    - injection Hrun as <- <-. split; [| done]. right. by exists o, text.
    - injection Hrun as <- <-. split; [by left |].
      intros e ->. by destruct Hr0 as [[= ->] |]. }
  assert (Hkept : forall k0 st',
            st' = st \/ cancels user k0 st st' ->
            payments st' = payments st /\
            (forall k o, orders st !! k = Some o ->
               Order.payment_status o = OrderPayment.paid ->
               Order.payment_status <$> orders st' !! k = Some OrderPayment.paid)).
  { intros k0 st' [-> | (o & text & Ho & ->)].
    - split; [done |]. intros k o Hk Hpaid. by rewrite Hk; cbn; rewrite Hpaid.
    - split; [done |]. intros k o0 Hk Hpaid.
      by apply store_after_cancel_payments with (o0 := o0). }
  split.
  - intros pk r st' Hrun.
    assert (Heff : st' = st \/ cancels user pk st st').
    { destruct (OrderViewSet_cancel_cases now user pk reason st)
        as [(r0 & Hr & _) | (o & Ho & _ & _ & _ & Hr)].
      - left. congruence.
      - rewrite Hr in Hrun. by destruct (Hwrite _ _ _ _ _ Ho Hrun). }
    split; [done |]. by apply (Hkept pk).
  - intros order_id r st' Hrun.
    assert (Heff : st' = st \/ exists pk, order_id = Some pk /\ cancels user pk st st').
    { destruct (CancelOrderView_cases now user order_id reason st)
        as [(r0 & Hr & _) | (pk & o & -> & _ & Ho & _ & _ & Hr)].
      - left. congruence.
      - destruct (cancel_order now user (pk, o)
                    (from_option id (JStr "Customer requested cancellation") reason) st)
          as [r1 st1] eqn:Hc.
        destruct (Hwrite _ _ _ _ _ Ho Hc) as [Heff Hexn].
        rewrite (Hr r1 st1 eq_refl Hexn) in Hrun. injection Hrun as <- <-.
        destruct Heff as [-> | Hcancels]; [by left |]. right. by exists pk. }
    split; [done |].
    destruct Heff as [-> | (pk & _ & Hc)]; [by apply (Hkept 0); left |].
    apply (Hkept pk). by right.
Qed.

(** ** Prepare and ready-for-pickup *)

(** [prepare] and [ready_for_pickup] test the caller and nothing else: for
    the vendor of the order they go through from any status. *)
Lemma prepare_from_any_status now user pk st o v :
  orders st !! pk = Some o ->
  Order.order_number o ≠ "" ->
  User.role user = Role.vendor ->
  vendor_profiles st !! Order.vendor o = Some v ->
  VendorProfile.user v = User.pk user ->
  OrderViewSet_prepare now user pk st
  = (Done (Response_ok (message "Order marked as preparing")),
     with_tracking
       ({| OrderTracking.order := pk;
           OrderTracking.status := OrderStatus.preparing;
           OrderTracking.notes := "Order is being prepared";
           OrderTracking.updated_by := Some (User.pk user) |} :: tracking st)
       (with_orders (<[pk := Order.set_status OrderStatus.preparing o]> (orders st)) st)) /\
  OrderViewSet_ready_for_pickup now user pk st
  = (Done (Response_ok (message "Order marked as ready for pickup")),
     with_tracking
       ({| OrderTracking.order := pk;
           OrderTracking.status := OrderStatus.ready_for_pickup;
           OrderTracking.notes := "Order is ready for pickup";
           OrderTracking.updated_by := Some (User.pk user) |} :: tracking st)
       (with_orders (<[pk := Order.set_status OrderStatus.ready_for_pickup o]> (orders st))
          st)).
Proof.
  intros Ho Hn Hrole Hv Hu.
  assert (Hq : OrderViewSet_in_queryset st user o = true).
  { unfold OrderViewSet_in_queryset, User.is_admin_user, User.is_customer, User.is_vendor.
    rewrite Hrole, Hv. cbn [fmap option_fmap option_map]. rewrite Hu.
    by repeat case_bool_decide. }
  assert (Hd : not_owning_vendor o user st = (Done false, st)).
  { unfold not_owning_vendor, User.is_vendor. rewrite Hrole.
    rewrite bool_decide_eq_true_2 by done. cbn [negb].
    unfold vendor_user_is, bind, VendorProfile_objects_get. rewrite Hv. cbn.
    by rewrite Hu, bool_decide_eq_true_2. }
  split.
  - unfold OrderViewSet_prepare.
    erewrite bind_Done by (by apply get_object_Some).
    erewrite bind_Done by exact Hd. cbn [fst snd].
    erewrite bind_Done by (by apply Order_save_numbered). reflexivity.
  - unfold OrderViewSet_ready_for_pickup.
    erewrite bind_Done by (by apply get_object_Some).
    erewrite bind_Done by exact Hd. cbn [fst snd].
    erewrite bind_Done by (by apply Order_save_numbered). reflexivity.
Qed.

(** ** Deliveries *)

Lemma rider_is_not_admin user :
  User.is_rider user = true -> User.is_admin_user user = false.
Proof.
  unfold User.is_rider, User.is_admin_user. intros H%bool_decide_eq_true.
  rewrite H. reflexivity.
Qed.

(** [DeliveryViewSet.deliver], for the rider of the delivery: the order
    becomes 'delivered' with its delivery time, the fees are stored on the
    delivery and one earnings record is written. *)
Lemma deliver_by_rider now user pk notes st d o :
  User.is_rider user = true ->
  deliveries st !! pk = Some d ->
  rider_profiles st !! Delivery.rider d = Some (User.pk user) ->
  orders st !! Delivery.order d = Some o ->
  Order.order_number o ≠ "" ->
  exists st',
    DeliveryViewSet_deliver now user pk notes st
    = (Done (Response_ok (message "Order delivered successfully")), st') /\
    orders st' = <[Delivery.order d := delivered_order now o]> (orders st) /\
    rider_earnings st'
    = delivery_earnings now pk d (Order.order_number o) :: rider_earnings st /\
    (exists d', deliveries st' !! pk = Some d' /\
       Delivery.status d' = "delivered" /\
       Delivery.base_fee d' = dec_of_int 100 /\
       Delivery.distance_fee d' = distance_fee_of (Delivery.actual_distance d) /\
       Delivery.total_earnings d' = Delivery.base_fee d' + Delivery.distance_fee d').
Proof.
  intros Hr Hd Hp Ho Hn. eexists. split.
  - unfold DeliveryViewSet_deliver.
    assert (Hg : DeliveryViewSet_get_object user pk st = (Done (pk, d), st)).
    { unfold DeliveryViewSet_get_object, DeliveryViewSet_in_queryset.
      rewrite Hd, (rider_is_not_admin _ Hr), Hr. by rewrite bool_decide_eq_true_2. }
    erewrite bind_Done by exact Hg. cbn [fst snd].
    rewrite Hr. cbn [negb].
    unfold bind at 1. unfold bind at 1. unfold RiderProfile_user. rewrite Hp.
    cbn [ret]. rewrite bool_decide_eq_true_2 by done. cbn [negb].
    unfold bind at 1. cbn [Delivery_save modify].
    cbn [Delivery.order Delivery.set_delivery_notes Delivery.set_delivered_at
           Delivery.set_status].
    erewrite bind_Done; [| unfold Order_objects_get; cbn [orders with_deliveries];
                           by rewrite Ho].
    cbn [fst snd].
    erewrite bind_Done by (by apply Order_save_numbered).
    reflexivity.
  - cbn. split_and!; [done .. |].
    eexists. split; [apply lookup_insert_eq | done].
Qed.

(** [UpdateDeliveryStatusView] with the status 'delivered', for the rider of
    the delivery: the order becomes 'delivered' with its delivery time, and
    the earnings table is left as it was. *)
Lemma update_status_delivered now user pk notes st d o :
  User.is_rider user = true ->
  pk ≠ 0 ->
  deliveries st !! pk = Some d ->
  rider_profiles st !! Delivery.rider d = Some (User.pk user) ->
  orders st !! Delivery.order d = Some o ->
  Order.order_number o ≠ "" ->
  exists st',
    UpdateDeliveryStatusView_post now user (Some pk) (Some "delivered") notes st
    = (Done (Response_ok (message "Delivery status updated to delivered")), st') /\
    orders st' = <[Delivery.order d := delivered_order now o]> (orders st) /\
    Delivery.status <$> deliveries st' !! pk = Some "delivered" /\
    rider_earnings st' = rider_earnings st.
Proof.
  intros Hr Hne Hd Hp Ho Hn. eexists. split.
  - unfold UpdateDeliveryStatusView_post. rewrite Hr. cbn [negb id_not_given from_option id].
    destruct (Z.eqb_spec pk 0) as [| _]; [done |]. cbn [orb String.eqb Ascii.eqb Bool.eqb].
    assert (Hg : Delivery_objects_get_for pk user st = (Done (pk, d), st)).
    { unfold Delivery_objects_get_for. rewrite Hd. by rewrite bool_decide_eq_true_2. }
    erewrite bind_Done;
      [| apply try_except_Done; erewrite bind_Done by exact Hg; reflexivity].
    cbn [fst snd]. cbn [String.eqb Ascii.eqb Bool.eqb].
    unfold bind at 1. unfold bind at 1.
    cbn [Delivery.order Delivery.set_delivery_notes Delivery.set_delivered_at
           Delivery.set_status].
    rewrite (Order_objects_get_Some _ _ _ Ho). cbn [fst snd].
    erewrite bind_Done by (by apply Order_save_numbered).
    reflexivity.
  - cbn. split_and!; [done | | done]. by rewrite lookup_insert_eq.
Qed.

(** ** The estimate *)

Lemma estimate_unit_price_spec vendor item st :
  exists in_stock,
    estimate_unit_price vendor item st
    = (Done (line_unit_price st vendor item, in_stock), st).
Proof.
  unfold estimate_unit_price, line_unit_price, try_except, bind, VendorInventory_objects_get.
  destruct (inventory st !! _); by eexists.
Qed.

(** One turn of the loop reads the store and leaves it as it was. *)
Lemma estimate_item_cases vendor acc item st :
  (exists line,
     estimates_line st vendor.1 item line /\
     OrderEstimateView_item vendor acc item st
     = (Done (acc.1 + est_total_price line, acc.2 ++ [line]), st)) \/
  OrderEstimateView_item vendor acc item st = (Raised TypeError, st).
Proof.
  unfold OrderEstimateView_item.
  destruct (estimate_unit_price_spec vendor.1 item st) as [in_stock Hp].
  erewrite bind_Done by exact Hp. cbn [fst snd].
  destruct (line_unit_price st vendor.1 item) as [price |] eqn:Hprice; [left | by right].
  exists {| est_product_name := GasProduct.name (item_gas_product item).2;
            est_quantity := item_quantity item;
            est_unit_price := price;
            est_total_price := item_quantity item * price;
            est_in_stock := in_stock |}.
  split; [by repeat split | reflexivity].
Qed.

Lemma estimate_loop vendor items : forall acc st,
  (exists lines,
     Forall2 (estimates_line st vendor.1) items lines /\
     for_fold items acc (OrderEstimateView_item vendor) st
     = (Done (acc.1 + lines_total lines, acc.2 ++ lines), st)) \/
  for_fold items acc (OrderEstimateView_item vendor) st = (Raised TypeError, st).
Proof.
  induction items as [| item rest IH]; intros acc st; cbn [for_fold].
  - left. exists []. split; [constructor |]. unfold ret, lines_total. cbn [foldr].
    rewrite app_nil_r. destruct acc as [a l]. cbn [fst snd]. by rewrite Z.add_0_r.
  - destruct (estimate_item_cases vendor acc item st) as [(line & Hline & Hrun) | Hrun].
    + erewrite bind_Done by exact Hrun.
      destruct (IH (acc.1 + est_total_price line, acc.2 ++ [line]) st)
        as [(lines & Hlines & Hrest) | Hrest].
      * left. exists (line :: lines). split; [by constructor |].
        rewrite Hrest. cbn [fst snd]. rewrite <- app_assoc. cbn [app].
        unfold lines_total. cbn [foldr]. by rewrite Z.add_assoc.
      * by right.
    + right. by apply bind_Raised.
Qed.

(** The handler either answers or raises, and the store is as it was. *)
Lemma OrderEstimateView_post_cases data st :
  (exists detail,
     OrderEstimateView_post data st
     = (Done (Response_status (estimate_errors detail) 400), st)) \/
  (exists e, OrderEstimateView_post data st = (Raised e, st)) \/
  (exists v lines distance can_deliver,
     vendor_profiles st !! estimate_vendor data = Some v /\
     Forall2 (estimates_line st (estimate_vendor data)) (estimate_items data) lines /\
     OrderEstimateView_post data st
     = (Done (Response_ok (estimate
          {| est_vendor_id := estimate_vendor data;
             est_vendor_name := VendorProfile.business_name v;
             est_delivery_radius := VendorProfile.delivery_radius v;
             est_minimum_order_amount := VendorProfile.minimum_order_amount v;
             est_items := lines;
             est_subtotal := lines_total lines;
             est_delivery_fee := VendorProfile.delivery_fee v;
             est_total_amount := lines_total lines + VendorProfile.delivery_fee v;
             est_distance_km := distance;
             est_can_deliver := can_deliver;
             est_meets_minimum :=
               VendorProfile.minimum_order_amount v <=? lines_total lines;
             est_estimated_delivery_time := 60 |})), st)).
Proof.
  unfold OrderEstimateView_post.
  destruct (vendor_profiles st !! estimate_vendor data) as [v |] eqn:Hv.
  2:{ left. exists "Vendor not found".
      rewrite (bind_Done _ _ _ (inl "Vendor not found") st); [reflexivity |].
      unfold try_except, bind, OrderEstimateSerializer_validate, try_except,
        VendorProfile_objects_get.
      rewrite Hv. reflexivity. }
  rewrite (bind_Done _ _ _ (inr (estimate_vendor data, v)) st).
  2:{ unfold try_except, bind, OrderEstimateSerializer_validate, try_except,
        VendorProfile_objects_get.
      rewrite Hv. reflexivity. }
  cbn beta iota.
  destruct (estimate_loop (estimate_vendor data, v) (estimate_items data) (0, []) st)
    as [(lines & Hlines & Hloop) | Hloop].
  2:{ right. left. eexists. by apply bind_Raised. }
  erewrite bind_Done by exact Hloop. cbn [fst snd app].
  rewrite Z.add_0_l.
  destruct (negb (VendorProfile.latitude v =? 0) && negb (VendorProfile.longitude v =? 0)).
  - destruct (geodesic_kilometers _ _) as [distance | e] eqn:Hgeo.
    + right. right. exists v, lines. do 2 eexists. split_and!; [done .. |].
      reflexivity.
    + right. left. by exists e.
  - right. right. exists v, lines. do 2 eexists. split_and!; [done .. |]. reflexivity.
Qed.

(** C9 (as amended). The estimate view admits authenticated callers only:
    an anonymous request is refused before the handler runs. For every
    caller and every input the store after the request is the store before
    it. An answered estimate carries one priced line per requested item
    (unit price by the creation rule, total as quantity times unit price),
    their sum as subtotal, the vendor's fee, the total, the distance and the
    deliverability flags. *)
Theorem estimate_is_read_only user request_data st :
  snd (OrderEstimateView user request_data st) = st /\
  (user = None -> fst (OrderEstimateView user request_data st) = Raised NotAuthenticated) /\
  (forall resp,
     fst (OrderEstimateView user request_data st) = Done resp ->
     status_code resp = 200 ->
     exists v e,
       vendor_profiles st !! estimate_vendor request_data = Some v /\
       data resp = estimate e /\
       Forall2 (estimates_line st (estimate_vendor request_data)) (estimate_items request_data) (est_items e) /\
       est_subtotal e = lines_total (est_items e) /\
       est_delivery_fee e = VendorProfile.delivery_fee v /\
       est_total_amount e = est_subtotal e + est_delivery_fee e).
Proof.
  destruct user as [u |].
  - change (OrderEstimateView (Some u) request_data st)
      with (OrderEstimateView_post request_data st).
    destruct (OrderEstimateView_post_cases request_data st)
      as [[detail ->] | [[e ->] | (v & lines & distance & can_deliver & Hv & Hlines & ->)]];
      cbn [fst snd]; (split_and!; [done | done |]).
    + by intros resp [= <-].
    + done.
    + intros resp [= <-] _. exists v. eexists. split_and!; [done | reflexivity | done ..].
  - by split_and!.
Qed.

(** ** Texts and their order *)

Lemma ascii_compare_refl a : Ascii.compare a a = Eq.
Proof. unfold Ascii.compare. apply N.compare_refl. Qed.

Lemma string_compare_refl s : String.compare s s = Eq.
Proof.
  induction s as [| a s IH]; [done |].
  cbn [String.compare]. by rewrite ascii_compare_refl.
Qed.

Lemma string_app_cons c p a : String c p +:+ a = String c (p +:+ a).
Proof. reflexivity. Qed.

Lemma string_compare_app p a b :
  String.compare (p +:+ a) (p +:+ b) = String.compare a b.
Proof.
  induction p as [| c p IH]; [done |].
  rewrite !string_app_cons. cbn [String.compare]. by rewrite ascii_compare_refl.
Qed.

Lemma ascii_compare_trans c a b d :
  Ascii.compare a b = c -> Ascii.compare b d = c -> Ascii.compare a d = c.
Proof.
  unfold Ascii.compare. destruct c.
  - intros H1%N.compare_eq H2%N.compare_eq. rewrite H1, H2. apply N.compare_refl.
  - rewrite !N.compare_lt_iff. lia.
  - rewrite !N.compare_gt_iff. lia.
Qed.

Lemma string_compare_lt_trans a : forall b d,
  String.compare a b = Lt -> String.compare b d = Lt -> String.compare a d = Lt.
Proof.
  induction a as [| x a IH]; intros [| y b] [| z d]; cbn [String.compare]; try done.
  destruct (Ascii.compare x y) eqn:Exy; [| | done].
  - apply Ascii.compare_eq_iff in Exy as ->.
    destruct (Ascii.compare y z); [apply IH | done | done].
  - destruct (Ascii.compare y z) eqn:Eyz; [| | done].
    + apply Ascii.compare_eq_iff in Eyz as <-. by rewrite Exy.
    + by rewrite (ascii_compare_trans Lt x y z).
Qed.

Lemma string_leb_trans a b d :
  String.leb a b = true -> String.leb b d = true -> String.leb a d = true.
Proof.
  unfold String.leb.
  destruct (String.compare a b) eqn:Eab; [| | done]; intros _.
  - by apply String.compare_eq_iff in Eab as ->.
  - destruct (String.compare b d) eqn:Ebd; [| | done]; intros _.
    + apply String.compare_eq_iff in Ebd as <-. by rewrite Eab.
    + by rewrite (string_compare_lt_trans a b d).
Qed.

Lemma string_leb_refl a : String.leb a a = true.
Proof. unfold String.leb. by rewrite string_compare_refl. Qed.

Lemma string_lt_not_leb a b :
  String.compare a b = Lt -> String.leb b a = false.
Proof.
  intros H. unfold String.leb. by rewrite String.compare_antisym, H.
Qed.

Lemma string_prefix_app p s : String.prefix p (p +:+ s) = true.
Proof.
  induction p as [| c p IH]; [by destruct s |].
  rewrite string_app_cons. cbn [String.prefix].
  by destruct (Ascii.ascii_dec c c).
Qed.

Lemma string_substring_app p f n :
  String.substring (String.length p) n (p +:+ f) = String.substring 0 n f.
Proof. induction p as [| c p IH]; [done |]. rewrite string_app_cons. exact IH. Qed.

Lemma string_substring_all f : String.substring 0 (String.length f) f = f.
Proof. induction f as [| c f IH]; [done |]. cbn. by rewrite IH. Qed.

Lemma string_length_app p f :
  String.length (p +:+ f) = (String.length p + String.length f)%nat.
Proof.
  induction p as [| c p IH]; [done |].
  rewrite string_app_cons. cbn [String.length]. by rewrite IH.
Qed.

Lemma last_four_app p f : String.length f = 4%nat -> last_four (p +:+ f) = f.
Proof.
  intros Hf. unfold last_four. rewrite string_length_app, Hf.
  replace (String.length p + 4 - 4)%nat with (String.length p) by lia.
  rewrite string_substring_app, <- Hf. apply string_substring_all.
Qed.


(** ** The order number generator *)

Lemma format_04d_checked : forallb format_04d_check (seqZ 0 10000) = true.
Proof. by vm_compute. Qed.

Lemma format_04d_below n :
  0 <= n <= 9999 ->
  String.length (format_04d n) = 4%nat /\
  py_int (format_04d n) = Some n /\
  (n < 9999 -> String.compare (format_04d n) (format_04d (n + 1)) = Lt).
Proof.
  intros Hn.
  assert (Hc : format_04d_check n = true).
  { eapply forallb_forall; [apply format_04d_checked |].
    apply list_elem_of_In, elem_of_seqZ. lia. }
  unfold format_04d_check in Hc.
  apply andb_true_iff in Hc as [Hc H3]. apply andb_true_iff in Hc as [H1 H2].
  apply Nat.eqb_eq in H1. apply bool_decide_eq_true in H2.
  split_and!; [done .. |].
  intros Hlt. apply orb_true_iff in H3 as [H3 | H3]; apply bool_decide_eq_true in H3;
    [lia | done].
Qed.

Lemma later_number_cases a b :
  (later_number a b = a \/ later_number a b = b) /\
  String.leb a (later_number a b) = true /\
  String.leb b (later_number a b) = true.
Proof.
  unfold later_number. destruct (String.leb a b) eqn:E.
  - split_and!; [by right | done | apply string_leb_refl].
  - split_and!; [by left | apply string_leb_refl |].
    by destruct (String.leb_total a b) as [H | H]; [congruence |].
Qed.

Lemma last_of_None prefix numbers :
  last_of prefix numbers = None <->
  Forall (fun number => String.prefix prefix number = false) numbers.
Proof.
  induction numbers as [| s l IH]; unfold last_of; cbn [foldr]; [by split; [constructor |] |].
  fold (last_of prefix l).
  destruct (String.prefix prefix s) eqn:E.
  - split; [done |]. intros H. apply Forall_cons in H as [H _]. congruence.
  - rewrite IH. split; [by constructor | by intros [_ H]%Forall_cons].
Qed.

Lemma last_of_Some prefix numbers m :
  last_of prefix numbers = Some m ->
  m ∈ numbers /\ String.prefix prefix m = true /\
  Forall (fun number => String.prefix prefix number = true ->
                        String.leb number m = true) numbers.
Proof.
  revert m. induction numbers as [| s l IH]; intros m; unfold last_of; cbn [foldr]; [done |].
  fold (last_of prefix l).
  destruct (String.prefix prefix s) eqn:E.
  - destruct (last_of prefix l) as [m' |] eqn:El; cbn [from_option]; intros [= <-].
    + destruct (IH m' eq_refl) as (Hin & Hp & Hall).
      destruct (later_number_cases s m') as ([-> | ->] & Hs & Hm').
      * split_and!; [by left | done |]. constructor; [done |].
        eapply Forall_impl; [exact Hall |]. cbn. intros x Hx Hpx.
        eapply string_leb_trans; [by apply Hx | done].
      * split_and!; [by right | done |]. constructor; [done |].
        exact Hall.
    + split_and!; [by left | done |]. constructor; [intros _; apply string_leb_refl |].
      apply last_of_None in El. eapply Forall_impl; [exact El |]. cbn. congruence.
  - intros H. destruct (IH m H) as (Hin & Hp & Hall).
    split_and!; [by right | done |]. constructor; [congruence | done].
Qed.

Lemma elem_of_order_numbers st number :
  number ∈ Order.order_number <$> (map_to_list (orders st)).*2 <-> number_stored st number.
Proof.
  rewrite list_elem_of_fmap. split.
  - intros (o & -> & Ho). apply list_elem_of_fmap in Ho as ([pk o'] & -> & Hin).
    apply elem_of_map_to_list in Hin. by exists pk, o'.
  - intros (pk & o & Ho & <-). exists o. split; [done |].
    apply list_elem_of_fmap. exists (pk, o). split; [done |].
    by apply elem_of_map_to_list.
Qed.

Lemma last_order_number_None prefix st :
  no_number_of st prefix -> last_order_number prefix st = None.
Proof.
  intros H. apply last_of_None, Forall_forall. intros number Hin.
  apply elem_of_order_numbers in Hin as (pk & o & Ho & <-). by eapply H.
Qed.

Lemma last_order_number_greatest prefix st number :
  greatest_number_of st prefix number -> last_order_number prefix st = Some number.
Proof.
  intros (Hs & Hp & Hmax).
  destruct (last_order_number prefix st) as [m |] eqn:E.
  - apply last_of_Some in E as (Hin & Hpm & Hall).
    apply elem_of_order_numbers in Hin as (pk & o & Ho & <-).
    f_equal. apply String.leb_antisym.
    + by eapply Hmax.
    + rewrite Forall_forall in Hall. apply Hall; [| done].
      by apply elem_of_order_numbers.
  - apply last_of_None in E. rewrite Forall_forall in E.
    rewrite (E number) in Hp; [done |]. by apply elem_of_order_numbers.
Qed.


Lemma number_stored_prefix_leb st prefix number m :
  greatest_number_of st prefix m ->
  number_stored st number ->
  String.prefix prefix number = true ->
  String.leb number m = true.
Proof.
  intros (_ & _ & Hmax) (pk & o & Ho & <-) Hp. by eapply Hmax.
Qed.

(** X1. [Order.generate_order_number] gives a number no stored order has.
    When no stored number starts with the day's prefix it is the prefix
    followed by 0001. When the greatest stored number of the day is the
    prefix followed by the four digits of some [n] below 9999, it is the
    prefix followed by the four digits of [n + 1]: the sequence goes on from
    the greatest number, whatever numbers are missing below it. *)
Theorem generated_number_is_new date_str st :
  (no_number_of st (day_prefix date_str) ->
   Order_generate_order_number date_str st = Done (day_prefix date_str +:+ "0001") /\
   ~ number_stored st (day_prefix date_str +:+ "0001")) /\
  (forall n,
     0 <= n < 9999 ->
     greatest_number_of st (day_prefix date_str) (day_prefix date_str +:+ format_04d n) ->
     Order_generate_order_number date_str st
     = Done (day_prefix date_str +:+ format_04d (n + 1)) /\
     ~ number_stored st (day_prefix date_str +:+ format_04d (n + 1))).
Proof.
  split.
  - intros Hno. split.
    + unfold Order_generate_order_number. by rewrite last_order_number_None.
    + intros (pk & o & Ho & Hn). specialize (Hno pk o Ho).
      by rewrite Hn, string_prefix_app in Hno.
  - intros n Hn Hmax.
    destruct (format_04d_below n) as (Hlen & Hint & Hlt); [lia |].
    split.
    + unfold Order_generate_order_number.
      rewrite (last_order_number_greatest _ _ _ Hmax).
      by rewrite last_four_app, Hint.
    + intros Hs.
      pose proof (number_stored_prefix_leb _ _ _ _ Hmax Hs (string_prefix_app _ _)) as Hle.
      rewrite string_lt_not_leb in Hle; [done |].
      rewrite string_compare_app. apply Hlt. lia.
Qed.

Lemma format_04d_10000 : format_04d (9999 + 1) = "10000".
Proof. by vm_compute. Qed.

Lemma format_04d_9999 : format_04d 9999 = "9999".
Proof. by vm_compute. Qed.

(** X2. The numbers of a day run out at 9999. With the prefix followed by
    9999 as the greatest stored number of the day, the generator gives the
    prefix followed by 10000; once an order has that number the generator
    gives the same number again, since in the order of texts 10000 comes
    before 9999. *)
Theorem order_numbers_run_out date_str st pk o :
  greatest_number_of st (day_prefix date_str) (day_prefix date_str +:+ "9999") ->
  orders st !! pk = None ->
  Order.order_number o = day_prefix date_str +:+ "10000" ->
  Order_generate_order_number date_str st = Done (day_prefix date_str +:+ "10000") /\
  Order_generate_order_number date_str (with_orders (<[pk := o]> (orders st)) st)
  = Done (day_prefix date_str +:+ "10000") /\
  number_stored (with_orders (<[pk := o]> (orders st)) st) (day_prefix date_str +:+ "10000").
Proof.
  intros Hmax Hpk Hn.
  assert (Hgen : forall st',
            greatest_number_of st' (day_prefix date_str) (day_prefix date_str +:+ "9999") ->
            Order_generate_order_number date_str st'
            = Done (day_prefix date_str +:+ "10000")).
  { intros st' Hmax'. unfold Order_generate_order_number.
    rewrite (last_order_number_greatest _ _ _ Hmax').
    rewrite last_four_app by done.
    assert (Hint : py_int "9999" = Some 9999) by by vm_compute.
    rewrite Hint. by rewrite format_04d_10000. }
  split_and!.
  - by apply Hgen.
  - apply Hgen. destruct Hmax as ((pk9 & o9 & Ho9 & Hn9) & Hp & Hmax).
    split_and!; [| done |].
    + exists pk9, o9. split; [| done]. cbn [orders with_orders].
      rewrite lookup_insert_ne; [done |]. intros <-. congruence.
    + intros k x. cbn [orders with_orders]. intros Hx Hpx.
      destruct (decide (k = pk)) as [-> | Hne].
      * rewrite lookup_insert_eq in Hx. injection Hx as <-. rewrite Hn.
        unfold String.leb. by rewrite string_compare_app.
      * rewrite lookup_insert_ne in Hx by done. by eapply Hmax.
  - exists pk, o. split; [| done]. cbn [orders with_orders]. apply lookup_insert_eq.
Qed.


(** ** Updates through the viewset *)

Lemma apply_update_fields data o : updated_by_fields data o (apply_update data o).
Proof.
  unfold updated_by_fields, apply_update.
  destruct data as [[s |] [r |] [e |] [a |]]; cbn; by split_and!.
Qed.

(** X3. An update of an order through [OrderViewSet] ([PUT] or [PATCH],
    saved by [OrderUpdateSerializer.update]) goes through for every caller
    whose queryset holds the order, whatever the old and the new status:
    the fields given among status, rider, estimated and actual delivery
    time are set, every other column is kept, and one tracking row
    "Status updated from A to B", signed by the caller, is written exactly
    when the status has changed. Items, payments and deliveries are left
    alone. *)
Theorem update_sets_fields_and_tracks_status now user pk data st o :
  orders st !! pk = Some o ->
  Order.order_number o ≠ "" ->
  OrderViewSet_in_queryset st user o = true ->
  exists o' st',
    OrderViewSet_update now user pk data st = (Done (Response_ok (pk, o')), st') /\
    updated_by_fields data o o' /\
    orders st' = <[pk := o']> (orders st) /\
    tracking st'
    = (if bool_decide (Order.status o' = Order.status o) then tracking st
       else status_update_row pk (User.pk user) (Order.status o) (Order.status o')
            :: tracking st) /\
    order_items st' = order_items st /\
    payments st' = payments st /\
    deliveries st' = deliveries st.
Proof.
  intros Ho Hn Hq. exists (apply_update data o).
  pose proof (apply_update_fields data o) as Hf.
  assert (Hn' : Order.order_number (apply_update data o) ≠ "").
  { destruct Hf as (_ & _ & _ & _ & -> & _). done. }
  unfold OrderViewSet_update.
  erewrite bind_Done by (by apply get_object_Some).
  unfold OrderUpdateSerializer_update, ModelSerializer_update. cbn [fst snd].
  unfold bind at 1. unfold bind at 1.
  rewrite (Order_save_numbered _ _ _ _ Hn'). cbn [fst snd].
  destruct (decide (Order.status (apply_update data o) = Order.status o)) as [Hs | Hs].
  - rewrite (bool_decide_eq_true_2 (Order.status o = _)) by done.
    rewrite (bool_decide_eq_true_2 (_ = Order.status o)) by done.
    eexists. cbn. by split_and!.
  - rewrite (bool_decide_eq_false_2 (Order.status o = _)) by done.
    rewrite (bool_decide_eq_false_2 (_ = Order.status o)) by done.
    eexists. cbn. by split_and!.
Qed.

(** X4. [OrderViewSet] takes the object of a detail route from the caller's
    queryset: for an order that is not in it (or for no order at all)
    confirm, prepare, ready-for-pickup, cancel and update all answer 404
    and leave the store as it was. *)
Theorem viewset_hides_foreign_orders now user pk st :
  (forall o, orders st !! pk = Some o -> OrderViewSet_in_queryset st user o = false) ->
  (forall estimated_time,
     OrderViewSet_confirm now user pk estimated_time st = (Raised Http404, st)) /\
  OrderViewSet_prepare now user pk st = (Raised Http404, st) /\
  OrderViewSet_ready_for_pickup now user pk st = (Raised Http404, st) /\
  (forall reason, OrderViewSet_cancel now user pk reason st = (Raised Http404, st)) /\
  (forall data, OrderViewSet_update now user pk data st = (Raised Http404, st)).
Proof.
  intros Hout.
  assert (Hg : OrderViewSet_get_object user pk st = (Raised Http404, st)).
  { unfold OrderViewSet_get_object. destruct (orders st !! pk) as [o |]; [| done].
    by rewrite (Hout o). }
  split_and!; intros; by apply bind_Raised.
Qed.

(** ** Tracking by order number *)

Lemma Order_filter_only number st pk o :
  only_order st number pk o ->
  filter (fun ko : Z * Order.t => Order.order_number ko.2 = number) (orders st)
  = {[pk := o]}.
Proof.
  intros (Hp & Hr & Hu). apply map_eq. intros k.
  destruct (decide (k = pk)) as [-> | Hne].
  - rewrite lookup_singleton_eq. by apply map_lookup_filter_Some.
  - rewrite lookup_singleton_ne by done.
    apply map_lookup_filter_None. right. intros o' Ho' Hr'.
    apply Hne. eapply Hu; eauto.
Qed.

Lemma Order_objects_get_by_number_only number st pk o :
  only_order st number pk o ->
  Order_objects_get_by_number number st = (Done (pk, o), st).
Proof.
  intros H. unfold Order_objects_get_by_number.
  rewrite (Order_filter_only _ _ _ _ H), map_to_list_singleton. reflexivity.
Qed.

Lemma Order_objects_get_by_number_none number st :
  (forall pk o, orders st !! pk = Some o -> Order.order_number o ≠ number) ->
  Order_objects_get_by_number number st = (Raised (DoesNotExist "Order"), st).
Proof.
  intros H. unfold Order_objects_get_by_number.
  rewrite map_empty_filter_2, map_to_list_empty; [done |].
  intros k o Ho. cbn. exact (H k o Ho).
Qed.

Lemma Order_objects_get_by_number_unchanged number st :
  snd (Order_objects_get_by_number number st) = st.
Proof.
  unfold Order_objects_get_by_number. by destruct (map_to_list _) as [| ? [| ? ?]].
Qed.

Lemma may_track_cases o user st :
  (exists b, may_track o user st = (Done b, st)) \/
  may_track o user st = (Raised (DoesNotExist "VendorProfile"), st).
Proof.
  unfold may_track.
  destruct (bool_decide (Order.customer o = User.pk user)); [left; by eexists |].
  unfold bind.
  destruct (User.is_vendor user).
  - destruct (vendor_user_is_cases o user st) as [[[] ->] | ->];
      [left; by eexists | | by right].
    destruct (User.is_rider user && _); left; by eexists.
  - cbn. destruct (User.is_rider user && _); left; by eexists.
Qed.

Lemma may_track_party o user st :
  party_to st o user -> may_track o user st = (Done true, st).
Proof.
  unfold party_to, may_track, vendor_user_of.
  destruct (decide (Order.customer o = User.pk user)) as [Hc | Hc].
  { intros _. by rewrite bool_decide_eq_true_2. }
  rewrite bool_decide_eq_false_2 by done.
  unfold User.is_vendor, User.is_rider, User.is_admin_user.
  intros [? | [[Hr Hv] | [[Hr Hv] | Hr]]]; [done | | |]; rewrite Hr.
  - rewrite bool_decide_eq_true_2 by done.
    unfold bind, vendor_user_is, bind, VendorProfile_objects_get.
    destruct (vendor_profiles st !! Order.vendor o) as [v |]; [| done].
    cbn in *. injection Hv as Hv. by rewrite bool_decide_eq_true_2.
  - rewrite (bool_decide_eq_false_2 (Role.rider = Role.vendor)) by done.
    unfold bind. cbn [ret]. rewrite !bool_decide_eq_true_2 by done. done.
  - rewrite (bool_decide_eq_false_2 (Role.admin = Role.vendor)) by done.
    unfold bind. cbn [ret].
    rewrite (bool_decide_eq_false_2 (Role.admin = Role.rider)) by done.
    cbn [andb]. by rewrite bool_decide_eq_true_2.
Qed.

Lemma may_track_true o user st :
  may_track o user st = (Done true, st) -> party_to st o user.
Proof.
  unfold party_to, may_track, vendor_user_of.
  destruct (decide (Order.customer o = User.pk user)) as [Hc | Hc]; [by left |].
  rewrite bool_decide_eq_false_2 by done.
  unfold User.is_vendor, User.is_rider, User.is_admin_user, bind.
  destruct (User.role user) eqn:Hr.
  - rewrite !bool_decide_eq_false_2 by done. cbn. done.
  - rewrite (bool_decide_eq_true_2 (Role.vendor = Role.vendor)) by done.
    unfold vendor_user_is, bind, VendorProfile_objects_get.
    destruct (vendor_profiles st !! Order.vendor o) as [v |]; [| done].
    cbn [ret fst snd]. destruct (decide (VendorProfile.user v = User.pk user)) as [Hv | Hv].
    + intros _. right. left. split; [done |]. cbn. by rewrite Hv.
    + rewrite (bool_decide_eq_false_2 (VendorProfile.user v = _)) by done.
      rewrite !bool_decide_eq_false_2 by done. cbn. done.
  - rewrite (bool_decide_eq_false_2 (Role.rider = Role.vendor)) by done.
    rewrite (bool_decide_eq_true_2 (Role.rider = Role.rider)) by done. cbn [ret andb].
    destruct (decide (Order.rider o = Some (User.pk user))) as [Hv | Hv].
    + intros _. right. right. left. done.
    + rewrite (bool_decide_eq_false_2 (Order.rider o = _)) by done.
      rewrite !bool_decide_eq_false_2 by done. done.
  - intros _. by repeat right.
Qed.

(** X5. [TrackOrderView] changes nothing and shows an order to its
    parties only. A number no order carries is answered 404. An order
    that alone carries the number is shown (200) to its customer, to the
    user of its vendor, to its rider and to an admin; and whenever the
    answer is 200, the caller is one of those and the order shown is the
    stored one with that number. *)
Theorem track_order_shows_to_parties user order_number st :
  snd (TrackOrderView_get user order_number st) = st /\
  ((forall pk o, orders st !! pk = Some o -> Order.order_number o ≠ order_number) ->
   fst (TrackOrderView_get user order_number st)
   = Done (Response_status (track_error "Order not found") 404)) /\
  (forall pk o,
     only_order st order_number pk o ->
     party_to st o user ->
     fst (TrackOrderView_get user order_number st) = Done (Response_ok (tracked (pk, o)))) /\
  (forall resp,
     fst (TrackOrderView_get user order_number st) = Done resp ->
     status_code resp = 200 ->
     exists pk o,
       data resp = tracked (pk, o) /\
       orders st !! pk = Some o /\
       Order.order_number o = order_number /\
       party_to st o user).
Proof.
  split_and!.
  - unfold TrackOrderView_get, try_except, bind.
    pose proof (Order_objects_get_by_number_unchanged order_number st) as Hu.
    destruct (Order_objects_get_by_number order_number st) as [[[pk o] | e |] st1];
      cbn [snd] in Hu; subst st1.
    + cbn [snd]. destruct (may_track_cases o user st) as [[[] ->] | ->]; done.
    + by destruct (is_DoesNotExist "Order" e).
    + done.
  - intros Hno. unfold TrackOrderView_get.
    rewrite (try_except_Raised _ _ _ _ (DoesNotExist "Order") st); [done |].
    apply bind_Raised. by apply Order_objects_get_by_number_none.
  - intros pk o Ho Hp. unfold TrackOrderView_get.
    erewrite try_except_Done; [reflexivity |].
    erewrite bind_Done by (by apply Order_objects_get_by_number_only).
    by erewrite bind_Done by (by apply may_track_party).
  - intros resp. unfold TrackOrderView_get, try_except, bind.
    unfold Order_objects_get_by_number.
    destruct (map_to_list _) as [| [pk o] [| ? ?]] eqn:E.
    + cbn. by intros [= <-].
    + assert (Hf : filter (fun ko : Z * Order.t => Order.order_number ko.2 = order_number)
                     (orders st) = {[pk := o]}).
      { apply map_to_list_inj. by rewrite E, map_to_list_singleton. }
      assert (Hin : orders st !! pk = Some o /\ Order.order_number o = order_number).
      { pose proof (lookup_singleton_eq pk o) as Hl. rewrite <- Hf in Hl.
        by apply map_lookup_filter_Some in Hl. }
      cbn [snd].
      destruct (may_track o user st) as [[[] | e |] st1] eqn:Hm.
      * destruct (may_track_cases o user st) as [[b Hb] | Hb]; rewrite Hb in Hm; [| done].
        injection Hm as -> <-. cbn. intros [= <-] _. exists pk, o.
        destruct Hin. split_and!; [done .. |]. by apply may_track_true.
      * cbn. by intros [= <-].
      * destruct (is_DoesNotExist "Order" e); cbn; [by intros [= <-] | done].
      * done.
    + done.
Qed.


(** ** Payment initiation *)

Lemma next_payment_pk_fresh st : payments st !! next_payment_pk st = None.
Proof.
  apply not_elem_of_dom. unfold next_payment_pk.
  pose proof (is_fresh ({[0]} ∪ dom (payments st))) as H. set_solver.
Qed.

Lemma next_payment_pk_not_0 st : next_payment_pk st ≠ 0.
Proof.
  unfold next_payment_pk.
  pose proof (is_fresh ({[0]} ∪ dom (payments st))) as H. set_solver.
Qed.

Lemma Order_objects_get_of_customer_cases order_id user st :
  (exists o, orders st !! order_id = Some o /\ Order.customer o = User.pk user /\
             Order_objects_get_of_customer order_id user st = (Done (order_id, o), st)) \/
  ((forall o, orders st !! order_id = Some o -> Order.customer o ≠ User.pk user) /\
   Order_objects_get_of_customer order_id user st = (Raised (DoesNotExist "Order"), st)).
Proof.
  unfold Order_objects_get_of_customer.
  destruct (orders st !! order_id) as [o |]; [| by right].
  case_bool_decide; [left; by exists o | right]. split; [| done]. by intros o' [= <-].
Qed.

Lemma with_payments_twice a b st :
  with_payments a (with_payments b st) = with_payments a st.
Proof. reflexivity. Qed.

Lemma initiate_payment_accepted payment_id user pk phone st o :
  User.is_customer user = true ->
  pk ≠ 0 ->
  phone ≠ "" ->
  orders st !! pk = Some o ->
  Order.customer o = User.pk user ->
  Order.payment_status o ≠ OrderPayment.paid ->
  InitiatePaymentView_post payment_id user (Some pk) (Some phone) st
  = (Done (payment_initiated_response payment_id),
     store_after_initiation payment_id pk o phone st).
Proof.
  intros Hc Hpk Hphone Ho Hcust Hpaid.
  unfold InitiatePaymentView_post. rewrite Hc. cbn [negb id_not_given text_not_given].
  destruct (Z.eqb_spec pk 0) as [| _]; [done |].
  destruct (String.eqb_spec phone "") as [| _]; [done |]. cbn [orb from_option id].
  assert (Hg : Order_objects_get_of_customer pk user st = (Done (pk, o), st)).
  { unfold Order_objects_get_of_customer. by rewrite Ho, bool_decide_eq_true_2. }
  erewrite bind_Done;
    [| apply try_except_Done; erewrite bind_Done by exact Hg; reflexivity].
  cbn [fst snd]. rewrite bool_decide_eq_false_2 by done.
  unfold bind, Payment_objects_create, bind, gets, Payment_save, modify, ret.
  cbn. unfold payment_initiated_response, store_after_initiation, initiated_payment.
  f_equal. rewrite with_payments_twice. by rewrite insert_insert_eq.
Qed.

Lemma initiate_payment_already_paid payment_id user pk phone st o :
  User.is_customer user = true ->
  pk ≠ 0 ->
  phone ≠ "" ->
  orders st !! pk = Some o ->
  Order.customer o = User.pk user ->
  Order.payment_status o = OrderPayment.paid ->
  InitiatePaymentView_post payment_id user (Some pk) (Some phone) st
  = (Done (Response_status (payment_error "Order already paid") 400), st).
Proof.
  intros Hc Hpk Hphone Ho Hcust Hpaid.
  unfold InitiatePaymentView_post. rewrite Hc. cbn [negb id_not_given text_not_given].
  destruct (Z.eqb_spec pk 0) as [| _]; [done |].
  destruct (String.eqb_spec phone "") as [| _]; [done |]. cbn [orb from_option id].
  assert (Hg : Order_objects_get_of_customer pk user st = (Done (pk, o), st)).
  { unfold Order_objects_get_of_customer. by rewrite Ho, bool_decide_eq_true_2. }
  erewrite bind_Done;
    [| apply try_except_Done; erewrite bind_Done by exact Hg; reflexivity].
  cbn [fst snd]. by rewrite bool_decide_eq_true_2.
Qed.

(** X6. A customer who initiates a payment for an unpaid order of their
    own, with an order id and a phone number, gets one payment written:
    amount the order's [total_amount], method 'mpesa', status 'processing',
    reference [ws_CO_] followed by the payment's id, the simulated
    gateway answer attached. It is stored under a key that held no
    payment, the answer (200) carries the reference, and orders, tracking
    rows and the other payments are as they were. *)
Theorem initiate_payment_writes_one_payment payment_id user pk phone st o :
  User.is_customer user = true ->
  pk ≠ 0 ->
  phone ≠ "" ->
  orders st !! pk = Some o ->
  Order.customer o = User.pk user ->
  Order.payment_status o ≠ OrderPayment.paid ->
  exists st',
    InitiatePaymentView_post payment_id user (Some pk) (Some phone) st
    = (Done (payment_initiated_response payment_id), st') /\
    payments st !! next_payment_pk st = None /\
    payments st'
    = <[next_payment_pk st := initiated_payment pk o phone payment_id]> (payments st) /\
    orders st' = orders st /\
    tracking st' = tracking st.
Proof.
  intros Hc Hpk Hphone Ho Hcust Hpaid. eexists. split_and!.
  - by apply initiate_payment_accepted.
  - apply next_payment_pk_fresh.
  - done.
  - done.
  - done.
Qed.

(** X7. Every refusal of [InitiatePaymentView] leaves the store as it
    was: a caller who is not a customer (403), a missing order id or phone
    number (400), an order that does not exist or belongs to another
    customer (404), and an order that is already paid (400). *)
Theorem initiate_payment_refusals payment_id user order_id phone_number st :
  (User.is_customer user = false ->
   InitiatePaymentView_post payment_id user order_id phone_number st
   = (Done (Response_status (payment_error "Only customers can initiate payments") 403),
      st)) /\
  (User.is_customer user = true ->
   id_not_given order_id = true \/ text_not_given phone_number = true ->
   InitiatePaymentView_post payment_id user order_id phone_number st
   = (Done (Response_status (payment_error "Order ID and phone number required") 400),
      st)) /\
  (forall pk,
     User.is_customer user = true ->
     order_id = Some pk ->
     id_not_given order_id = false ->
     text_not_given phone_number = false ->
     ((forall o, orders st !! pk = Some o -> Order.customer o ≠ User.pk user) ->
      InitiatePaymentView_post payment_id user order_id phone_number st
      = (Done (Response_status (payment_error "Order not found") 404), st)) /\
     (forall o,
        orders st !! pk = Some o ->
        Order.customer o = User.pk user ->
        Order.payment_status o = OrderPayment.paid ->
        InitiatePaymentView_post payment_id user order_id phone_number st
        = (Done (Response_status (payment_error "Order already paid") 400), st))).
Proof.
  split_and!.
  - intros Hc. unfold InitiatePaymentView_post. by rewrite Hc.
  - intros Hc Hmiss. unfold InitiatePaymentView_post. rewrite Hc. cbn [negb].
    by destruct Hmiss as [-> | ->]; [| rewrite orb_true_r].
  - intros pk Hc -> Hid Hph.
    unfold InitiatePaymentView_post. rewrite Hc, Hid, Hph. cbn [negb orb from_option id].
    split.
    + intros Hnone.
      destruct (Order_objects_get_of_customer_cases pk user st)
        as [(o & Ho & Hcust & _) | (_ & Hg)]; [by destruct (Hnone o Ho) |].
      rewrite (bind_Done _ _ _ None st); [reflexivity |].
      rewrite (try_except_Raised _ _ _ _ (DoesNotExist "Order") st); [reflexivity |].
      by apply bind_Raised.
    + intros o Ho Hcust Hpaid.
      assert (Hg : Order_objects_get_of_customer pk user st = (Done (pk, o), st)).
      { unfold Order_objects_get_of_customer. by rewrite Ho, bool_decide_eq_true_2. }
      erewrite bind_Done;
        [| apply try_except_Done; erewrite bind_Done by exact Hg; reflexivity].
      cbn [fst snd]. by rewrite bool_decide_eq_true_2.
Qed.

Lemma initiated_reference_truthy payment_id : truthy (JStr ("ws_CO_" +:+ payment_id)) = true.
Proof. reflexivity. Qed.

Lemma only_match_initiated payment_id pk o phone st :
  (forall k p, payments st !! k = Some p ->
               Payment.external_reference p ≠ "ws_CO_" +:+ payment_id) ->
  only_match (store_after_initiation payment_id pk o phone st) ("ws_CO_" +:+ payment_id)
    (next_payment_pk st) (initiated_payment pk o phone payment_id).
Proof.
  intros Hnew. unfold only_match, store_after_initiation. cbn [payments with_payments].
  split_and!; [apply lookup_insert_eq | done |].
  intros k p Hk Hr. destruct (decide (k = next_payment_pk st)) as [| Hne]; [done |].
  rewrite lookup_insert_ne in Hk by done. by destruct (Hnew k p Hk).
Qed.

(** X8. Initiation and callback fit together. After a customer has
    initiated a payment whose reference no stored payment carries, the
    M-Pesa callback that names this reference with [ResultCode] 0 is
    processed (200): the initiated payment becomes 'completed' at the time
    of the callback and the order 'paid'. From then on a further initiation
    for the order is refused with "Order already paid" and writes
    nothing. *)
Theorem initiated_payment_is_reconciled payment_id user pk phone st o
    now callback_data code desc payment_id' :
  User.is_customer user = true ->
  pk ≠ 0 ->
  phone ≠ "" ->
  orders st !! pk = Some o ->
  Order.customer o = User.pk user ->
  Order.payment_status o ≠ OrderPayment.paid ->
  Order.order_number o ≠ "" ->
  (forall k p, payments st !! k = Some p ->
               Payment.external_reference p ≠ "ws_CO_" +:+ payment_id) ->
  stk_fields callback_data (JStr ("ws_CO_" +:+ payment_id)) code desc ->
  py_eq_zero code = true ->
  exists st1 st2 p,
    InitiatePaymentView_post payment_id user (Some pk) (Some phone) st
    = (Done (payment_initiated_response payment_id), st1) /\
    MpesaCallbackView_post now callback_data st1
    = (Done (Response_ok (message "Callback processed successfully")), st2) /\
    payments st2 !! next_payment_pk st = Some p /\
    Payment.status p = PaymentStatus.completed /\
    Payment.completed_at p = Some now /\
    Payment.amount p = Order.total_amount o /\
    orders st2 !! pk = Some (Order.set_payment_status OrderPayment.paid o) /\
    InitiatePaymentView_post payment_id' user (Some pk) (Some phone) st2
    = (Done (Response_status (payment_error "Order already paid") 400), st2).
Proof.
  intros Hc Hpk Hphone Ho Hcust Hpaid Hn Hnew Hstk Hzero.
  eexists _, _, _. split; [by apply initiate_payment_accepted |].
  split.
  { eapply mpesa_post_success;
      [exact Hstk | apply initiated_reference_truthy | reflexivity | exact Hzero
      | by apply only_match_initiated | exact Ho | exact Hn]. }
  assert (Ho2 : orders (store_after_success now callback_data (next_payment_pk st)
                          (initiated_payment pk o phone payment_id) o
                          (store_after_initiation payment_id pk o phone st)) !! pk
                = Some (Order.set_payment_status OrderPayment.paid o)).
  { cbn. apply lookup_insert_eq. }
  split_and!.
  - cbn. apply lookup_insert_eq.
  - done.
  - done.
  - done.
  - exact Ho2.
  - by eapply initiate_payment_already_paid.
Qed.


(** ** Taking a delivery *)

Lemma next_delivery_pk_fresh st : deliveries st !! next_delivery_pk st = None.
Proof.
  apply not_elem_of_dom. unfold next_delivery_pk.
  pose proof (is_fresh ({[0]} ∪ dom (deliveries st))) as H. set_solver.
Qed.

Lemma User_rider_profile_only user profile st :
  only_profile st user profile ->
  User_rider_profile user st = (Done profile, st).
Proof.
  intros (Hp & Hu). unfold User_rider_profile.
  assert (Hf : filter (fun pu : Z * Z => pu.2 = User.pk user) (rider_profiles st)
               = {[profile := User.pk user]}).
  { apply map_eq. intros k. destruct (decide (k = profile)) as [-> | Hne].
    - rewrite lookup_singleton_eq. by apply map_lookup_filter_Some.
    - rewrite lookup_singleton_ne by done.
      apply map_lookup_filter_None. right. intros u Hk Hku. apply Hne. by eapply Hu. }
  by rewrite Hf, map_to_list_singleton.
Qed.

Lemma accept_delivery_reaches_order now user profile pk st :
  User.is_rider user = true ->
  only_profile st user profile ->
  pk ≠ 0 ->
  AcceptDeliveryView_post now user (Some pk) st
  = (found <- try_except
                (order <- Order_objects_get_unassigned pk;; ret (Some order))
                (is_DoesNotExist "Order")
                (fun _ => ret None);;
     match found with
     | None => ret already_assigned
     | Some order =>
         order1 <- Order_save now
                     (order.1, Order_set_rider (Some (User.pk user)) order.2);;
         delivery <- Delivery_objects_create order1.1 profile "assigned";;
         ret (Response_ok
                (accept_done "Delivery accepted successfully" delivery.1
                   (Order.order_number order1.2)))
     end) st.
Proof.
  intros Hr Hp Hpk. unfold AcceptDeliveryView_post. rewrite Hr. cbn [negb].
  rewrite (bind_Done _ _ _ (Some profile) st).
  2:{ apply try_except_Done. by erewrite bind_Done by (by apply User_rider_profile_only). }
  cbn [id_not_given from_option id]. by destruct (Z.eqb_spec pk 0).
Qed.

Lemma accept_delivery_taken now user profile pk st o rider :
  User.is_rider user = true ->
  only_profile st user profile ->
  pk ≠ 0 ->
  orders st !! pk = Some o ->
  Order.rider o = Some rider ->
  AcceptDeliveryView_post now user (Some pk) st = (Done already_assigned, st).
Proof.
  intros Hr Hp Hpk Ho Hrider.
  rewrite (accept_delivery_reaches_order _ _ _ _ _ Hr Hp Hpk).
  rewrite (bind_Done _ _ _ None st); [reflexivity |].
  rewrite (try_except_Raised _ _ _ _ (DoesNotExist "Order") st); [reflexivity |].
  apply bind_Raised. unfold Order_objects_get_unassigned. by rewrite Ho, Hrider.
Qed.

Lemma User_rider_profile_none user st :
  no_profile st user ->
  User_rider_profile user st = (Raised (DoesNotExist "RiderProfile"), st).
Proof.
  intros Hnone. unfold User_rider_profile.
  rewrite map_empty_filter_2; [by rewrite map_to_list_empty |].
  intros profile u Hpu Heq. cbn in Heq. subst u. by eapply Hnone.
Qed.

Lemma accept_delivery_no_profile now user order_id st :
  User.is_rider user = true ->
  no_profile st user ->
  AcceptDeliveryView_post now user order_id st
  = (Done (Response_status (accept_error "Rider profile not found") 404), st).
Proof.
  intros Hr Hnone. unfold AcceptDeliveryView_post. rewrite Hr. cbn [negb].
  rewrite (bind_Done _ _ _ None st); [done |].
  rewrite (try_except_Raised _ _ _ _ (DoesNotExist "RiderProfile") st); [done |].
  apply bind_Raised. by apply User_rider_profile_none.
Qed.

(** X9. A rider who has a rider profile takes an order that has no rider
    and no delivery yet (an order stored with its number, under a key that
    is not 0) with [AcceptDeliveryView]: the caller becomes the order's
    rider, and one delivery of the order, for the caller's profile and
    'assigned', is stored under a key that held none; the order's status
    stays and no tracking row is written. The order can be taken once
    only: afterwards the same request by any rider, with a rider profile
    or without one, is answered 404 and changes nothing. *)
Theorem accept_delivery_assigns_once now user profile pk st o :
  User.is_rider user = true ->
  only_profile st user profile ->
  pk ≠ 0 ->
  orders st !! pk = Some o ->
  Order.rider o = None ->
  Order.order_number o ≠ "" ->
  no_delivery_of st pk ->
  exists st',
    AcceptDeliveryView_post now user (Some pk) st
    = (Done (Response_ok (accept_done "Delivery accepted successfully"
                            (next_delivery_pk st) (Order.order_number o))), st') /\
    orders st' = <[pk := Order_set_rider (Some (User.pk user)) o]> (orders st) /\
    deliveries st !! next_delivery_pk st = None /\
    deliveries st' = <[next_delivery_pk st := new_delivery pk profile "assigned"]> (deliveries st) /\
    tracking st' = tracking st /\
    (forall now' user' profile',
       User.is_rider user' = true ->
       only_profile st' user' profile' ->
       AcceptDeliveryView_post now' user' (Some pk) st' = (Done already_assigned, st')) /\
    (forall now' user',
       User.is_rider user' = true ->
       no_profile st' user' ->
       AcceptDeliveryView_post now' user' (Some pk) st'
       = (Done (Response_status (accept_error "Rider profile not found") 404), st')).
Proof.
  intros Hr Hp Hpk Ho Hnone Hn Hnd.
  eexists. split.
  - rewrite (accept_delivery_reaches_order _ _ _ _ _ Hr Hp Hpk).
    rewrite (bind_Done _ _ _ (Some (pk, o)) st).
    2:{ apply try_except_Done. erewrite bind_Done; [reflexivity |].
        unfold Order_objects_get_unassigned. by rewrite Ho, Hnone. }
    cbn [fst snd].
    erewrite bind_Done by (by apply Order_save_numbered).
    cbn [fst snd]. unfold bind, Delivery_objects_create.
    cbn [deliveries with_orders]. rewrite bool_decide_eq_true_2 by exact Hnd.
    reflexivity.
  - split_and!; [done | apply next_delivery_pk_fresh | done | done | |].
    + intros now' user' profile' Hr' Hp'.
      apply accept_delivery_taken
        with (profile := profile') (o := Order_set_rider (Some (User.pk user)) o)
             (rider := User.pk user); [done | done | done | | done].
      cbn. apply lookup_insert_eq.
    + intros now' user' Hr' Hnone'. by apply accept_delivery_no_profile.
Qed.

(** X10. [AcceptDeliveryView] saves the order before it creates the
    delivery, and a delivery is one-to-one with its order. So when the
    order has no rider but a delivery of it is stored already, the request
    fails with [IntegrityError] and the caller is left written as the
    order's rider, with no delivery of their own. *)
Theorem accept_delivery_fails_after_writing_rider now user profile pk st o k d :
  User.is_rider user = true ->
  only_profile st user profile ->
  pk ≠ 0 ->
  orders st !! pk = Some o ->
  Order.rider o = None ->
  Order.order_number o ≠ "" ->
  deliveries st !! k = Some d ->
  Delivery.order d = pk ->
  AcceptDeliveryView_post now user (Some pk) st
  = (Raised IntegrityError,
     with_orders (<[pk := Order_set_rider (Some (User.pk user)) o]> (orders st)) st).
Proof.
  intros Hr Hp Hpk Ho Hnone Hn Hk Hd.
  rewrite (accept_delivery_reaches_order _ _ _ _ _ Hr Hp Hpk).
  rewrite (bind_Done _ _ _ (Some (pk, o)) st).
  2:{ apply try_except_Done. erewrite bind_Done; [reflexivity |].
      unfold Order_objects_get_unassigned. by rewrite Ho, Hnone. }
  cbn [fst snd].
  erewrite bind_Done by (by apply Order_save_numbered).
  cbn [fst snd]. apply bind_Raised. unfold Delivery_objects_create.
  cbn [deliveries with_orders]. rewrite bool_decide_eq_false_2; [done |].
  intros Hall. by apply (Hall k d Hk).
Qed.

(** ** Delivery status *)

Lemma String_eqb_false a b : a ≠ b -> String.eqb a b = false.
Proof. intros H. by destruct (String.eqb_spec a b). Qed.

(** X11. [UpdateDeliveryStatusView] stores the status it is sent without
    checking it against the statuses of a delivery. For the rider of the
    delivery, any text other than 'picking_up' and 'delivered' becomes the
    stored status and nothing else changes; 'picking_up' stores the notes
    as pickup notes besides. A delivery that is not the caller's is
    answered 404 and the store is left as it was. *)
Theorem update_delivery_status_stores_any_text now user pk new_status notes st d :
  User.is_rider user = true ->
  pk ≠ 0 ->
  new_status ≠ "" ->
  deliveries st !! pk = Some d ->
  (rider_profiles st !! Delivery.rider d = Some (User.pk user) ->
   new_status ≠ "picking_up" ->
   new_status ≠ "delivered" ->
   UpdateDeliveryStatusView_post now user (Some pk) (Some new_status) notes st
   = (Done (Response_ok (message ("Delivery status updated to " +:+ new_status))),
      with_deliveries (<[pk := Delivery.set_status new_status d]> (deliveries st)) st)) /\
  (rider_profiles st !! Delivery.rider d = Some (User.pk user) ->
   UpdateDeliveryStatusView_post now user (Some pk) (Some "picking_up") notes st
   = (Done (Response_ok (message "Delivery status updated to picking_up")),
      with_deliveries
        (<[pk := Delivery.set_pickup_notes (from_option id "" notes)
                   (Delivery.set_status "picking_up" d)]> (deliveries st)) st)) /\
  (rider_profiles st !! Delivery.rider d ≠ Some (User.pk user) ->
   UpdateDeliveryStatusView_post now user (Some pk) (Some new_status) notes st
   = (Done (Response_status (error "Delivery not found") 404), st)).
Proof.
  intros Hr Hpk Hs Hd.
  assert (Hhead : forall s, s ≠ "" ->
            UpdateDeliveryStatusView_post now user (Some pk) (Some s) notes st
            = (found <- try_except
                          (d <- Delivery_objects_get_for pk user;; ret (Some d))
                          (is_DoesNotExist "Delivery")
                          (fun _ => ret None);;
               match found with
               | None => ret (Response_status (error "Delivery not found") 404)
               | Some delivery =>
                   let d1 := Delivery.set_status s delivery.2 in
                   d2 <- (if String.eqb s "picking_up" then
                            ret (Delivery.set_pickup_notes (from_option id "" notes) d1)
                          else if String.eqb s "delivered" then
                            let d2 := Delivery.set_delivery_notes (from_option id "" notes)
                                        (Delivery.set_delivered_at (Some now) d1) in
                            order <- Order_objects_get (Delivery.order d2);;
                            Order_save now
                              (order.1,
                               Order.set_actual_delivery_time (Some now)
                                 (Order.set_status OrderStatus.delivered order.2));;;
                            ret d2
                          else ret d1);;
                   Delivery_save (delivery.1, d2);;;
                   ret (Response_ok (message ("Delivery status updated to " +:+ s)))
               end) st).
  { intros s Hne. unfold UpdateDeliveryStatusView_post. rewrite Hr.
    cbn [negb id_not_given from_option id].
    destruct (Z.eqb_spec pk 0) as [| _]; [done |].
    by rewrite (String_eqb_false s "") by done. }
  split_and!.
  - intros Hown Hp Hdl. rewrite (Hhead _ Hs).
    rewrite (bind_Done _ _ _ (Some (pk, d)) st).
    2:{ apply try_except_Done. erewrite bind_Done; [reflexivity |].
        unfold Delivery_objects_get_for. by rewrite Hd, bool_decide_eq_true_2. }
    cbn [fst snd]. rewrite !String_eqb_false by done. reflexivity.
  - intros Hown. rewrite (Hhead "picking_up") by done.
    rewrite (bind_Done _ _ _ (Some (pk, d)) st).
    2:{ apply try_except_Done. erewrite bind_Done; [reflexivity |].
        unfold Delivery_objects_get_for. by rewrite Hd, bool_decide_eq_true_2. }
    reflexivity.
  - intros Hother. rewrite (Hhead _ Hs).
    rewrite (bind_Done _ _ _ None st); [reflexivity |].
    rewrite (try_except_Raised _ _ _ _ (DoesNotExist "Delivery") st); [reflexivity |].
    apply bind_Raised. unfold Delivery_objects_get_for.
    by rewrite Hd, bool_decide_eq_false_2.
Qed.

(** ** Delivering more than once *)

Lemma deliver_store now user pk notes st d o :
  User.is_rider user = true ->
  deliveries st !! pk = Some d ->
  rider_profiles st !! Delivery.rider d = Some (User.pk user) ->
  orders st !! Delivery.order d = Some o ->
  Order.order_number o ≠ "" ->
  DeliveryViewSet_deliver now user pk notes st
  = (Done (Response_ok (message "Order delivered successfully")),
     store_after_deliver now pk notes d o st).
Proof.
  intros Hr Hd Hp Ho Hn.
  unfold DeliveryViewSet_deliver.
  assert (Hg : DeliveryViewSet_get_object user pk st = (Done (pk, d), st)).
  { unfold DeliveryViewSet_get_object, DeliveryViewSet_in_queryset.
    rewrite Hd, (rider_is_not_admin _ Hr), Hr. by rewrite bool_decide_eq_true_2. }
  erewrite bind_Done by exact Hg. cbn [fst snd].
  rewrite Hr. cbn [negb].
  unfold bind at 1. unfold bind at 1. unfold RiderProfile_user. rewrite Hp.
  cbn [ret]. rewrite bool_decide_eq_true_2 by done. cbn [negb].
  unfold bind at 1. cbn [Delivery_save modify].
  cbn [Delivery.order Delivery.set_delivery_notes Delivery.set_delivered_at
         Delivery.set_status].
  erewrite bind_Done; [| unfold Order_objects_get; cbn [orders with_deliveries];
                         by rewrite Ho].
  cbn [fst snd].
  erewrite bind_Done by (by apply Order_save_numbered).
  unfold bind, Delivery_save, modify, RiderEarnings_objects_create, modify, ret.
  cbn [fst snd]. f_equal. unfold store_after_deliver, delivered_delivery, delivery_earnings.
  destruct st. cbn. f_equal. by rewrite insert_insert_eq.
Qed.

(** X12. [DeliveryViewSet.deliver] does not look at the status of the
    delivery: the rider of a delivery can deliver it again, and each call
    writes one more earnings record of the same amount, base fee 100 plus
    ten times the distance. Two calls leave two records for the one
    delivery. *)
Theorem deliver_again_pays_again now1 now2 user pk notes1 notes2 st d o :
  User.is_rider user = true ->
  deliveries st !! pk = Some d ->
  rider_profiles st !! Delivery.rider d = Some (User.pk user) ->
  orders st !! Delivery.order d = Some o ->
  Order.order_number o ≠ "" ->
  exists st1 st2,
    DeliveryViewSet_deliver now1 user pk notes1 st
    = (Done (Response_ok (message "Order delivered successfully")), st1) /\
    Delivery.status <$> deliveries st1 !! pk = Some "delivered" /\
    DeliveryViewSet_deliver now2 user pk notes2 st1
    = (Done (Response_ok (message "Order delivered successfully")), st2) /\
    rider_earnings st2
    = delivery_earnings now2 pk d (Order.order_number o)
      :: delivery_earnings now1 pk d (Order.order_number o) :: rider_earnings st /\
    RiderEarnings.amount (delivery_earnings now2 pk d (Order.order_number o))
    = dec_of_int 100 + distance_fee_of (Delivery.actual_distance d).
Proof.
  intros Hr Hd Hp Ho Hn. eexists _, _. split_and!.
  - by apply deliver_store.
  - cbn. by rewrite lookup_insert_eq.
  - apply deliver_store; [done | | | | ].
    + cbn. apply lookup_insert_eq.
    + exact Hp.
    + cbn. apply lookup_insert_eq.
    + done.
  - reflexivity.
  - reflexivity.
Qed.

(** ** Confirming once *)

Lemma vendor_in_queryset st user o v :
  User.role user = Role.vendor ->
  vendor_profiles st !! Order.vendor o = Some v ->
  VendorProfile.user v = User.pk user ->
  OrderViewSet_in_queryset st user o = true /\
  not_owning_vendor o user st = (Done false, st).
Proof.
  intros Hrole Hv Hu. split.
  - unfold OrderViewSet_in_queryset, User.is_admin_user, User.is_customer, User.is_vendor.
    rewrite Hrole, Hv. cbn [fmap option_fmap option_map]. rewrite Hu.
    by repeat case_bool_decide.
  - unfold not_owning_vendor, User.is_vendor. rewrite Hrole.
    rewrite bool_decide_eq_true_2 by done. cbn [negb].
    unfold vendor_user_is, bind, VendorProfile_objects_get. rewrite Hv. cbn.
    by rewrite Hu, bool_decide_eq_true_2.
Qed.

Lemma add_minutes_in_range now minutes :
  time_in_range now minutes -> add_minutes now minutes = Ok (now + 60 * minutes).
Proof.
  intros [[H1 H2] [H3 H4]]. unfold add_minutes. cbv zeta.
  rewrite (proj2 (Z.leb_le _ _) H1), (proj2 (Z.leb_le _ _) H2).
  by rewrite (proj2 (Z.leb_le _ _) H3), (proj2 (Z.leb_le _ _) H4).
Qed.

Lemma add_minutes_out_of_range now minutes :
  ~ time_in_range now minutes -> add_minutes now minutes = Raise OverflowError.
Proof.
  intros Hout. unfold add_minutes. cbv zeta.
  destruct (Z.leb_spec (- timedelta_max_days) (60 * minutes / 86400));
    destruct (Z.leb_spec (60 * minutes / 86400) timedelta_max_days); cbn [andb]; try done.
  destruct (Z.leb_spec datetime_min (now + 60 * minutes));
    destruct (Z.leb_spec (now + 60 * minutes) datetime_max); cbn [andb]; try done.
  by destruct Hout.
Qed.

(** X13. The vendor of a 'pending' order, stored with its number,
    confirms it once. When [now] plus the given minutes (an integer, 30
    when none is given) is an instant a [datetime] holds and the minutes
    are a span a [timedelta] holds, the order becomes 'confirmed' with
    that instant as its estimated delivery time, one tracking row records
    it, and every later confirmation of the order, with any time, is
    refused with 400 and changes nothing. Otherwise the request fails with
    [OverflowError] and nothing is written. *)
Theorem confirm_once now user pk estimated_time st o v :
  orders st !! pk = Some o ->
  Order.order_number o ≠ "" ->
  Order.status o = OrderStatus.pending ->
  User.role user = Role.vendor ->
  vendor_profiles st !! Order.vendor o = Some v ->
  VendorProfile.user v = User.pk user ->
  (time_in_range now (from_option id 30 estimated_time) ->
   exists st',
     OrderViewSet_confirm now user pk estimated_time st
     = (Done (Response_ok (message "Order confirmed successfully")), st') /\
     orders st' = <[pk := confirmed_order now estimated_time o]> (orders st) /\
     Order.estimated_delivery_time (confirmed_order now estimated_time o)
     = Some (now + 60 * from_option id 30 estimated_time) /\
     tracking st' = confirmation_row pk (User.pk user) estimated_time :: tracking st /\
     (forall now' estimated_time',
        OrderViewSet_confirm now' user pk estimated_time' st'
        = (Done (Response_status (error "Order cannot be confirmed") 400), st'))) /\
  (~ time_in_range now (from_option id 30 estimated_time) ->
   OrderViewSet_confirm now user pk estimated_time st = (Raised OverflowError, st)).
Proof.
  intros Ho Hn Hs Hrole Hv Hu.
  destruct (vendor_in_queryset st user o v Hrole Hv Hu) as [Hq Hd].
  assert (Hrun : OrderViewSet_confirm now user pk estimated_time st
                 = (when <- lift (add_minutes now (from_option id 30 estimated_time));;
                    order1 <- Order_save now
                                (pk, Order.set_estimated_delivery_time (Some when)
                                       (Order.set_status OrderStatus.confirmed o));;
                    OrderTracking_objects_create
                      (confirmation_row order1.1 (User.pk user) estimated_time);;;
                    ret (Response_ok (message "Order confirmed successfully"))) st).
  { unfold OrderViewSet_confirm.
    erewrite bind_Done by (by apply get_object_Some).
    erewrite bind_Done by exact Hd. cbn [fst snd].
    by rewrite Hs, bool_decide_eq_true_2 by done. }
  rewrite Hrun. split.
  - intros Hrange. eexists. split.
    + unfold bind at 1. rewrite (add_minutes_in_range _ _ Hrange). cbn [lift ret].
      fold (confirmed_order now estimated_time o).
      erewrite bind_Done by (by apply Order_save_numbered). reflexivity.
    + split_and!; [done .. |].
      intros now' estimated_time'.
      set (st' := with_tracking _ _).
      assert (Ho' : orders st' !! pk = Some (confirmed_order now estimated_time o)).
      { cbn. apply lookup_insert_eq. }
      destruct (vendor_in_queryset st' user (confirmed_order now estimated_time o) v
                  Hrole Hv Hu) as [Hq' Hd'].
      unfold OrderViewSet_confirm.
      erewrite bind_Done by (by apply get_object_Some).
      erewrite bind_Done by exact Hd'. cbn [fst snd].
      by rewrite bool_decide_eq_false_2.
  - intros Hout. unfold bind at 1.
    by rewrite (add_minutes_out_of_range _ _ Hout).
Qed.

(** ** A failure callback without a description *)

(** X14. A callback that reports a failure (a [ResultCode] other than 0)
    and carries no [ResultDesc] is answered 500, and it is half applied:
    the order of the payment is already stored with payment status
    'failed' when the write of the payment itself is refused, so the
    payment keeps its old status and has no record of the callback. *)
Theorem failure_callback_without_description now callback_data id ref code st pk p o :
  stk_fields callback_data id code JNull ->
  truthy id = true ->
  to_text id = Some ref ->
  py_eq_zero code = false ->
  only_match st ref pk p ->
  orders st !! Payment.order p = Some o ->
  Order.order_number o ≠ "" ->
  exists st',
    MpesaCallbackView_post now callback_data st
    = (Done (Response_status (error "Callback processing failed") 500), st') /\
    orders st' = <[Payment.order p := Order.set_payment_status OrderPayment.failed o]> (orders st) /\
    payments st' = payments st /\
    tracking st' = tracking st.
Proof.
  intros (Hid & Hcode & Hdesc) Hne Href Hzero Hm Ho Hn.
  eexists. split.
  - unfold MpesaCallbackView_post, try_except, bind.
    rewrite Hid, Hcode, Hdesc. cbn [lift ret].
    rewrite Hne, Href. cbn [negb].
    rewrite (Payment_objects_get_only _ _ _ _ Hm). cbn [ret is_DoesNotExist fst snd].
    rewrite Hzero. cbn [Payment.order Payment.set_status].
    rewrite (Order_objects_get_Some _ _ _ Ho). cbn [fst snd].
    rewrite Order_save_numbered by done.
    reflexivity.
  - done.
Qed.


(** ** What every view preserves *)

#[local] Instance grows_preorder : PreOrder grows.
Proof.
  split.
  - intros st. by repeat split.
  - intros st1 st2 st3 (H1 & H2 & H3 & H4 & H5 & H6 & H7 & H8 & H9)
                       (K1 & K2 & K3 & K4 & K5 & K6 & K7 & K8 & K9).
    unfold grows. split_and!; try congruence; try (by etrans).
Qed.

#[local] Instance numbers_kept_preorder : PreOrder numbers_kept.
Proof.
  split.
  - intros st H. exact H.
  - intros st1 st2 st3 H1 H2 H. by apply H2, H1.
Qed.

Section Preserved.

Context (R : Store -> Store -> Prop) `{R_preorder : !PreOrder R}.

Lemma preserved_read {A} (m : M A) : (forall st, (m st).2 = st) -> preserved R m.
Proof using R_preorder. intros H st. by rewrite H. Qed.

Lemma preserved_ret {A} (a : A) : preserved R (ret a).
Proof using R_preorder. by apply preserved_read. Qed.

Lemma preserved_raise {A} e : preserved R (@raise A e).
Proof using R_preorder. by apply preserved_read. Qed.

Lemma preserved_unmodelled {A} : preserved R (@unmodelled A).
Proof using R_preorder. by apply preserved_read. Qed.

Lemma preserved_gets {A} (f : Store -> A) : preserved R (gets f).
Proof using R_preorder. by apply preserved_read. Qed.

Lemma preserved_lift {A} (r : result A) : preserved R (lift r).
Proof using R_preorder. destruct r; by apply preserved_read. Qed.

Lemma preserved_bind {A B} (m : M A) (k : A -> M B) :
  preserved R m -> (forall a, preserved R (k a)) -> preserved R (bind m k).
Proof using R_preorder.
  intros Hm Hk st. unfold bind. specialize (Hm st).
  destruct (m st) as [[a | e |] st1]; cbn [snd] in *; [| done ..].
  etrans; [exact Hm | apply Hk].
Qed.

Lemma preserved_try_except {A} (m : M A) handles h :
  preserved R m -> (forall e, preserved R (h e)) -> preserved R (try_except m handles h).
Proof using R_preorder.
  intros Hm Hh st. unfold try_except. specialize (Hm st).
  destruct (m st) as [[a | e |] st1]; cbn [snd] in *; [done | | done].
  destruct (handles e); [| done].
  etrans; [exact Hm | apply Hh].
Qed.

Lemma preserved_for_fold {A B} (xs : list A) (body : B -> A -> M B) :
  (forall acc x, preserved R (body acc x)) ->
  forall acc, preserved R (for_fold xs acc body).
Proof using R_preorder.
  intros Hb. induction xs as [| x xs IH]; intros acc; cbn [for_fold].
  - apply preserved_ret.
  - apply preserved_bind; [apply Hb | intros a; apply IH].
Qed.

(** The reads of the store. *)

Lemma preserved_Order_objects_get pk : preserved R (Order_objects_get pk).
Proof using R_preorder.
  apply preserved_read. intros st. unfold Order_objects_get.
  by destruct (orders st !! pk).
Qed.

Lemma preserved_Payment_objects_get ref : preserved R (Payment_objects_get ref).
Proof using R_preorder.
  apply preserved_read. intros st. unfold Payment_objects_get.
  by destruct (map_to_list _) as [| ? [| ? ?]].
Qed.

Lemma preserved_VendorProfile_objects_get pk : preserved R (VendorProfile_objects_get pk).
Proof using R_preorder.
  apply preserved_read. intros st. unfold VendorProfile_objects_get.
  by destruct (vendor_profiles st !! pk).
Qed.

Lemma preserved_VendorInventory_objects_get v g :
  preserved R (VendorInventory_objects_get v g).
Proof using R_preorder.
  apply preserved_read. intros st. unfold VendorInventory_objects_get.
  by destruct (inventory st !! _).
Qed.

Lemma preserved_OrderViewSet_get_object user pk :
  preserved R (OrderViewSet_get_object user pk).
Proof using R_preorder.
  apply preserved_read. intros st. unfold OrderViewSet_get_object.
  destruct (orders st !! pk); [| done]. by destruct (OrderViewSet_in_queryset _ _ _).
Qed.

Lemma preserved_DeliveryViewSet_get_object user pk :
  preserved R (DeliveryViewSet_get_object user pk).
Proof using R_preorder.
  apply preserved_read. intros st. unfold DeliveryViewSet_get_object.
  destruct (deliveries st !! pk); [| done]. by destruct (DeliveryViewSet_in_queryset _ _ _).
Qed.

Lemma preserved_Delivery_objects_get_for pk user :
  preserved R (Delivery_objects_get_for pk user).
Proof using R_preorder.
  apply preserved_read. intros st. unfold Delivery_objects_get_for.
  destruct (deliveries st !! pk); [| done]. by case_bool_decide.
Qed.

Lemma preserved_RiderProfile_user profile : preserved R (RiderProfile_user profile).
Proof using R_preorder.
  apply preserved_read. intros st. unfold RiderProfile_user.
  by destruct (rider_profiles st !! profile).
Qed.

Lemma preserved_User_rider_profile user : preserved R (User_rider_profile user).
Proof using R_preorder.
  apply preserved_read. intros st. unfold User_rider_profile.
  by destruct (map_to_list _) as [| ? [| ? ?]].
Qed.

Lemma preserved_Order_objects_get_by_number number :
  preserved R (Order_objects_get_by_number number).
Proof using R_preorder. apply preserved_read, Order_objects_get_by_number_unchanged. Qed.

Lemma preserved_Order_objects_get_of_customer pk user :
  preserved R (Order_objects_get_of_customer pk user).
Proof using R_preorder.
  apply preserved_read. intros st. unfold Order_objects_get_of_customer.
  destruct (orders st !! pk); [| done]. by case_bool_decide.
Qed.

Lemma preserved_Order_objects_get_unassigned pk :
  preserved R (Order_objects_get_unassigned pk).
Proof using R_preorder.
  apply preserved_read. intros st. unfold Order_objects_get_unassigned.
  destruct (orders st !! pk) as [o |]; [| done]. by destruct (Order.rider o).
Qed.

End Preserved.

Create HintDb preserved.

#[local] Hint Resolve preserved_ret preserved_raise preserved_unmodelled preserved_gets
  preserved_lift preserved_Order_objects_get preserved_Payment_objects_get
  preserved_VendorProfile_objects_get preserved_VendorInventory_objects_get
  preserved_OrderViewSet_get_object preserved_DeliveryViewSet_get_object
  preserved_Delivery_objects_get_for preserved_RiderProfile_user
  preserved_User_rider_profile preserved_Order_objects_get_by_number
  preserved_Order_objects_get_of_customer preserved_Order_objects_get_unassigned
  : preserved.

(** One step through a computation: a sequence, a handler, a loop or a
    test is opened, a primitive is closed by its lemma, a definition of the
    views is unfolded. *)
Ltac preserved_step :=
  match goal with
  | |- preserved _ (bind _ _) => apply preserved_bind; [apply _ | | intros ?]
  | |- preserved _ (try_except _ _ _) => apply preserved_try_except; [apply _ | | intros ?]
  | |- preserved _ (for_fold _ _ _) => apply preserved_for_fold; [apply _ | intros ? ?]
  | |- preserved _ (if ?b then _ else _) => destruct b
  | |- preserved _ (match ?x with _ => _ end) => destruct x
  | |- preserved _ (let _ := _ in _) => cbv zeta
  | |- preserved _ _ => solve [auto with preserved typeclass_instances]
  | |- preserved _ (?f _ _ _ _ _) => unfold f
  | |- preserved _ (?f _ _ _ _) => unfold f
  | |- preserved _ (?f _ _ _) => unfold f
  | |- preserved _ (?f _ _) => unfold f
  | |- preserved _ (?f _) => unfold f
  end.

Ltac preserved_view := repeat preserved_step.

(** The writes only add. *)

Lemma only_adds_generate now :
  preserved grows (fun st => lift (generate_order_number now st) st).
Proof. intros st. by destruct (generate_order_number now st). Qed.

Lemma only_adds_with_orders pk o :
  preserved grows (modify (fun st => with_orders (<[pk := o]> (orders st)) st)).
Proof. intros st. cbn. split_and!; try done. apply dom_insert_subseteq. Qed.

#[local] Hint Resolve only_adds_generate only_adds_with_orders : preserved.

Lemma only_adds_Order_save now inst : preserved grows (Order_save now inst).
Proof. unfold Order_save. preserved_view. Qed.

Lemma only_adds_OrderTracking_objects_create row :
  preserved grows (OrderTracking_objects_create row).
Proof. intros st. cbn. split_and!; try done. by apply suffix_cons_r. Qed.

Lemma only_adds_OrderItem_objects_create row :
  preserved grows (OrderItem_objects_create row).
Proof. intros st. cbn. split_and!; try done. by apply suffix_cons_r. Qed.

Lemma only_adds_RiderEarnings_objects_create row :
  preserved grows (RiderEarnings_objects_create row).
Proof. intros st. cbn. split_and!; try done. by apply suffix_cons_r. Qed.

Lemma only_adds_Payment_save inst : preserved grows (Payment_save inst).
Proof. intros st. cbn. split_and!; try done. apply dom_insert_subseteq. Qed.

Lemma only_adds_Delivery_save inst : preserved grows (Delivery_save inst).
Proof. intros st. cbn. split_and!; try done. apply dom_insert_subseteq. Qed.

Lemma only_adds_Delivery_objects_create order rider status :
  preserved grows (Delivery_objects_create order rider status).
Proof.
  intros st. unfold Delivery_objects_create. case_bool_decide; [| done].
  cbn. split_and!; try done. apply dom_insert_subseteq.
Qed.

(** The writes keep the numbers: only [Order.save] writes an order. *)

Lemma numbers_kept_Order_save now inst :
  gives_numbers generate_order_number ->
  preserved numbers_kept (Order_save now inst).
Proof.
  intros Hgen st Hnum.
  destruct (Order_save now inst st) as [r st'] eqn:E.
  eapply Order_save_keeps_numbered; [exact Hgen | exact Hnum | exact E].
Qed.

Lemma numbers_kept_same_orders {A} (m : M A) :
  (forall st, orders (m st).2 = orders st) -> preserved numbers_kept m.
Proof. intros H st. unfold numbers_kept, orders_numbered. by rewrite H. Qed.

Lemma numbers_kept_OrderTracking_objects_create row :
  preserved numbers_kept (OrderTracking_objects_create row).
Proof. by apply numbers_kept_same_orders. Qed.

Lemma numbers_kept_OrderItem_objects_create row :
  preserved numbers_kept (OrderItem_objects_create row).
Proof. by apply numbers_kept_same_orders. Qed.

Lemma numbers_kept_RiderEarnings_objects_create row :
  preserved numbers_kept (RiderEarnings_objects_create row).
Proof. by apply numbers_kept_same_orders. Qed.

Lemma numbers_kept_Payment_save inst : preserved numbers_kept (Payment_save inst).
Proof. by apply numbers_kept_same_orders. Qed.

Lemma numbers_kept_Delivery_save inst : preserved numbers_kept (Delivery_save inst).
Proof. by apply numbers_kept_same_orders. Qed.

Lemma numbers_kept_Delivery_objects_create order rider status :
  preserved numbers_kept (Delivery_objects_create order rider status).
Proof.
  apply numbers_kept_same_orders. intros st. unfold Delivery_objects_create.
  by case_bool_decide.
Qed.

Lemma Order_save_refused_same {A} now inst st :
  (@Order_save_refused A now inst st).2 = st.
Proof.
  unfold Order_save_refused, bind. destruct (String.eqb _ _); [| done].
  by destruct (generate_order_number now st).
Qed.

Lemma only_adds_Order_save_refused {A} now inst :
  preserved grows (@Order_save_refused A now inst).
Proof. apply preserved_read; [apply _ | apply Order_save_refused_same]. Qed.

Lemma numbers_kept_Order_save_refused {A} now inst :
  preserved numbers_kept (@Order_save_refused A now inst).
Proof. apply preserved_read; [apply _ | apply Order_save_refused_same]. Qed.

#[local] Hint Resolve only_adds_Order_save_refused numbers_kept_Order_save_refused
  : preserved.

#[local] Hint Resolve
  only_adds_Order_save only_adds_OrderTracking_objects_create
  only_adds_OrderItem_objects_create only_adds_RiderEarnings_objects_create
  only_adds_Payment_save only_adds_Delivery_save only_adds_Delivery_objects_create
  numbers_kept_Order_save numbers_kept_OrderTracking_objects_create
  numbers_kept_OrderItem_objects_create numbers_kept_RiderEarnings_objects_create
  numbers_kept_Payment_save numbers_kept_Delivery_save
  numbers_kept_Delivery_objects_create
  : preserved.

(** X15. No view deletes or replaces what the database holds. Whatever
    the caller, the input and the outcome (an answer or an exception) of
    the payment callback, the two creation views, confirm, prepare,
    ready-for-pickup, both cancellations, update, tracking, payment
    initiation, the estimate, the two delivery completions and the taking
    of a delivery: afterwards the vendors, the inventory and the rider
    profiles are as before, every order, payment and delivery that was
    stored is still stored under its key, and the item rows, the tracking
    rows and the earnings records that were there are all still there, in
    their order, under whatever was added. *)
Theorem views_only_add :
  (forall now callback_data, preserved grows (MpesaCallbackView_post now callback_data)) /\
  (forall now user data, preserved grows (CreateOrderView_post now user data)) /\
  (forall now user data, preserved grows (OrderViewSet_create now user data)) /\
  (forall now user pk estimated_time,
     preserved grows (OrderViewSet_confirm now user pk estimated_time)) /\
  (forall now user pk, preserved grows (OrderViewSet_prepare now user pk)) /\
  (forall now user pk, preserved grows (OrderViewSet_ready_for_pickup now user pk)) /\
  (forall now user pk reason, preserved grows (OrderViewSet_cancel now user pk reason)) /\
  (forall now user order_id reason,
     preserved grows (CancelOrderView_post now user order_id reason)) /\
  (forall now user pk data, preserved grows (OrderViewSet_update now user pk data)) /\
  (forall user order_number, preserved grows (TrackOrderView_get user order_number)) /\
  (forall payment_id user order_id phone_number,
     preserved grows (InitiatePaymentView_post payment_id user order_id phone_number)) /\
  (forall data, preserved grows (OrderEstimateView_post data)) /\
  (forall now user pk notes, preserved grows (DeliveryViewSet_deliver now user pk notes)) /\
  (forall now user delivery_id new_status notes,
     preserved grows (UpdateDeliveryStatusView_post now user delivery_id new_status notes)) /\
  (forall now user order_id, preserved grows (AcceptDeliveryView_post now user order_id)).
Proof.
  split_and!; intros; preserved_view.
Qed.

(** X16. Every view keeps the orders numbered. If the generator of order
    numbers never gives the empty text, then after any of the views, for
    any caller, input and outcome, every stored order has its number as
    soon as every order stored before had: [Order.save] is the only write
    of an order and gives a number to an order that has none. *)
Theorem views_keep_orders_numbered :
  gives_numbers generate_order_number ->
  (forall now callback_data,
     preserved numbers_kept (MpesaCallbackView_post now callback_data)) /\
  (forall now user data, preserved numbers_kept (CreateOrderView_post now user data)) /\
  (forall now user data, preserved numbers_kept (OrderViewSet_create now user data)) /\
  (forall now user pk estimated_time,
     preserved numbers_kept (OrderViewSet_confirm now user pk estimated_time)) /\
  (forall now user pk, preserved numbers_kept (OrderViewSet_prepare now user pk)) /\
  (forall now user pk, preserved numbers_kept (OrderViewSet_ready_for_pickup now user pk)) /\
  (forall now user pk reason,
     preserved numbers_kept (OrderViewSet_cancel now user pk reason)) /\
  (forall now user order_id reason,
     preserved numbers_kept (CancelOrderView_post now user order_id reason)) /\
  (forall now user pk data, preserved numbers_kept (OrderViewSet_update now user pk data)) /\
  (forall user order_number, preserved numbers_kept (TrackOrderView_get user order_number)) /\
  (forall payment_id user order_id phone_number,
     preserved numbers_kept
       (InitiatePaymentView_post payment_id user order_id phone_number)) /\
  (forall data, preserved numbers_kept (OrderEstimateView_post data)) /\
  (forall now user pk notes,
     preserved numbers_kept (DeliveryViewSet_deliver now user pk notes)) /\
  (forall now user delivery_id new_status notes,
     preserved numbers_kept
       (UpdateDeliveryStatusView_post now user delivery_id new_status notes)) /\
  (forall now user order_id,
     preserved numbers_kept (AcceptDeliveryView_post now user order_id)).
Proof.
  intros Hgen. split_and!; intros; preserved_view.
Qed.


(** ** orders/views.py: assign_rider *)

Lemma assign_rider_reaches_rider users now vendor pk rider_id full_name st o :
  User.role vendor = Role.vendor ->
  orders st !! pk = Some o ->
  vendor_user_of st o = Some (User.pk vendor) ->
  Order.order_number o ≠ "" ->
  rider_id ≠ 0 ->
  users !! rider_id = Some (Role.rider, full_name) ->
  OrderViewSet_assign_rider users now vendor pk (Some rider_id) st
  = (rider_profile <- User_rider_profile (rider_user rider_id);;
     Delivery_objects_create pk rider_profile "assigned";;;
     OrderTracking_objects_create (assignment_row pk full_name (User.pk vendor));;;
     ret (Response_ok (message "Rider assigned successfully")))
      (with_orders (<[pk := assigned_order rider_id o]> (orders st)) st).
Proof.
  intros Hrole Ho Hv Hn Hid Hu.
  unfold vendor_user_of in Hv.
  destruct (vendor_profiles st !! Order.vendor o) as [v |] eqn:Hvp; [| done].
  injection Hv as Hv.
  destruct (vendor_in_queryset st vendor o v Hrole Hvp Hv) as [Hq Hown].
  unfold OrderViewSet_assign_rider.
  rewrite (bind_Done _ _ _ (pk, o) st)
    by (unfold OrderViewSet_get_object; by rewrite Ho, Hq).
  cbn [fst snd].
  rewrite (bind_Done _ _ _ false st) by exact Hown.
  unfold id_not_given. rewrite (proj2 (Z.eqb_neq rider_id 0)) by done.
  cbn [from_option id].
  unfold try_except, bind at 1, User_objects_get_rider. rewrite Hu.
  cbn [ret fst snd User.pk].
  unfold bind at 1. fold (assigned_order rider_id o).
  rewrite (Order_save_numbered now pk (assigned_order rider_id o) st) by done.
  cbn [fst snd].
  set (st1 := with_orders _ st).
  set (rest := bind _ _).
  destruct (rest st1) as [[a | e |] st2] eqn:Hrest; [done | | done].
  subst rest.
  revert Hrest. unfold bind at 1.
  unfold User_rider_profile.
  destruct (map_to_list _) as [| pu [| pu' l]]; cbn [is_DoesNotExist].
  - by intros [= <- <-].
  - unfold bind at 1, Delivery_objects_create.
    destruct (bool_decide _); [| by intros [= <- <-]].
    by cbn.
  - by intros [= <- <-].
Qed.


(** X17. A vendor assigns a rider to one of their orders with
    [assign_rider]. The view looks at no status: whatever the order's
    status and whoever its rider was, the order is stored with the new
    rider and 'out_for_delivery', a delivery 'assigned' to the rider's
    profile is created under a key that held none, and one tracking row
    with the rider's name is written. *)
Theorem assign_rider_looks_at_no_status users now vendor pk rider_id full_name profile st o :
  User.role vendor = Role.vendor ->
  orders st !! pk = Some o ->
  vendor_user_of st o = Some (User.pk vendor) ->
  Order.order_number o ≠ "" ->
  rider_id ≠ 0 ->
  users !! rider_id = Some (Role.rider, full_name) ->
  only_profile st (rider_user rider_id) profile ->
  no_delivery_of st pk ->
  exists st',
    OrderViewSet_assign_rider users now vendor pk (Some rider_id) st
    = (Done (Response_ok (message "Rider assigned successfully")), st') /\
    orders st' = <[pk := assigned_order rider_id o]> (orders st) /\
    deliveries st !! next_delivery_pk st = None /\
    deliveries st'
    = <[next_delivery_pk st := new_delivery pk profile "assigned"]> (deliveries st) /\
    tracking st' = assignment_row pk full_name (User.pk vendor) :: tracking st.
Proof.
  intros Hrole Ho Hv Hn Hid Hu Hp Hnd.
  eexists. split.
  - rewrite (assign_rider_reaches_rider _ _ _ _ _ _ _ _ Hrole Ho Hv Hn Hid Hu).
    erewrite bind_Done by (by apply User_rider_profile_only).
    unfold bind, Delivery_objects_create.
    cbn [deliveries with_orders]. rewrite bool_decide_eq_true_2 by exact Hnd.
    reflexivity.
  - split_and!; [done | apply next_delivery_pk_fresh | done | done].
Qed.

(** X18. [assign_rider] saves the order before it reads the rider's
    profile and creates the delivery, and only [User.DoesNotExist] is
    caught. So when the rider has no rider profile the request fails with
    [RiderProfile.DoesNotExist], and when a delivery of the order is stored
    already (the order was assigned before) it fails with [IntegrityError];
    either way the order is left stored with the new rider and
    'out_for_delivery', and no delivery and no tracking row is written. *)
Theorem assign_rider_fails_after_saving_order users now vendor pk rider_id full_name st o :
  User.role vendor = Role.vendor ->
  orders st !! pk = Some o ->
  vendor_user_of st o = Some (User.pk vendor) ->
  Order.order_number o ≠ "" ->
  rider_id ≠ 0 ->
  users !! rider_id = Some (Role.rider, full_name) ->
  let st' := with_orders (<[pk := assigned_order rider_id o]> (orders st)) st in
  ((forall profile, rider_profiles st !! profile ≠ Some rider_id) ->
   OrderViewSet_assign_rider users now vendor pk (Some rider_id) st
   = (Raised (DoesNotExist "RiderProfile"), st')) /\
  (forall profile k d,
     only_profile st (rider_user rider_id) profile ->
     deliveries st !! k = Some d ->
     Delivery.order d = pk ->
     OrderViewSet_assign_rider users now vendor pk (Some rider_id) st
     = (Raised IntegrityError, st')).
Proof.
  intros Hrole Ho Hv Hn Hid Hu st'.
  rewrite (assign_rider_reaches_rider _ _ _ _ _ _ _ _ Hrole Ho Hv Hn Hid Hu).
  fold st'. split.
  - intros Hnone. apply bind_Raised. unfold User_rider_profile.
    rewrite map_empty_filter_2; [by rewrite map_to_list_empty |].
    intros profile u Hpu Heq. cbn in Heq. subst u. by eapply Hnone.
  - intros profile k d Hp Hd Hdo.
    erewrite bind_Done by (by apply User_rider_profile_only).
    apply bind_Raised. unfold Delivery_objects_create.
    rewrite bool_decide_eq_false_2; [done |].
    intros Hall. by apply (Hall k d).
Qed.

(** ** The monad of the tables *)

Lemma bindT_Done {A B} (m : TM A) (k : A -> TM B) t a t1 :
  m t = (Done a, t1) -> bindT m k t = k a t1.
Proof. intros H. unfold bindT. by rewrite H. Qed.

Lemma bindT_Raised {A B} (m : TM A) (k : A -> TM B) t e t1 :
  m t = (Raised e, t1) -> bindT m k t = (Raised e, t1).
Proof. intros H. unfold bindT. by rewrite H. Qed.

Lemma with_db_same t : with_db (db t) t = t.
Proof. by destruct t. Qed.

Lemma in_store_run {A} (m : M A) t r st :
  m (db t) = (r, st) -> in_store m t = (r, with_db st t).
Proof. intros H. unfold in_store. by rewrite H. Qed.

Lemma in_store_same {A} (m : M A) t r :
  m (db t) = (r, db t) -> in_store m t = (r, t).
Proof. intros H. rewrite (in_store_run _ _ _ _ H). by rewrite with_db_same. Qed.

(** ** riders/views.py: RiderProfileViewSet *)

Lemma rider_state_of_saved pk s t :
  rider_state_of (with_rider_state (<[pk := s]> (rider_state t)) t) pk = s.
Proof. unfold rider_state_of. cbn. by rewrite lookup_insert_eq. Qed.

Lemma same_but_rider_state_saved pk s t :
  same_but_rider_state pk t (with_rider_state (<[pk := s]> (rider_state t)) t).
Proof.
  split_and!; [done | done | done | done |].
  intros pk' Hne. unfold rider_state_of. cbn. by rewrite lookup_insert_ne.
Qed.

Lemma same_but_rider_state_trans pk t1 t2 t3 :
  same_but_rider_state pk t1 t2 -> same_but_rider_state pk t2 t3 ->
  same_but_rider_state pk t1 t3.
Proof.
  intros (H1 & H2 & H3 & H4 & H5) (G1 & G2 & G3 & G4 & G5).
  split_and!; [congruence | congruence | congruence | congruence |].
  intros pk' Hne. rewrite G5 by done. by apply H5.
Qed.

Lemma RiderProfileViewSet_get_object_admin user pk u t :
  User.is_admin_user user = true ->
  rider_profiles (db t) !! pk = Some u ->
  RiderProfileViewSet_get_object user pk t
  = (Done {| profile_pk := pk; profile_user := u; profile_state := rider_state_of t pk |}, t).
Proof.
  intros Ha Hp. unfold RiderProfileViewSet_get_object, RiderProfileViewSet_in_queryset.
  rewrite Hp. cbn. by rewrite Ha.
Qed.

Lemma RiderProfileViewSet_get_object_own user pk t :
  User.is_rider user = true ->
  rider_profiles (db t) !! pk = Some (User.pk user) ->
  RiderProfileViewSet_get_object user pk t
  = (Done {| profile_pk := pk; profile_user := User.pk user;
             profile_state := rider_state_of t pk |}, t).
Proof.
  intros Hr Hp. unfold RiderProfileViewSet_get_object, RiderProfileViewSet_in_queryset.
  rewrite Hp. cbn. rewrite (rider_is_not_admin _ Hr), Hr.
  by rewrite bool_decide_eq_true_2.
Qed.

Lemma suspend_by_admin admin pk u t :
  User.is_admin_user admin = true ->
  rider_profiles (db t) !! pk = Some u ->
  RiderProfileViewSet_suspend admin pk t
  = (Done (Response_ok (message "Rider suspended successfully")),
     with_rider_state (<[pk := suspended (rider_state_of t pk)]> (rider_state t)) t).
Proof.
  intros Ha Hp. unfold RiderProfileViewSet_suspend. rewrite Ha. cbn [negb].
  by rewrite (bindT_Done _ _ _ _ _ (RiderProfileViewSet_get_object_admin _ _ _ _ Ha Hp)).
Qed.

Lemma verify_by_admin now admin pk u t :
  User.is_admin_user admin = true ->
  rider_profiles (db t) !! pk = Some u ->
  RiderProfileViewSet_verify now admin pk t
  = (Done (Response_ok (message "Rider verified successfully")),
     with_rider_state
       (<[pk := verified now (User.pk admin) (rider_state_of t pk)]> (rider_state t)) t).
Proof.
  intros Ha Hp. unfold RiderProfileViewSet_verify. rewrite Ha. cbn [negb].
  by rewrite (bindT_Done _ _ _ _ _ (RiderProfileViewSet_get_object_admin _ _ _ _ Ha Hp)).
Qed.

Lemma toggle_by_owner user pk t :
  User.is_rider user = true ->
  rider_profiles (db t) !! pk = Some (User.pk user) ->
  RiderProfileViewSet_toggle_availability user pk t
  = (Done (toggled (RiderState.is_available (rider_state_of t pk))),
     with_rider_state
       (<[pk := RiderState.set_is_available
                  (negb (RiderState.is_available (rider_state_of t pk)))
                  (rider_state_of t pk)]> (rider_state t)) t).
Proof.
  intros Hr Hp. unfold RiderProfileViewSet_toggle_availability.
  rewrite (bindT_Done _ _ _ _ _ (RiderProfileViewSet_get_object_own _ _ _ Hr Hp)).
  cbn [profile_user profile_pk profile_state].
  rewrite bool_decide_eq_true_2 by done. cbn [negb andb].
  unfold toggled. by destruct (RiderState.is_available (rider_state_of t pk)).
Qed.

(** X19. [verify] and [suspend] are for admins: any other caller is
    answered 403 before the profile is looked up, and nothing is written.
    An admin's [suspend] makes the rider 'suspended' and unavailable and
    keeps what an earlier verification recorded; [verify] afterwards makes
    the rider 'active' again with the admin and the time as verification,
    and leaves the rider unavailable. No other table and no other profile
    changes. *)
Theorem suspend_then_verify now admin other pk u t :
  User.is_admin_user admin = true ->
  User.is_admin_user other = false ->
  rider_profiles (db t) !! pk = Some u ->
  exists t1 t2,
    RiderProfileViewSet_suspend admin pk t
    = (Done (Response_ok (message "Rider suspended successfully")), t1) /\
    rider_state_of t1 pk
    = {| RiderState.status := "suspended";
         RiderState.is_available := false;
         RiderState.verified_at := RiderState.verified_at (rider_state_of t pk);
         RiderState.verified_by := RiderState.verified_by (rider_state_of t pk) |} /\
    RiderProfileViewSet_verify now admin pk t1
    = (Done (Response_ok (message "Rider verified successfully")), t2) /\
    rider_state_of t2 pk
    = {| RiderState.status := "active";
         RiderState.is_available := false;
         RiderState.verified_at := Some now;
         RiderState.verified_by := Some (User.pk admin) |} /\
    same_but_rider_state pk t t2 /\
    RiderProfileViewSet_suspend other pk t = (Done permission_denied, t) /\
    RiderProfileViewSet_verify now other pk t = (Done permission_denied, t).
Proof.
  intros Ha Ho Hp.
  eexists _, _. split_and!.
  - by apply suspend_by_admin with (u := u).
  - by rewrite rider_state_of_saved.
  - by apply verify_by_admin with (u := u).
  - by rewrite !rider_state_of_saved.
  - eapply same_but_rider_state_trans; apply same_but_rider_state_saved.
  - unfold RiderProfileViewSet_suspend. by rewrite Ho.
  - unfold RiderProfileViewSet_verify. by rewrite Ho.
Qed.

(** X20. [toggle_availability] looks at no status: the rider of a profile
    flips [is_available] whatever the profile's status is, so a suspended
    or unverified rider can mark themselves available. The status and the
    verification stay, and toggling twice gives back the availability the
    rider had. *)
Theorem toggle_availability_looks_at_no_status user pk t :
  User.is_rider user = true ->
  rider_profiles (db t) !! pk = Some (User.pk user) ->
  let s := rider_state_of t pk in
  exists t1 t2,
    RiderProfileViewSet_toggle_availability user pk t
    = (Done (toggled (RiderState.is_available s)), t1) /\
    rider_state_of t1 pk
    = RiderState.set_is_available (negb (RiderState.is_available s)) s /\
    RiderProfileViewSet_toggle_availability user pk t1
    = (Done (toggled (negb (RiderState.is_available s))), t2) /\
    rider_state_of t2 pk = s /\
    same_but_rider_state pk t t2.
Proof.
  intros Hr Hp s.
  eexists _, _. split_and!.
  - by apply toggle_by_owner.
  - by rewrite rider_state_of_saved.
  - rewrite toggle_by_owner by done. by rewrite rider_state_of_saved.
  - rewrite !rider_state_of_saved. subst s. by destruct (rider_state_of t pk) as [? [] ? ?].
  - eapply same_but_rider_state_trans; apply same_but_rider_state_saved.
Qed.

(** ** riders/views.py: RiderBankAccountViewSet *)

Lemma bank_queryset_rider user profile t :
  User.is_rider user = true ->
  only_profile (db t) user profile ->
  RiderBankAccountViewSet_queryset user t
  = (Done (fun inst : Z * RiderBankAccount.t =>
             bool_decide (RiderBankAccount.rider inst.2 = profile)), t).
Proof.
  intros Hr Hp. unfold RiderBankAccountViewSet_queryset.
  rewrite (rider_is_not_admin _ Hr), Hr. unfold try_exceptT.
  rewrite (bindT_Done _ _ _ profile t); [done |].
  apply in_store_same. by apply User_rider_profile_only.
Qed.

Lemma bank_queryset_no_profile user t :
  User.is_rider user = true ->
  no_profile (db t) user ->
  RiderBankAccountViewSet_queryset user t = (Done (fun _ => false), t).
Proof.
  intros Hr Hnone. unfold RiderBankAccountViewSet_queryset.
  rewrite (rider_is_not_admin _ Hr), Hr. unfold try_exceptT.
  rewrite (bindT_Raised _ _ _ (DoesNotExist "RiderProfile") t); [done |].
  apply in_store_same. by apply User_rider_profile_none.
Qed.

Lemma bank_get_object_may user pk a t :
  may_address t user a ->
  bank_accounts t !! pk = Some a ->
  RiderBankAccountViewSet_get_object user pk t = (Done (pk, a), t).
Proof.
  intros [Ha | [Hr Hp]] Hk; unfold RiderBankAccountViewSet_get_object.
  - unfold RiderBankAccountViewSet_queryset. rewrite Ha.
    unfold bindT, retT, RiderBankAccount_get_or_404. by rewrite Hk.
  - rewrite (bindT_Done _ _ _ _ _ (bank_queryset_rider _ _ _ Hr Hp)).
    unfold RiderBankAccount_get_or_404. rewrite Hk. cbn [snd].
    by rewrite bool_decide_eq_true_2.
Qed.

Lemma demoted_twice rider a : demoted rider (demoted rider a) = demoted rider a.
Proof.
  unfold demoted. destruct a as [r ? ? ? ? ? ? p ? ?]. cbn.
  destruct (bool_decide (r = rider)) eqn:E; destruct p; cbn; by rewrite ?E.
Qed.

Lemma set_primary_store user pk a t :
  may_address t user a ->
  bank_accounts t !! pk = Some a ->
  RiderBankAccountViewSet_set_primary user pk t
  = (Done (Response_ok (message "Bank account set as primary")),
     with_bank_accounts
       (<[pk := RiderBankAccount.set_is_primary true a]>
          (demoted (RiderBankAccount.rider a) <$> bank_accounts t)) t).
Proof.
  intros Hm Hk. unfold RiderBankAccountViewSet_set_primary.
  rewrite (bindT_Done _ _ _ _ _ (bank_get_object_may _ _ _ _ Hm Hk)).
  cbn [fst snd]. unfold bindT, demote_primary_accounts, RiderBankAccount_save, modifyT, retT.
  cbn. fold (demoted (RiderBankAccount.rider a)).
  f_equal. unfold with_bank_accounts. cbn. do 2 f_equal.
  rewrite <- map_fmap_compose. apply map_fmap_ext. intros k b _. apply demoted_twice.
Qed.

(** X21. After [set_primary], called by an admin or by the rider the
    account belongs to, the addressed account is primary and is the only
    primary account of its rider. Nothing else changes: no account is added
    or removed, every account keeps all its other columns, and the accounts
    of other riders stay as they were. *)
Theorem set_primary_leaves_one_primary user pk a t :
  may_address t user a ->
  bank_accounts t !! pk = Some a ->
  exists t',
    RiderBankAccountViewSet_set_primary user pk t
    = (Done (Response_ok (message "Bank account set as primary")), t') /\
    one_primary (bank_accounts t') (RiderBankAccount.rider a) pk /\
    (forall k b', bank_accounts t' !! k = Some b' ->
       exists b, bank_accounts t !! k = Some b /\
                 b' = RiderBankAccount.set_is_primary (RiderBankAccount.is_primary b') b) /\
    (forall k b, bank_accounts t !! k = Some b ->
       is_Some (bank_accounts t' !! k) /\
       (RiderBankAccount.rider b ≠ RiderBankAccount.rider a ->
        bank_accounts t' !! k = Some b)) /\
    db t' = db t /\ rider_state t' = rider_state t /\
    delivery_log t' = delivery_log t /\ ratings t' = ratings t.
Proof.
  intros Hm Hk. eexists. split; [by apply set_primary_store |].
  cbn [bank_accounts with_bank_accounts db rider_state delivery_log ratings].
  split_and!; try done.
  - intros k b. destruct (decide (k = pk)) as [-> | Hne].
    + rewrite lookup_insert_eq. intros [= <-] _. by cbn.
    + rewrite lookup_insert_ne by done. rewrite lookup_fmap.
      destruct (bank_accounts t !! k) as [b0 |]; [| done].
      cbn. intros [= <-] Hr. split; [| done].
      revert Hr. unfold demoted. destruct b0 as [r ? ? ? ? ? ? p ? ?]. cbn.
      destruct (bool_decide (r = RiderBankAccount.rider a)) eqn:E; destruct p; cbn;
        try done.
      intros Hr. by rewrite bool_decide_eq_true_2 in E.
  - intros k b'. destruct (decide (k = pk)) as [-> | Hne].
    + rewrite lookup_insert_eq. intros [= <-]. exists a. by destruct a.
    + rewrite lookup_insert_ne by done. rewrite lookup_fmap.
      destruct (bank_accounts t !! k) as [b0 |]; [| done].
      cbn. intros [= <-]. exists b0. split; [done |].
      unfold demoted. destruct b0 as [r ? ? ? ? ? ? p ? ?]. cbn.
      by case_bool_decide; destruct p.
  - intros k b Hb. destruct (decide (k = pk)) as [-> | Hne].
    + rewrite lookup_insert_eq. split; [done |]. intros Hr. congruence.
    + rewrite lookup_insert_ne by done. rewrite lookup_fmap, Hb. cbn.
      split; [done |]. intros Hr. unfold demoted.
      by rewrite bool_decide_eq_false_2.
Qed.

(** X22. [RiderBankAccountViewSet] hides the accounts of others: a rider
    who addresses the account of another rider's profile, a rider without
    a rider profile, and a customer or vendor get [Http404] from
    [set_primary], and nothing is written. *)
Theorem set_primary_hides_foreign_accounts user pk a t :
  User.is_admin_user user = false ->
  bank_accounts t !! pk = Some a ->
  (User.is_rider user = false \/
   no_profile (db t) user \/
   (exists profile, only_profile (db t) user profile /\
                    RiderBankAccount.rider a ≠ profile)) ->
  RiderBankAccountViewSet_set_primary user pk t = (Raised Http404, t).
Proof.
  intros Ha Hk Hcases.
  unfold RiderBankAccountViewSet_set_primary. apply bindT_Raised.
  unfold RiderBankAccountViewSet_get_object.
  destruct (User.is_rider user) eqn:Hr.
  - destruct Hcases as [Hf | [Hnone | (profile & Hp & Hne)]]; [done | |].
    + rewrite (bindT_Done _ _ _ _ _ (bank_queryset_no_profile _ _ Hr Hnone)).
      unfold RiderBankAccount_get_or_404. by rewrite Hk.
    + rewrite (bindT_Done _ _ _ _ _ (bank_queryset_rider _ _ _ Hr Hp)).
      unfold RiderBankAccount_get_or_404. rewrite Hk. cbn [snd].
      by rewrite bool_decide_eq_false_2.
  - unfold RiderBankAccountViewSet_queryset. rewrite Ha, Hr.
    unfold bindT, retT, RiderBankAccount_get_or_404. by rewrite Hk.
Qed.

(** ** riders/views.py: DeliveryViewSet.accept, pickup and report_issue *)

Lemma DeliveryViewSet_get_instance_own user pk d t :
  delivers t user pk d ->
  DeliveryViewSet_get_instance user pk t
  = (Done {| delivery_pk := pk; delivery_row := d; delivery_more := delivery_log_of t pk |}, t).
Proof.
  intros (Hr & Hd & Hp). unfold DeliveryViewSet_get_instance.
  rewrite (bindT_Done _ _ _ (pk, d) t); [done |].
  apply in_store_same.
  unfold DeliveryViewSet_get_object, DeliveryViewSet_in_queryset.
  rewrite Hd, (rider_is_not_admin _ Hr), Hr. by rewrite bool_decide_eq_true_2.
Qed.

Lemma not_delivering_rider_own user pk d t :
  delivers t user pk d ->
  in_store (not_delivering_rider d user) t = (Done false, t).
Proof.
  intros (Hr & Hd & Hp). apply in_store_same.
  unfold not_delivering_rider. rewrite Hr. cbn [negb].
  unfold bind, RiderProfile_user. rewrite Hp. cbn.
  by rewrite bool_decide_eq_true_2.
Qed.

Lemma Delivery_save_instance_run pk d log t :
  Delivery_save_instance {| delivery_pk := pk; delivery_row := d; delivery_more := log |} t
  = (Done tt, with_delivery pk d log t).
Proof. reflexivity. Qed.

Lemma accept_store now user pk d o t :
  delivers t user pk d ->
  Delivery.status d = "assigned" ->
  orders (db t) !! Delivery.order d = Some o ->
  Order.order_number o ≠ "" ->
  DeliveryViewSet_accept now user pk t
  = (Done (Response_ok (message "Delivery accepted successfully")),
     tables_after_accept now pk d o t).
Proof.
  intros Hd Hs Ho Hn. unfold DeliveryViewSet_accept.
  rewrite (bindT_Done _ _ _ _ _ (DeliveryViewSet_get_instance_own _ _ _ _ Hd)).
  cbn [delivery_row delivery_pk delivery_more].
  rewrite (bindT_Done _ _ _ _ _ (not_delivering_rider_own _ _ _ _ Hd)).
  rewrite Hs. cbn [String.eqb Ascii.eqb Bool.eqb negb].
  rewrite (bindT_Done _ _ _ _ _ (Delivery_save_instance_run _ _ _ _)).
  unfold bindT, in_store, bind, Order_objects_get.
  cbn [db with_delivery with_delivery_log with_db orders with_deliveries Delivery.order
       Delivery.set_status].
  rewrite Ho. cbn [fst snd].
  rewrite (Order_save_numbered now (Delivery.order d)
             (Order.set_status OrderStatus.out_for_delivery o)) by done.
  reflexivity.
Qed.

Lemma accept_not_assigned now user pk d t :
  delivers t user pk d ->
  Delivery.status d ≠ "assigned" ->
  DeliveryViewSet_accept now user pk t = (Done cannot_be_accepted, t).
Proof.
  intros Hd Hs. unfold DeliveryViewSet_accept.
  rewrite (bindT_Done _ _ _ _ _ (DeliveryViewSet_get_instance_own _ _ _ _ Hd)).
  cbn [delivery_row delivery_pk delivery_more].
  rewrite (bindT_Done _ _ _ _ _ (not_delivering_rider_own _ _ _ _ Hd)).
  by rewrite (String_eqb_false _ _ Hs).
Qed.

Lemma pickup_store now user pk notes d t :
  delivers t user pk d ->
  DeliveryViewSet_pickup now user pk notes t
  = (Done (Response_ok (message "Order picked up successfully")),
     tables_after_pickup now pk notes d t).
Proof.
  intros Hd. unfold DeliveryViewSet_pickup.
  rewrite (bindT_Done _ _ _ _ _ (DeliveryViewSet_get_instance_own _ _ _ _ Hd)).
  cbn [delivery_row delivery_pk delivery_more].
  rewrite (bindT_Done _ _ _ _ _ (not_delivering_rider_own _ _ _ _ Hd)).
  reflexivity.
Qed.

Lemma report_issue_store now user pk reason d o t :
  delivers t user pk d ->
  orders (db t) !! Delivery.order d = Some o ->
  Order.order_number o ≠ "" ->
  DeliveryViewSet_report_issue now user pk reason t
  = (Done (Response_ok (message "Issue reported successfully")),
     tables_after_report pk reason d o t).
Proof.
  intros Hd Ho Hn. unfold DeliveryViewSet_report_issue.
  rewrite (bindT_Done _ _ _ _ _ (DeliveryViewSet_get_instance_own _ _ _ _ Hd)).
  cbn [delivery_row delivery_pk delivery_more].
  rewrite (bindT_Done _ _ _ _ _ (not_delivering_rider_own _ _ _ _ Hd)).
  cbn zeta.
  rewrite (bindT_Done _ _ _ _ _ (Delivery_save_instance_run _ _ _ _)).
  unfold bindT, in_store, bind, Order_objects_get.
  cbn [db with_delivery with_delivery_log with_db orders with_deliveries Delivery.order
       Delivery.set_status].
  rewrite Ho. cbn [fst snd]. fold (failed_order reason o).
  rewrite (Order_save_numbered now (Delivery.order d) (failed_order reason o)) by done.
  reflexivity.
Qed.

Lemma delivery_log_of_with_delivery pk d log t :
  delivery_log_of (with_delivery pk d log t) pk = log.
Proof. unfold delivery_log_of. cbn. by rewrite lookup_insert_eq. Qed.

Lemma delivery_log_of_with_db pk st t :
  delivery_log_of (with_db st t) pk = delivery_log_of t pk.
Proof. reflexivity. Qed.

Lemma delivers_saved user pk d d' log t :
  delivers t user pk d ->
  Delivery.rider d' = Delivery.rider d ->
  delivers (with_delivery pk d' log t) user pk d'.
Proof.
  intros (Hr & Hd & Hp) Hrd. split_and!; [done | |].
  - cbn. apply lookup_insert_eq.
  - cbn. by rewrite Hrd.
Qed.

Lemma delivers_with_order user pk d k o t :
  delivers t user pk d -> delivers (with_order k o t) user pk d.
Proof. by intros (Hr & Hd & Hp). Qed.

(** X23. A rider accepts a delivery assigned to them with
    [DeliveryViewSet.accept] once: the delivery becomes 'accepted' with the
    time of acceptance, its order moves to 'out_for_delivery' whatever its
    status was, and no tracking row is written. Accepting again, or
    accepting a delivery in any status other than 'assigned', is answered
    400 and changes nothing. *)
Theorem delivery_is_accepted_once now user pk d o t :
  delivers t user pk d ->
  orders (db t) !! Delivery.order d = Some o ->
  Order.order_number o ≠ "" ->
  (Delivery.status d ≠ "assigned" ->
   DeliveryViewSet_accept now user pk t = (Done cannot_be_accepted, t)) /\
  (Delivery.status d = "assigned" ->
   exists t',
     DeliveryViewSet_accept now user pk t
     = (Done (Response_ok (message "Delivery accepted successfully")), t') /\
     deliveries (db t') = <[pk := Delivery.set_status "accepted" d]> (deliveries (db t)) /\
     delivery_log_of t' pk = DeliveryLog.set_accepted_at (Some now) (delivery_log_of t pk) /\
     orders (db t')
     = <[Delivery.order d := Order.set_status OrderStatus.out_for_delivery o]> (orders (db t)) /\
     tracking (db t') = tracking (db t) /\
     forall now', DeliveryViewSet_accept now' user pk t' = (Done cannot_be_accepted, t')).
Proof.
  intros Hd Ho Hn. split.
  - intros Hs. by apply accept_not_assigned with (d := d).
  - intros Hs. eexists. split; [by apply accept_store |].
    split_and!; [done | | done | done |].
    + apply delivery_log_of_with_delivery.
    + intros now'. apply accept_not_assigned with (d := Delivery.set_status "accepted" d).
      * apply delivers_with_order. by apply delivers_saved with (d := d).
      * done.
Qed.

(** X24. [DeliveryViewSet.pickup] looks at no status: the rider of a
    delivery puts it 'in_transit' with the time and the notes of the pickup
    whatever its status was, so also when it was delivered or had failed.
    The order, the tracking rows and the earnings stay as they were. *)
Theorem pickup_looks_at_no_status now user pk notes d t :
  delivers t user pk d ->
  exists t',
    DeliveryViewSet_pickup now user pk notes t
    = (Done (Response_ok (message "Order picked up successfully")), t') /\
    deliveries (db t')
    = <[pk := Delivery.set_pickup_notes (from_option id "" notes)
                (Delivery.set_status "in_transit" d)]> (deliveries (db t)) /\
    delivery_log_of t' pk = DeliveryLog.set_picked_up_at (Some now) (delivery_log_of t pk) /\
    orders (db t') = orders (db t) /\
    tracking (db t') = tracking (db t) /\
    rider_earnings (db t') = rider_earnings (db t).
Proof.
  intros Hd. eexists. split; [by apply pickup_store |].
  split_and!; [done | | done | done | done].
  apply delivery_log_of_with_delivery.
Qed.

(** X25. [DeliveryViewSet.report_issue] looks at no status either: the
    delivery becomes 'failed' with the reason, and its order is cancelled
    with the reason 'Delivery failed: ...', whatever their status was, so
    also after the order was delivered. No tracking row is written, and
    earnings already recorded stay. *)
Theorem report_issue_cancels_in_any_status now user pk reason d o t :
  delivers t user pk d ->
  orders (db t) !! Delivery.order d = Some o ->
  Order.order_number o ≠ "" ->
  exists t',
    DeliveryViewSet_report_issue now user pk reason t
    = (Done (Response_ok (message "Issue reported successfully")), t') /\
    deliveries (db t') = <[pk := Delivery.set_status "failed" d]> (deliveries (db t)) /\
    DeliveryLog.failure_reason (delivery_log_of t' pk) = from_option id "" reason /\
    orders (db t') = <[Delivery.order d := failed_order reason o]> (orders (db t)) /\
    Order.status (failed_order reason o) = OrderStatus.cancelled /\
    Order.cancellation_reason (failed_order reason o)
    = "Delivery failed: " +:+ from_option id "" reason /\
    tracking (db t') = tracking (db t) /\
    rider_earnings (db t') = rider_earnings (db t).
Proof.
  intros Hd Ho Hn. eexists. split; [by apply report_issue_store |].
  split_and!; [done | | done | done | done | done | done].
  unfold tables_after_report, with_order.
  by rewrite delivery_log_of_with_db, delivery_log_of_with_delivery.
Qed.

(** ** From taking an order to its delivery *)

Lemma accept_delivery_store now user profile pk st o :
  User.is_rider user = true ->
  only_profile st user profile ->
  pk ≠ 0 ->
  orders st !! pk = Some o ->
  Order.rider o = None ->
  Order.order_number o ≠ "" ->
  no_delivery_of st pk ->
  AcceptDeliveryView_post now user (Some pk) st
  = (Done (Response_ok (accept_done "Delivery accepted successfully"
                          (next_delivery_pk st) (Order.order_number o))),
     with_deliveries
       (<[next_delivery_pk st := new_delivery pk profile "assigned"]> (deliveries st))
       (with_orders (<[pk := Order_set_rider (Some (User.pk user)) o]> (orders st)) st)).
Proof.
  intros Hr Hp Hpk Ho Hnone Hn Hnd.
  rewrite (accept_delivery_reaches_order _ _ _ _ _ Hr Hp Hpk).
  rewrite (bind_Done _ _ _ (Some (pk, o)) st).
  2:{ apply try_except_Done. erewrite bind_Done; [reflexivity |].
      unfold Order_objects_get_unassigned. by rewrite Ho, Hnone. }
  cbn [fst snd].
  erewrite bind_Done by (by apply Order_save_numbered).
  cbn [fst snd]. unfold bind, Delivery_objects_create.
  cbn [deliveries with_orders]. rewrite bool_decide_eq_true_2 by exact Hnd.
  reflexivity.
Qed.

(** X26. The rider's way from taking an order to its delivery:
    [AcceptDeliveryView], then [accept], [pickup] and [deliver] of
    [DeliveryViewSet] on the delivery created. Each step is answered 200.
    At the end the order is 'delivered' with the caller as its rider, the
    delivery holds the times of acceptance, pickup and delivery and the
    base fee of 100.00 as its earnings, one earnings record of 100.00 is
    written, and not one tracking row: the order's history does not show
    the delivery. *)
Theorem from_taking_to_delivered now1 now2 now3 now4 user profile pk notes notes' o t :
  User.is_rider user = true ->
  only_profile (db t) user profile ->
  pk ≠ 0 ->
  orders (db t) !! pk = Some o ->
  Order.rider o = None ->
  Order.order_number o ≠ "" ->
  no_delivery_of (db t) pk ->
  logs_of_stored t ->
  let k := next_delivery_pk (db t) in
  exists t1 t2 t3 t4,
    in_store (AcceptDeliveryView_post now1 user (Some pk)) t
    = (Done (Response_ok (accept_done "Delivery accepted successfully" k
                            (Order.order_number o))), t1) /\
    DeliveryViewSet_accept now2 user k t1
    = (Done (Response_ok (message "Delivery accepted successfully")), t2) /\
    DeliveryViewSet_pickup now3 user k notes t2
    = (Done (Response_ok (message "Order picked up successfully")), t3) /\
    in_store (DeliveryViewSet_deliver now4 user k notes') t3
    = (Done (Response_ok (message "Order delivered successfully")), t4) /\
    orders (db t4) !! pk
    = Some (delivered_order now4
              (Order.set_status OrderStatus.out_for_delivery
                 (Order_set_rider (Some (User.pk user)) o))) /\
    deliveries (db t4) !! k
    = Some {| Delivery.order := pk;
              Delivery.rider := profile;
              Delivery.status := "delivered";
              Delivery.delivered_at := Some now4;
              Delivery.actual_distance := None;
              Delivery.base_fee := dec_of_int 100;
              Delivery.distance_fee := 0;
              Delivery.total_earnings := dec_of_int 100;
              Delivery.pickup_notes := from_option id "" notes;
              Delivery.delivery_notes := from_option id "" notes' |} /\
    delivery_log_of t4 k
    = {| DeliveryLog.accepted_at := Some now2;
         DeliveryLog.picked_up_at := Some now3;
         DeliveryLog.failure_reason := "" |} /\
    rider_earnings (db t4)
    = {| RiderEarnings.rider := profile;
         RiderEarnings.delivery := Some k;
         RiderEarnings.earning_type := "delivery";
         RiderEarnings.amount := dec_of_int 100;
         RiderEarnings.description := "Delivery for order " +:+ Order.order_number o;
         RiderEarnings.earning_date := date_of now4 |} :: rider_earnings (db t) /\
    tracking (db t4) = tracking (db t).
Proof.
  intros Hr Hp Hpk Ho Hnone Hn Hnd Hlogs k.
  pose proof (next_delivery_pk_fresh (db t)) as Hfresh. fold k in Hfresh.
  pose proof (Hlogs k Hfresh) as Hlog.
  destruct Hp as [Hprofile Honly].
  set (o1 := Order_set_rider (Some (User.pk user)) o).
  set (d1 := new_delivery pk profile "assigned").
  set (t1 := with_db (with_deliveries (<[k := d1]> (deliveries (db t)))
                        (with_orders (<[pk := o1]> (orders (db t))) (db t))) t).
  set (t2 := tables_after_accept now2 k d1 o1 t1).
  set (d2 := Delivery.set_status "accepted" d1).
  set (t3 := tables_after_pickup now3 k notes d2 t2).
  set (d3 := Delivery.set_pickup_notes (from_option id "" notes)
               (Delivery.set_status "in_transit" d2)).
  set (o2 := Order.set_status OrderStatus.out_for_delivery o1).
  exists t1, t2, t3, (with_db (store_after_deliver now4 k notes' d3 o2 (db t3)) t3).
  assert (H1 : delivers t1 user k d1).
  { split_and!; [done | cbn; apply lookup_insert_eq | done]. }
  assert (H2 : delivers t2 user k d2).
  { apply delivers_with_order. by apply delivers_saved with (d := d1). }
  split_and!.
  - apply in_store_run. by apply accept_delivery_store.
  - apply accept_store; [done | done | cbn; apply lookup_insert_eq | done].
  - by apply pickup_store.
  - apply in_store_run. apply deliver_store; [done | | done | | done].
    + cbn. apply lookup_insert_eq.
    + cbn. apply lookup_insert_eq.
  - cbn. apply lookup_insert_eq.
  - cbn. apply lookup_insert_eq.
  - rewrite delivery_log_of_with_db. unfold t3, tables_after_pickup.
    rewrite delivery_log_of_with_delivery. unfold t2, tables_after_accept, with_order.
    rewrite delivery_log_of_with_db, delivery_log_of_with_delivery.
    unfold t1. rewrite delivery_log_of_with_db. unfold delivery_log_of. by rewrite Hlog.
  - done.
  - done.
Qed.

(** ** orders/views.py: RateOrderView *)

Lemma next_rating_pk_fresh t : ratings t !! next_rating_pk t = None.
Proof.
  apply not_elem_of_dom. unfold next_rating_pk.
  pose proof (is_fresh ({[0]} ∪ dom (ratings t))) as H.
  intros Hin. apply H. apply elem_of_union. by right.
Qed.

Lemma rate_order_reaches_order user request_data pk t :
  User.is_customer user = true ->
  OrderRatingSerializer_errors request_data = [] ->
  rating_order request_data = Some pk ->
  RateOrderView_post user request_data t
  = bindT
      (try_exceptT
         (order <~ in_store (Order_objects_get_of_customer pk user);; retT (Some order))
         (is_DoesNotExist "Order")
         (fun _ => retT None))
      (fun found =>
         match found with
         | None => retT (Response_status (rate_error "Order not found") 404)
         | Some order =>
             if negb (bool_decide (Order.status order.2 = OrderStatus.delivered)) then
               retT (Response_status (rate_error "Can only rate delivered orders") 400)
             else
               (if rating_given (rating_vendor_rating request_data) then
                  vendor <~ in_store (VendorProfile_objects_get (Order.vendor order.2));;
                  Rating_objects_update_or_create
                    (vendor_rating_lookup (User.pk user) (VendorProfile.user vendor.2) order.1)
                    (new_vendor_rating (User.pk user) (VendorProfile.user vendor.2) order.1
                       (from_option id 0 (rating_vendor_rating request_data))
                       (from_option id "" (rating_vendor_review request_data)))
                else retT tt);;~
               match Order.rider order.2 with
               | Some rider =>
                   if rating_given (rating_rider_rating request_data) then
                     Rating_objects_update_or_create
                       (rider_rating_lookup (User.pk user) rider order.1)
                       (new_rider_rating (User.pk user) rider order.1
                          (from_option id 0 (rating_rider_rating request_data))
                          (from_option id "" (rating_rider_review request_data)))
                   else retT tt
               | None => retT tt
               end;;~
               retT order_rated
         end) t.
Proof.
  intros Hc He Hpk. unfold RateOrderView_post. by rewrite Hc, He, Hpk.
Qed.

Lemma rate_order_finds user pk o t :
  orders (db t) !! pk = Some o ->
  Order.customer o = User.pk user ->
  try_exceptT
    (order <~ in_store (Order_objects_get_of_customer pk user);; retT (Some order))
    (is_DoesNotExist "Order")
    (fun _ => retT None) t
  = (Done (Some (pk, o)), t).
Proof.
  intros Ho Hcust. unfold try_exceptT.
  rewrite (bindT_Done _ _ _ (pk, o) t); [done |].
  apply in_store_same. unfold Order_objects_get_of_customer.
  by rewrite Ho, bool_decide_eq_true_2.
Qed.

Lemma update_or_create_creates lookup created t :
  (forall k r, ratings t !! k = Some r -> lookup r = false) ->
  Rating_objects_update_or_create lookup created t
  = (Done tt, with_ratings (<[next_rating_pk t := created]> (ratings t)) t).
Proof.
  intros Hnone. unfold Rating_objects_update_or_create.
  rewrite map_empty_filter_2; [by rewrite map_to_list_empty |].
  intros k r Hk Hl. cbn in Hl. by rewrite (Hnone k r Hk) in Hl.
Qed.

Lemma update_or_create_updates lookup created k row t :
  ratings t !! k = Some row ->
  lookup row = true ->
  (forall k' r, ratings t !! k' = Some r -> lookup r = true -> k' = k) ->
  Rating_objects_update_or_create lookup created t
  = (Done tt,
     with_ratings
       (<[k := Rating.set_defaults (Rating.rating_type created) (Rating.rating created)
                 (Rating.review created) row]> (ratings t)) t).
Proof.
  intros Hk Hl Honly. unfold Rating_objects_update_or_create.
  assert (Hf : filter (fun kr : Z * Rating.t => lookup kr.2 = true) (ratings t)
               = {[k := row]}).
  { apply map_eq. intros k'. destruct (decide (k' = k)) as [-> | Hne].
    - rewrite lookup_singleton_eq. by apply map_lookup_filter_Some.
    - rewrite lookup_singleton_ne by done.
      apply map_lookup_filter_None. right. intros r Hk' Hl'. apply Hne. by eapply Honly. }
  by rewrite Hf, map_to_list_singleton.
Qed.

Lemma rating_field_valid_range n :
  rating_field_valid (Some n) = true <-> 1 <= n <= 5.
Proof. unfold rating_field_valid. rewrite andb_true_iff, !Z.leb_le. done. Qed.

Lemma rating_given_valid n : 1 <= n <= 5 -> rating_given (Some n) = true.
Proof. intros Hn. unfold rating_given. apply negb_true_iff, Z.eqb_neq. lia. Qed.

(** X27. Every refusal of [RateOrderView] leaves the tables as they were:
    a caller who is not a customer (403), a vendor or rider rating that is
    not one of 1 to 5 (400, with the fields refused), an order that does
    not exist or belongs to another customer (404), and an order that is
    not 'delivered' (400). *)
Theorem rate_order_refusals user request_data t :
  (User.is_customer user = false ->
   RateOrderView_post user request_data t
   = (Done (Response_status (rate_error "Only customers can rate orders") 403), t)) /\
  (forall n,
     User.is_customer user = true ->
     rating_vendor_rating request_data = Some n \/
     rating_rider_rating request_data = Some n ->
     ~ 1 <= n <= 5 ->
     exists fields,
       fields ≠ [] /\
       RateOrderView_post user request_data t
       = (Done (Response_status (rate_errors fields) 400), t)) /\
  (forall pk,
     User.is_customer user = true ->
     OrderRatingSerializer_errors request_data = [] ->
     rating_order request_data = Some pk ->
     ((forall o, orders (db t) !! pk = Some o -> Order.customer o ≠ User.pk user) ->
      RateOrderView_post user request_data t
      = (Done (Response_status (rate_error "Order not found") 404), t)) /\
     (forall o,
        orders (db t) !! pk = Some o ->
        Order.customer o = User.pk user ->
        Order.status o ≠ OrderStatus.delivered ->
        RateOrderView_post user request_data t
        = (Done (Response_status (rate_error "Can only rate delivered orders") 400), t))).
Proof.
  split_and!.
  - intros Hc. unfold RateOrderView_post. by rewrite Hc.
  - intros n Hc Hgiven Hrange.
    assert (Hbad : rating_field_valid (Some n) = false).
    { apply not_true_is_false. by rewrite rating_field_valid_range. }
    assert (He : OrderRatingSerializer_errors request_data ≠ []).
    { unfold OrderRatingSerializer_errors.
      destruct Hgiven as [-> | ->]; rewrite Hbad; intros H.
      - apply app_eq_nil in H as [_ H]. by apply app_eq_nil in H as [H _].
      - apply app_eq_nil in H as [_ H]. by apply app_eq_nil in H as [_ H]. }
    exists (OrderRatingSerializer_errors request_data). split; [done |].
    unfold RateOrderView_post. rewrite Hc. cbn [negb].
    destruct (OrderRatingSerializer_errors request_data) as [| field fields];
      [by destruct He | done].
  - intros pk Hc He Hpk.
    rewrite (rate_order_reaches_order _ _ _ _ Hc He Hpk). split.
    + intros Hnone.
      destruct (Order_objects_get_of_customer_cases pk user (db t))
        as [(o & Ho & Hcust & _) | (_ & Hg)]; [by destruct (Hnone o Ho) |].
      rewrite (bindT_Done _ _ _ None t); [reflexivity |].
      unfold try_exceptT.
      rewrite (bindT_Raised _ _ _ (DoesNotExist "Order") t); [reflexivity |].
      by apply in_store_same.
    + intros o Ho Hcust Hs.
      rewrite (bindT_Done _ _ _ _ _ (rate_order_finds _ _ _ _ Ho Hcust)).
      cbn [snd]. by rewrite bool_decide_eq_false_2.
Qed.

(** X28. A customer's rating of the vendor of a delivered order is kept
    once per order: the first request stores one rating under a key that
    held none, and a second request for the same order replaces the stars
    and the review of that rating and adds none. Nothing but the table of
    ratings changes. *)
Theorem rating_again_replaces user pk o v r1 r2 review1 review2 t :
  User.is_customer user = true ->
  orders (db t) !! pk = Some o ->
  Order.customer o = User.pk user ->
  Order.status o = OrderStatus.delivered ->
  vendor_profiles (db t) !! Order.vendor o = Some v ->
  not_rated_yet t (User.pk user) (VendorProfile.user v) pk ->
  1 <= r1 <= 5 ->
  1 <= r2 <= 5 ->
  let k := next_rating_pk t in
  exists t1 t2,
    RateOrderView_post user (vendor_rating_request pk r1 review1) t
    = (Done order_rated, t1) /\
    ratings t !! k = None /\
    ratings t1
    = <[k := new_vendor_rating (User.pk user) (VendorProfile.user v) pk r1
               (from_option id "" review1)]> (ratings t) /\
    RateOrderView_post user (vendor_rating_request pk r2 review2) t1
    = (Done order_rated, t2) /\
    ratings t2
    = <[k := new_vendor_rating (User.pk user) (VendorProfile.user v) pk r2
               (from_option id "" review2)]> (ratings t) /\
    db t2 = db t /\ rider_state t2 = rider_state t /\
    delivery_log t2 = delivery_log t /\ bank_accounts t2 = bank_accounts t.
Proof.
  intros Hc Ho Hcust Hs Hv Hnone Hr1 Hr2 k.
  assert (Herr : forall r review,
            1 <= r <= 5 ->
            OrderRatingSerializer_errors (vendor_rating_request pk r review) = []).
  { intros r review Hr. unfold OrderRatingSerializer_errors, vendor_rating_request.
    cbn [rating_order rating_vendor_rating rating_rider_rating].
    by rewrite (proj2 (rating_field_valid_range r) Hr). }
  assert (Hrun : forall r review t0,
            1 <= r <= 5 ->
            db t0 = db t ->
            RateOrderView_post user (vendor_rating_request pk r review) t0
            = bindT
                (Rating_objects_update_or_create
                   (vendor_rating_lookup (User.pk user) (VendorProfile.user v) pk)
                   (new_vendor_rating (User.pk user) (VendorProfile.user v) pk r
                      (from_option id "" review)))
                (fun _ => retT order_rated) t0).
  { intros r review t0 Hr Hdb.
    rewrite (rate_order_reaches_order _ _ pk _ Hc (Herr r review Hr) eq_refl).
    rewrite <- Hdb in Ho, Hv.
    rewrite (bindT_Done _ _ _ _ _ (rate_order_finds _ _ _ _ Ho Hcust)).
    cbn [fst snd]. rewrite bool_decide_eq_true_2 by done. cbn [negb].
    cbn [rating_vendor_rating rating_vendor_review rating_rider_rating
         rating_rider_review vendor_rating_request].
    rewrite (rating_given_valid r Hr). cbn [from_option id rating_given].
    unfold bindT at 1.
    rewrite (bindT_Done _ _ t0 (Order.vendor o, v) t0)
      by (apply in_store_same; unfold VendorProfile_objects_get; by rewrite Hv).
    cbn [fst snd]. unfold bindT.
    destruct (Rating_objects_update_or_create _ _ t0) as [[[] | e |] t'];
      by destruct (Order.rider o). }
  set (row1 := new_vendor_rating (User.pk user) (VendorProfile.user v) pk r1
                 (from_option id "" review1)).
  exists (with_ratings (<[k := row1]> (ratings t)) t),
         (with_ratings
            (<[k := new_vendor_rating (User.pk user) (VendorProfile.user v) pk r2
                      (from_option id "" review2)]> (ratings t)) t).
  pose proof (next_rating_pk_fresh t) as Hfresh. fold k in Hfresh.
  split_and!; try done.
  - rewrite (Hrun r1 review1 t Hr1 eq_refl).
    by rewrite (bindT_Done _ _ _ _ _ (update_or_create_creates _ _ _ Hnone)).
  - rewrite (Hrun r2 review2 (with_ratings (<[k := row1]> (ratings t)) t) Hr2 eq_refl).
    rewrite (bindT_Done _ _ _ tt
               (with_ratings
                  (<[k := new_vendor_rating (User.pk user) (VendorProfile.user v) pk r2
                            (from_option id "" review2)]> (<[k := row1]> (ratings t)))
                  (with_ratings (<[k := row1]> (ratings t)) t))).
    + unfold retT. f_equal. unfold with_ratings. cbn. f_equal.
      apply insert_insert_eq.
    + apply update_or_create_updates with (row := row1).
      * cbn. apply lookup_insert_eq.
      * unfold vendor_rating_lookup, row1. cbn. by rewrite !bool_decide_eq_true_2.
      * intros k' r. cbn. destruct (decide (k' = k)) as [-> | Hne]; [done |].
        rewrite lookup_insert_ne by done. intros Hk' Hl.
        by rewrite (Hnone k' r Hk') in Hl.
Qed.

(** X29. A rating of the rider is dropped when the order has no rider:
    for a delivered order without a rider, a request that rates the rider
    is answered 200 'Order rated successfully' and stores nothing. *)
Theorem rider_rating_without_rider_is_dropped user pk o rating review t :
  User.is_customer user = true ->
  orders (db t) !! pk = Some o ->
  Order.customer o = User.pk user ->
  Order.status o = OrderStatus.delivered ->
  Order.rider o = None ->
  1 <= rating <= 5 ->
  RateOrderView_post user (rider_rating_request pk rating review) t
  = (Done order_rated, t).
Proof.
  intros Hc Ho Hcust Hs Hnone Hr.
  rewrite (rate_order_reaches_order _ _ pk _ Hc); [| | done].
  2:{ unfold OrderRatingSerializer_errors, rider_rating_request.
      cbn [rating_order rating_vendor_rating rating_rider_rating].
      by rewrite (proj2 (rating_field_valid_range rating) Hr). }
  rewrite (bindT_Done _ _ _ _ _ (rate_order_finds _ _ _ _ Ho Hcust)).
  cbn [fst snd]. rewrite bool_decide_eq_true_2 by done. cbn [negb].
  rewrite Hnone. reflexivity.
Qed.

(** ** What the rider views and the rating view preserve *)

#[local] Instance tables_grow_preorder : PreOrder tables_grow.
Proof.
  split.
  - intros t. by split_and!.
  - intros t1 t2 t3 (H1 & H2 & H3 & H4 & H5) (K1 & K2 & K3 & K4 & K5).
    unfold tables_grow. split_and!; by etrans.
Qed.

Lemma keeps_read {A} (m : TM A) : (forall t, (m t).2 = t) -> preservedT tables_grow m.
Proof. intros H t. by rewrite H. Qed.

Lemma keeps_retT {A} (a : A) : preservedT tables_grow (retT a).
Proof. by apply keeps_read. Qed.

Lemma keeps_getsT {A} (f : Tables -> A) : preservedT tables_grow (getsT f).
Proof. by apply keeps_read. Qed.




Lemma keeps_RiderProfileViewSet_get_object user pk :
  preservedT tables_grow (RiderProfileViewSet_get_object user pk).
Proof.
  apply keeps_read. intros t. unfold RiderProfileViewSet_get_object.
  destruct (rider_profiles (db t) !! pk); [| done].
  by destruct (RiderProfileViewSet_in_queryset _ _).
Qed.

Lemma keeps_RiderProfile_save rider : preservedT tables_grow (RiderProfile_save rider).
Proof. intros t. cbn. split_and!; try done. apply dom_insert_subseteq. Qed.

Lemma keeps_demote_primary_accounts rider :
  preservedT tables_grow (demote_primary_accounts rider).
Proof.
  intros t. unfold demote_primary_accounts, modifyT. cbn [snd].
  split_and!; try done. cbn [bank_accounts with_bank_accounts]. by rewrite dom_fmap_L.
Qed.

Lemma keeps_save_account pk a :
  preservedT tables_grow
    (modifyT (fun t => with_bank_accounts (<[pk := a]> (bank_accounts t)) t)).
Proof. intros t. cbn. split_and!; try done. apply dom_insert_subseteq. Qed.

Lemma keeps_RiderBankAccount_get_or_404 queryset pk :
  preservedT tables_grow (RiderBankAccount_get_or_404 queryset pk).
Proof.
  apply keeps_read. intros t. unfold RiderBankAccount_get_or_404.
  destruct (bank_accounts t !! pk); [| done]. by destruct (queryset _).
Qed.

Lemma keeps_save_log pk log :
  preservedT tables_grow
    (modifyT (fun t => with_delivery_log (<[pk := log]> (delivery_log t)) t)).
Proof. intros t. cbn. split_and!; try done. apply dom_insert_subseteq. Qed.

Lemma keeps_Rating_objects_update_or_create lookup created :
  preservedT tables_grow (Rating_objects_update_or_create lookup created).
Proof.
  intros t. unfold Rating_objects_update_or_create.
  destruct (map_to_list _) as [| [k row] [| ? ?]]; cbn; [| | done].
  all: split_and!; try done; apply dom_insert_subseteq.
Qed.

#[local] Hint Resolve keeps_retT keeps_getsT keeps_RiderProfileViewSet_get_object
  keeps_RiderProfile_save keeps_demote_primary_accounts keeps_save_account
  keeps_RiderBankAccount_get_or_404 keeps_save_log
  keeps_Rating_objects_update_or_create
  : preserved.




End Views.

(** * A worked scenario

    A customer (user 7) orders from vendor 3 (user 9), whose delivery fee is
    300.00 and who sells product 5 at 2500.00; rider profile 4 (user 11)
    carries the delivery. Order numbers come from a fixed generator. *)

Definition sample_number : Z -> Store -> result string :=
  fun _ _ => Ok "KAA202401150002".

Definition sample_customer : User.t := {| User.pk := 7; User.role := Role.customer |}.
Definition sample_vendor_user : User.t := {| User.pk := 9; User.role := Role.vendor |}.
Definition sample_rider : User.t := {| User.pk := 11; User.role := Role.rider |}.

Definition sample_vendor : VendorProfile.t :=
  {| VendorProfile.user := 9;
     VendorProfile.business_name := "Gas Point";
     VendorProfile.latitude := 0;
     VendorProfile.longitude := 0;
     VendorProfile.delivery_radius := 5;
     VendorProfile.minimum_order_amount := 0;
     VendorProfile.delivery_fee := 30000 |}.

Definition sample_product : GasProduct.t :=
  {| GasProduct.name := "ProGas";
     GasProduct.cylinder_size := "13kg";
     GasProduct.brand := "ProGas";
     GasProduct.base_price := 280000;
     GasProduct.refill_price := 120000 |}.

Definition sample_inventory : VendorInventory.t :=
  {| VendorInventory.current_stock := 10;
     VendorInventory.reserved_stock := 0;
     VendorInventory.selling_price := 250000;
     VendorInventory.refill_price := None |}.

Definition sample_details : Order.details :=
  {| Order.order_type := "delivery";
     Order.delivery_address := "Ngong Road";
     Order.delivery_instructions := "";
     Order.delivery_latitude := None;
     Order.delivery_longitude := None;
     Order.requested_delivery_time := None;
     Order.special_instructions := "";
     Order.is_emergency := false |}.

(** Order 1 with the given status and payment status. *)
Definition sample_order (s : OrderStatus.t) (ps : OrderPayment.t) : Order.t :=
  {| Order.order_number := "KAA202401150001";
     Order.customer := 7;
     Order.vendor := 3;
     Order.rider := Some 11;
     Order.status := s;
     Order.info := sample_details;
     Order.estimated_delivery_time := None;
     Order.actual_delivery_time := None;
     Order.subtotal := 500000;
     Order.delivery_fee := 30000;
     Order.discount_amount := 0;
     Order.tax_amount := 0;
     Order.total_amount := 530000;
     Order.payment_status := ps;
     Order.cancellation_reason := "" |}.

(** Payment 1 of order 1, sent to the gateway. *)
Definition sample_payment : Payment.t :=
  {| Payment.order := 1;
     Payment.amount := 530000;
     Payment.payment_method := "mpesa";
     Payment.status := PaymentStatus.processing;
     Payment.external_reference := "ws_CO_1";
     Payment.transaction_id := "";
     Payment.phone_number := "+254700000001";
     Payment.completed_at := None;
     Payment.gateway_response := None;
     Payment.failure_reason := "" |}.

(** Delivery 1 of order 1, 3.50 km long. *)
Definition sample_delivery : Delivery.t :=
  {| Delivery.order := 1;
     Delivery.rider := 4;
     Delivery.status := "in_transit";
     Delivery.delivered_at := None;
     Delivery.actual_distance := Some 350;
     Delivery.base_fee := 0;
     Delivery.distance_fee := 0;
     Delivery.total_earnings := 0;
     Delivery.pickup_notes := "";
     Delivery.delivery_notes := "" |}.

(** The vendor, its inventory and the rider, and no order yet. *)
Definition sample_empty : Store :=
  {| vendor_profiles := {[3 := sample_vendor]};
     inventory := {[(3, 5) := sample_inventory]};
     orders := ∅;
     order_items := [];
     tracking := [];
     payments := ∅;
     rider_profiles := {[4 := 11]};
     deliveries := ∅;
     rider_earnings := [] |}.

(** The same with order 1 in the given state, its payment and delivery. *)
Definition sample_store (s : OrderStatus.t) (ps : OrderPayment.t) : Store :=
  {| vendor_profiles := {[3 := sample_vendor]};
     inventory := {[(3, 5) := sample_inventory]};
     orders := {[1 := sample_order s ps]};
     order_items := [];
     tracking := [];
     payments := {[1 := sample_payment]};
     rider_profiles := {[4 := 11]};
     deliveries := {[1 := sample_delivery]};
     rider_earnings := [] |}.

Definition sample_callback (id code : json) : json :=
  JDict [("Body",
          JDict [("stkCallback",
                  JDict [("CheckoutRequestID", id);
                         ("ResultCode", code);
                         ("ResultDesc", JStr "The service request is processed.")])])].

(** Two 13 kg cylinders from vendor 3. *)
Definition sample_create (items : list ItemData) : OrderCreateData :=
  {| create_vendor := (3, sample_vendor);
     create_info := sample_details;
     create_items := items |}.

Definition sample_item (quantity : Z) : ItemData :=
  {| item_gas_product := (5, sample_product);
     item_quantity := quantity;
     item_is_refill := None;
     item_customer_cylinder_serial := None |}.

Lemma sample_store_numbered s ps : orders_numbered (sample_store s ps).
Proof.
  unfold orders_numbered. cbn [orders sample_store].
  apply map_Forall_singleton. done.
Qed.

Definition sample_success : json := sample_callback (JStr "ws_CO_1") (JNum 0).
Definition sample_failure : json := sample_callback (JStr "ws_CO_1") (JNum 1032).

Definition sample_pending : Store :=
  sample_store OrderStatus.confirmed OrderPayment.pending.

Definition callback_processed : Response Body :=
  Response_ok (message "Callback processed successfully").

Lemma sample_only_match s ps : only_match (sample_store s ps) "ws_CO_1" 1 sample_payment.
Proof.
  split_and!; [done | done |].
  intros pk' p' Hp' _. cbn [payments sample_store] in Hp'.
  by apply lookup_singleton_Some in Hp' as [<- _].
Qed.

(** ** C1 *)

(** C1, as stated, fails: the same success callback delivered twice leaves
    one tracking row more than delivered once. *)
Lemma mpesa_replay_adds_tracking_row :
  let once := snd (MpesaCallbackView_post sample_number 100 sample_success sample_pending) in
  let twice := snd (MpesaCallbackView_post sample_number 100 sample_success once) in
  fst (MpesaCallbackView_post sample_number 100 sample_success once) = Done callback_processed /\
  length (tracking once) = 1%nat /\
  length (tracking twice) = 2%nat /\
  twice <> once.
Proof.
  cbv zeta. split_and!; [by vm_compute .. |].
  intros H. apply (f_equal (fun st => length (tracking st))) in H.
  vm_compute in H. discriminate H.
Qed.

Lemma mpesa_callback_replay_witness :
  (exists code st2,
     stkCallback_get sample_success "ResultCode" = Ok code /\
     MpesaCallbackView_post sample_number 200 sample_success
       (snd (MpesaCallbackView_post sample_number 100 sample_success sample_pending))
     = (Done callback_processed, st2) /\
     orders st2
     = orders (snd (MpesaCallbackView_post sample_number 100 sample_success sample_pending)) /\
     if py_eq_zero code
     then exists pk p row,
            payments (snd (MpesaCallbackView_post sample_number 100 sample_success
                             sample_pending)) !! pk = Some p /\
            Payment.status p = PaymentStatus.completed /\
            payments st2
            = <[pk := Payment.set_completed_at (Some 200) p]>
                (payments (snd (MpesaCallbackView_post sample_number 100 sample_success
                                  sample_pending))) /\
            tracking st2
            = row :: tracking (snd (MpesaCallbackView_post sample_number 100 sample_success
                                      sample_pending))
     else st2 = snd (MpesaCallbackView_post sample_number 100 sample_success sample_pending)) /\
  (exists code st2,
     stkCallback_get sample_failure "ResultCode" = Ok code /\
     py_eq_zero code = false /\
     MpesaCallbackView_post sample_number 200 sample_failure
       (snd (MpesaCallbackView_post sample_number 100 sample_failure sample_pending))
     = (Done callback_processed, st2) /\
     st2 = snd (MpesaCallbackView_post sample_number 100 sample_failure sample_pending)).
Proof.
  split.
  - apply (mpesa_callback_replay sample_number 100 200 sample_success sample_pending).
    + apply sample_store_numbered.
    + by vm_compute.
    + reflexivity.
  - destruct (mpesa_callback_replay sample_number 100 200 sample_failure sample_pending
                callback_processed
                (snd (MpesaCallbackView_post sample_number 100 sample_failure sample_pending)))
      as (code & st2 & Hcode & Hrun & _ & Hsame).
    + apply sample_store_numbered.
    + by vm_compute.
    + reflexivity.
    + injection Hcode as <-. exists (JNum 1032), st2. by split_and!.
Defined.

(** ** C2 *)

(** C2, as stated, fails: with an empty CheckoutRequestID and no payment in
    the store, no payment carries that reference, and the answer is 400,
    not 404. *)
Lemma mpesa_empty_reference_is_400 :
  payments sample_empty = ∅ /\
  stkCallback_get (sample_callback (JStr "") (JNum 0)) "CheckoutRequestID" = Ok (JStr "") /\
  MpesaCallbackView_post sample_number 100 (sample_callback (JStr "") (JNum 0)) sample_empty
  = (Done (Response_status (error "Invalid callback data") 400), sample_empty).
Proof. by split_and!. Qed.

(** A failure callback without a ResultDesc: the order is marked 'failed',
    then writing the payment fails and the answer is 500. *)
Lemma mpesa_failure_without_description :
  let cb := JDict [("Body", JDict [("stkCallback",
               JDict [("CheckoutRequestID", JStr "ws_CO_1"); ("ResultCode", JNum 1)])])] in
  let r := MpesaCallbackView_post sample_number 100 cb sample_pending in
  fst r = Done (Response_status (error "Callback processing failed") 500) /\
  Order.payment_status <$> orders (snd r) !! 1 = Some OrderPayment.failed /\
  payments (snd r) = payments sample_pending.
Proof. by vm_compute. Qed.

Definition sample_duplicate : Store :=
  with_payments (<[2 := sample_payment]> (payments sample_pending)) sample_pending.

(** A body whose [Body] is null cannot be read. *)
Definition sample_unreadable : json := JDict [("Body", JNull)].

Lemma mpesa_callback_outcomes_witness :
  MpesaCallbackView_post sample_number 100 sample_unreadable sample_pending
  = (Done (Response_status (error "Callback processing failed") 500), sample_pending) /\
  MpesaCallbackView_post sample_number 100 (sample_callback JNull (JNum 0)) sample_pending
  = (Done (Response_status (error "Invalid callback data") 400), sample_pending) /\
  MpesaCallbackView_post sample_number 100 sample_success sample_empty
  = (Done (Response_status (error "Payment not found") 404), sample_empty) /\
  (exists st',
     MpesaCallbackView_post sample_number 100 sample_success sample_pending
     = (Done callback_processed, st') /\
     (exists p', payments st' !! 1 = Some p' /\
        Payment.status p' = PaymentStatus.completed /\
        Payment.completed_at p' = Some 100 /\
        Payment.gateway_response p' = Some sample_success) /\
     (exists o', orders st' !! 1 = Some o' /\
        Order.payment_status o' = OrderPayment.paid /\
        Order.status o' = OrderStatus.confirmed) /\
     (exists row, tracking st' = row :: [] /\
        OrderTracking.order row = 1 /\
        OrderTracking.status row = OrderStatus.confirmed)) /\
  (exists st',
     MpesaCallbackView_post sample_number 100 sample_failure sample_pending
     = (Done callback_processed, st') /\
     (exists p', payments st' !! 1 = Some p' /\
        Payment.status p' = PaymentStatus.failed /\
        Payment.failure_reason p' = "The service request is processed." /\
        Payment.gateway_response p' = Some sample_failure) /\
     (exists o', orders st' !! 1 = Some o' /\
        Order.payment_status o' = OrderPayment.failed) /\
     tracking st' = []) /\
  MpesaCallbackView_post sample_number 100 sample_success sample_duplicate
  = (Done (Response_status (error "Callback processing failed") 500), sample_duplicate).
Proof.
  split_and!.
  - apply (mpesa_callback_outcomes sample_number 100 sample_unreadable sample_pending).
    by exists AttributeError.
  - by apply (mpesa_callback_outcomes sample_number 100 (sample_callback JNull (JNum 0))
                sample_pending)
         with (id := JNull) (code := JNum 0)
              (desc := JStr "The service request is processed.").
  - apply (mpesa_callback_outcomes sample_number 100 sample_success sample_empty)
      with (id := JStr "ws_CO_1") (code := JNum 0)
           (desc := JStr "The service request is processed.") (ref := "ws_CO_1");
      [done | done | done |].
    intros pk p Hp. cbn [payments sample_empty] in Hp. by rewrite lookup_empty in Hp.
  - apply (mpesa_callback_outcomes sample_number 100 sample_success sample_pending)
      with (id := JStr "ws_CO_1") (code := JNum 0)
           (desc := JStr "The service request is processed.")
           (ref := "ws_CO_1") (p := sample_payment)
           (o := sample_order OrderStatus.confirmed OrderPayment.pending);
      [done | done | done | apply sample_only_match | done ..].
  - apply (mpesa_callback_outcomes sample_number 100 sample_failure sample_pending)
      with (id := JStr "ws_CO_1") (code := JNum 1032)
           (desc := JStr "The service request is processed.")
           (ref := "ws_CO_1") (p := sample_payment)
           (o := sample_order OrderStatus.confirmed OrderPayment.pending);
      [done | done | done | apply sample_only_match | done ..].
  - apply (mpesa_callback_outcomes sample_number 100 sample_success sample_duplicate)
      with (id := JStr "ws_CO_1") (code := JNum 0)
           (desc := JStr "The service request is processed.")
           (ref := "ws_CO_1") (pk1 := 1) (pk2 := 2) (p1 := sample_payment)
           (p2 := sample_payment); done.
Defined.

(** ** C3, C4 and C8: creation *)

(** The order the scenario creates: two cylinders at 2500.00 and the fee of
    300.00 make 5300.00. *)
Definition sample_created : Order.t :=
  {| Order.order_number := "KAA202401150002";
     Order.customer := 7;
     Order.vendor := 3;
     Order.rider := None;
     Order.status := OrderStatus.pending;
     Order.info := sample_details;
     Order.estimated_delivery_time := None;
     Order.actual_delivery_time := None;
     Order.subtotal := 500000;
     Order.delivery_fee := 30000;
     Order.discount_amount := 0;
     Order.tax_amount := 0;
     Order.total_amount := 530000;
     Order.payment_status := OrderPayment.pending;
     Order.cancellation_reason := "" |}.

Lemma sample_creation :
  CreateOrderView_post sample_number 1000 sample_customer (sample_create [sample_item 2])
    sample_empty
  = (Done (Response_status (created (1, sample_created)) 201),
     snd (CreateOrderView_post sample_number 1000 sample_customer
            (sample_create [sample_item 2]) sample_empty)).
Proof. by vm_compute. Qed.

Lemma created_order_total_witness :
  exists rows,
    create_items (sample_create [sample_item 2]) ≠ [] /\
    rows_of sample_empty 3 1 [sample_item 2] rows /\
    order_items (snd (CreateOrderView_post sample_number 1000 sample_customer
                        (sample_create [sample_item 2]) sample_empty))
    = rev rows ++ [] /\
    orders (snd (CreateOrderView_post sample_number 1000 sample_customer
                   (sample_create [sample_item 2]) sample_empty)) !! 1
    = Some sample_created /\
    Order.delivery_fee sample_created = 30000 /\
    Order.total_amount sample_created = rows_total rows + Order.delivery_fee sample_created.
Proof.
  apply (created_order_total sample_number 1000 sample_customer
           (sample_create [sample_item 2]) sample_empty 1 sample_created).
  left. exact sample_creation.
Defined.


(** C8 fails on the viewset: one creation through [OrderViewSet.create]
    writes the 'pending' row "Order created successfully" twice, where
    [CreateOrderView] writes it once. The order itself is stored 'pending',
    unpaid, with its item, on both paths. *)
Lemma viewset_create_writes_two_tracking_rows :
  let data := sample_create [sample_item 2] in
  let by_viewset := OrderViewSet_create sample_number 1000 sample_customer data sample_empty in
  let by_view := CreateOrderView_post sample_number 1000 sample_customer data sample_empty in
  fst by_viewset = Done (Response_status (created (1, sample_created)) 201) /\
  tracking (snd by_viewset) = [creation_row 1 7; creation_row 1 7] /\
  orders (snd by_viewset) !! 1 = Some sample_created /\
  order_items (snd by_viewset) = [item_row 1 (sample_item 2) 250000] /\
  fst by_view = Done (Response_status (created (1, sample_created)) 201) /\
  tracking (snd by_view) = [creation_row 1 7].
Proof. by vm_compute. Qed.

(** ** C5, C6 and C10: the status actions *)

Definition sample_delivered : Store :=
  sample_store OrderStatus.delivered OrderPayment.paid.

Definition sample_paid : Store :=
  sample_store OrderStatus.confirmed OrderPayment.paid.

(** C5, as stated, fails: [prepare], called by the vendor on a 'delivered'
    order, is answered 200, moves the order back to 'preparing' and writes
    a tracking row. *)
Lemma prepare_accepts_delivered_order :
  exists st',
    OrderViewSet_prepare sample_number 1000 sample_vendor_user 1 sample_delivered
    = (Done (Response_ok (message "Order marked as preparing")), st') /\
    Order.status <$> orders sample_delivered !! 1 = Some OrderStatus.delivered /\
    Order.status <$> orders st' !! 1 = Some OrderStatus.preparing /\
    length (tracking st') = S (length (tracking sample_delivered)).
Proof. eexists. split_and!; [by vm_compute | done ..]. Qed.

Lemma confirm_cancel_reject_invalid_witness :
  (forall estimated_time,
     exists r, OrderViewSet_confirm sample_number 1000 sample_vendor_user 1 estimated_time
                 sample_delivered = (r, sample_delivered) /\ rejected r) /\
  (forall reason,
     (exists r, OrderViewSet_cancel sample_number 1000 sample_customer 1 reason
                  sample_delivered = (r, sample_delivered) /\ rejected r) /\
     (exists r, CancelOrderView_post sample_number 1000 sample_customer (Some 1) reason
                  sample_delivered = (r, sample_delivered) /\ rejected r)).
Proof.
  split.
  - apply (confirm_cancel_reject_invalid sample_number 1000 sample_vendor_user 1
             sample_delivered (sample_order OrderStatus.delivered OrderPayment.paid));
      [reflexivity | discriminate].
  - apply (confirm_cancel_reject_invalid sample_number 1000 sample_customer 1
             sample_delivered (sample_order OrderStatus.delivered OrderPayment.paid));
      [reflexivity | by left].
Defined.

(** The stores the two cancellation views leave of the paid order 1,
    cancelled by its customer without a reason. *)
Definition sample_cancelled_by_viewset : Store :=
  snd (OrderViewSet_cancel sample_number 1000 sample_customer 1 None sample_paid).

Definition sample_cancelled_by_view : Store :=
  snd (CancelOrderView_post sample_number 1000 sample_customer (Some 1) None sample_paid).

(** C6, as stated, fails: order 1 is 'confirmed' and the caller is its
    customer, but with the reason null the cancellation does not succeed,
    by either view: the write of the order is refused and the order stays
    'confirmed'. *)
Lemma cancel_with_null_reason_fails :
  Order.status <$> orders sample_paid !! 1 = Some OrderStatus.confirmed /\
  OrderViewSet_cancel sample_number 1000 sample_customer 1 (Some JNull) sample_paid
  = (Raised IntegrityError, sample_paid) /\
  CancelOrderView_post sample_number 1000 sample_customer (Some 1) (Some JNull) sample_paid
  = (Raised IntegrityError, sample_paid).
Proof. by vm_compute. Qed.

Lemma cancel_guard_witness :
  ((exists r, OrderViewSet_cancel sample_number 1000 sample_customer 1 None sample_delivered
              = (r, sample_delivered) /\ rejected r) /\
   (exists r, CancelOrderView_post sample_number 1000 sample_customer (Some 1) None
                sample_delivered = (r, sample_delivered) /\ rejected r)) /\
  (exists st',
     OrderViewSet_cancel sample_number 1000 sample_customer 1 (Some (JStr "Changed my mind"))
       sample_paid
     = (Done (Response_ok (message "Order cancelled successfully")), st') /\
     Order.status <$> orders st' !! 1 = Some OrderStatus.cancelled) /\
  (exists st',
     CancelOrderView_post sample_number 1000 sample_vendor_user (Some 1) None sample_paid
     = (Done (Response_ok (message "Order cancelled successfully")), st') /\
     Order.status <$> orders st' !! 1 = Some OrderStatus.cancelled) /\
  OrderViewSet_cancel sample_number 1000 sample_customer 1 (Some JNull) sample_paid
  = (Raised IntegrityError, sample_paid) /\
  CancelOrderView_post sample_number 1000 sample_vendor_user (Some 1) (Some JNull) sample_paid
  = (Raised IntegrityError, sample_paid).
Proof.
  split_and!.
  - apply (cancel_guard sample_number 1000 sample_customer 1 None sample_delivered
             (sample_order OrderStatus.delivered OrderPayment.paid) eq_refl).
    by left.
  - apply (cancel_guard sample_number 1000 sample_customer 1 None sample_delivered
             (sample_order OrderStatus.delivered OrderPayment.paid) eq_refl).
    by left.
  - apply (cancel_guard sample_number 1000 sample_customer 1
             (Some (JStr "Changed my mind"))
             sample_paid (sample_order OrderStatus.confirmed OrderPayment.paid) eq_refl);
      [done | done | done | done | by eexists | done].
  - apply (cancel_guard sample_number 1000 sample_vendor_user 1 None
             sample_paid (sample_order OrderStatus.confirmed OrderPayment.paid) eq_refl);
      done.
  - apply (cancel_guard sample_number 1000 sample_customer 1 (Some JNull)
             sample_paid (sample_order OrderStatus.confirmed OrderPayment.paid) eq_refl);
      done.
  - apply (cancel_guard sample_number 1000 sample_vendor_user 1 (Some JNull)
             sample_paid (sample_order OrderStatus.confirmed OrderPayment.paid) eq_refl);
      done.
Defined.

(** The customer cancels the paid order 1 with each view. *)
Lemma cancel_frame_witness :
  (sample_cancelled_by_viewset = sample_paid \/
   cancels sample_customer 1 sample_paid sample_cancelled_by_viewset) /\
  payments sample_cancelled_by_viewset = payments sample_paid /\
  (forall k o, orders sample_paid !! k = Some o ->
     Order.payment_status o = OrderPayment.paid ->
     Order.payment_status <$> orders sample_cancelled_by_viewset !! k
     = Some OrderPayment.paid) /\
  (sample_cancelled_by_view = sample_paid \/
   exists pk, Some 1 = Some pk /\
              cancels sample_customer pk sample_paid sample_cancelled_by_view) /\
  payments sample_cancelled_by_view = payments sample_paid /\
  (forall k o, orders sample_paid !! k = Some o ->
     Order.payment_status o = OrderPayment.paid ->
     Order.payment_status <$> orders sample_cancelled_by_view !! k
     = Some OrderPayment.paid).
Proof.
  pose proof (cancel_frame sample_number 1000 sample_customer None sample_paid
                (sample_store_numbered _ _)) as [Hviewset Hview].
  destruct (Hviewset 1 _ _ (surjective_pairing _)) as (H1 & H2 & H3).
  destruct (Hview (Some 1) _ _ (surjective_pairing _)) as (K1 & K2 & K3).
  by split_and!.
Defined.

(** The cancellation of the paid order goes through and the order is still
    'paid' afterwards: no refund is recorded. *)
Lemma cancelled_order_stays_paid :
  let r := OrderViewSet_cancel sample_number 1000 sample_customer 1 None sample_paid in
  fst r = Done (Response_ok (message "Order cancelled successfully")) /\
  orders (snd r) !! 1
  = Some (cancelled_order "No reason provided"
            (sample_order OrderStatus.confirmed OrderPayment.paid)) /\
  Order.payment_status <$> orders (snd r) !! 1 = Some OrderPayment.paid /\
  payments (snd r) = payments sample_paid.
Proof. by vm_compute. Qed.

(** ** C7: deliveries *)

Definition sample_on_the_road : Store :=
  sample_store OrderStatus.out_for_delivery OrderPayment.paid.

(** C7 fails on [UpdateDeliveryStatusView]: marking the delivery 'delivered'
    there sets the order 'delivered' with its delivery time and writes no
    earnings record, where [DeliveryViewSet.deliver] on the same store
    writes one of 100.00 + 3.50 * 10 = 135.00. *)
Lemma update_status_delivered_writes_no_earnings :
  let by_update :=
    UpdateDeliveryStatusView_post sample_number 1000 sample_rider (Some 1)
      (Some "delivered") None sample_on_the_road in
  let by_deliver :=
    DeliveryViewSet_deliver sample_number 1000 sample_rider 1 None sample_on_the_road in
  fst by_update = Done (Response_ok (message "Delivery status updated to delivered")) /\
  Delivery.status <$> deliveries (snd by_update) !! 1 = Some "delivered" /\
  orders (snd by_update) !! 1
  = Some (delivered_order 1000 (sample_order OrderStatus.out_for_delivery OrderPayment.paid)) /\
  rider_earnings (snd by_update) = [] /\
  fst by_deliver = Done (Response_ok (message "Order delivered successfully")) /\
  orders (snd by_deliver) !! 1
  = Some (delivered_order 1000 (sample_order OrderStatus.out_for_delivery OrderPayment.paid)) /\
  rider_earnings (snd by_deliver)
  = [delivery_earnings 1000 1 sample_delivery "KAA202401150001"] /\
  RiderEarnings.amount (delivery_earnings 1000 1 sample_delivery "KAA202401150001") = 13500.
Proof. by vm_compute. Qed.

(** ** C9: the estimate *)

(** Distances as whole kilometres, every two places 2 km apart. *)
Definition sample_estimate (user : option User.t) (request_data : EstimateData)
    : M (Response (EstimateBody Z)) :=
  OrderEstimateView Z (fun _ _ => Ok 2) Z.leb id user request_data.

Definition sample_estimate_request : EstimateData :=
  {| estimate_vendor := 3;
     estimate_items := [sample_item 2];
     estimate_delivery_latitude := -1292100;
     estimate_delivery_longitude := 36821900 |}.

(** C9, as stated, fails: a request without authentication is refused; the
    view's permission classes hold [IsAuthenticated]. *)
Lemma estimate_refuses_anonymous :
  OrderEstimateView_permission_classes = [IsAuthenticated] /\
  sample_estimate None sample_estimate_request sample_empty
  = (Raised NotAuthenticated, sample_empty).
Proof. by split. Qed.

Lemma estimate_is_read_only_witness :
  snd (sample_estimate (Some sample_customer) sample_estimate_request sample_empty)
  = sample_empty /\
  exists e,
    fst (sample_estimate (Some sample_customer) sample_estimate_request sample_empty)
    = Done (Response_ok (estimate Z e)) /\
    Forall2 (estimates_line sample_empty 3) [sample_item 2] (est_items Z e) /\
    est_subtotal Z e = 500000 /\
    est_delivery_fee Z e = 30000 /\
    est_total_amount Z e = 530000.
Proof.
  destruct (estimate_is_read_only Z (fun _ _ => Ok 2) Z.leb id (Some sample_customer)
              sample_estimate_request sample_empty) as (Hst & _ & Hresp).
  split; [exact Hst |].
  destruct (Hresp _ eq_refl eq_refl) as (v & e & Hv & He & Hlines & Hsub & Hfee & Htotal).
  injection He as <-. eexists. split; [reflexivity |]. by split_and!.
Defined.

(** * The scenario, continued

    The further views on the same data: the order of user 7 from vendor 3,
    its payment, and the delivery that rider profile 4 (user 11) carries. *)

Definition sample_admin : User.t := {| User.pk := 1; User.role := Role.admin |}.
Definition sample_other_customer : User.t := {| User.pk := 8; User.role := Role.customer |}.
Definition sample_other_rider : User.t := {| User.pk := 12; User.role := Role.rider |}.

Lemma sample_store_order s ps pk o :
  orders (sample_store s ps) !! pk = Some o -> pk = 1 /\ o = sample_order s ps.
Proof.
  cbn [orders sample_store]. intros H. by apply lookup_singleton_Some in H as [<- <-].
Qed.

Lemma sample_gives_numbers : gives_numbers sample_number.
Proof. by intros now st number [= <-]. Qed.

(** ** The order numbers *)

(** On 15 January 2024 the scenario's store holds number 0001 of the day:
    the next is 0002, and the first of the 16th is 0001. *)
Lemma generated_number_is_new_witness :
  (Order_generate_order_number "20240116" sample_pending = Done "KAA202401160001" /\
   ~ number_stored sample_pending "KAA202401160001") /\
  (Order_generate_order_number "20240115" sample_pending = Done "KAA202401150002" /\
   ~ number_stored sample_pending "KAA202401150002").
Proof.
  split.
  - apply (generated_number_is_new "20240116" sample_pending).
    intros pk o Ho. by apply sample_store_order in Ho as [_ ->].
  - apply (generated_number_is_new "20240115" sample_pending) with (n := 1); [lia |].
    split_and!.
    + by exists 1, (sample_order OrderStatus.confirmed OrderPayment.pending).
    + reflexivity.
    + intros pk o Ho _. by apply sample_store_order in Ho as [_ ->].
Defined.

(** A day on which number 9999 has been given. *)
Definition sample_full_day : Store :=
  with_orders
    {[1 := Order.set_order_number "KAA202401159999"
             (sample_order OrderStatus.delivered OrderPayment.paid)]}
    sample_empty.

Lemma order_numbers_run_out_witness :
  Order_generate_order_number "20240115" sample_full_day = Done "KAA2024011510000" /\
  Order_generate_order_number "20240115"
    (with_orders (<[2 := Order.set_order_number "KAA2024011510000" sample_created]>
                    (orders sample_full_day)) sample_full_day)
  = Done "KAA2024011510000" /\
  number_stored
    (with_orders (<[2 := Order.set_order_number "KAA2024011510000" sample_created]>
                    (orders sample_full_day)) sample_full_day)
    "KAA2024011510000".
Proof.
  apply (order_numbers_run_out "20240115" sample_full_day 2
           (Order.set_order_number "KAA2024011510000" sample_created)).
  - split_and!.
    + eexists 1, _. split; [reflexivity | reflexivity].
    + reflexivity.
    + intros pk o Ho _. cbn [orders sample_full_day with_orders] in Ho.
      by apply lookup_singleton_Some in Ho as [_ <-].
  - reflexivity.
  - reflexivity.
Defined.

(** ** Update and tracking *)

(** The customer marks the confirmed order as delivered. *)
Definition sample_update : OrderUpdateData :=
  {| update_status := Some OrderStatus.delivered;
     update_rider := None;
     update_estimated_delivery_time := None;
     update_actual_delivery_time := Some (Some 100) |}.

Lemma update_sets_fields_and_tracks_status_witness :
  exists o' st',
    OrderViewSet_update sample_number 100 sample_customer 1 sample_update sample_pending
    = (Done (Response_ok (1, o')), st') /\
    updated_by_fields sample_update
      (sample_order OrderStatus.confirmed OrderPayment.pending) o' /\
    orders st' = <[1 := o']> (orders sample_pending) /\
    tracking st'
    = (if bool_decide (Order.status o' = OrderStatus.confirmed) then tracking sample_pending
       else status_update_row 1 7 OrderStatus.confirmed (Order.status o')
            :: tracking sample_pending) /\
    order_items st' = order_items sample_pending /\
    payments st' = payments sample_pending /\
    deliveries st' = deliveries sample_pending.
Proof.
  apply (update_sets_fields_and_tracks_status sample_number 100 sample_customer 1
           sample_update sample_pending
           (sample_order OrderStatus.confirmed OrderPayment.pending));
    [reflexivity | done | reflexivity].
Defined.

(** Another customer does not reach order 1. *)
Lemma viewset_hides_foreign_orders_witness :
  (forall estimated_time,
     OrderViewSet_confirm sample_number 100 sample_other_customer 1 estimated_time
       sample_pending
     = (Raised Http404, sample_pending)) /\
  OrderViewSet_prepare sample_number 100 sample_other_customer 1 sample_pending
  = (Raised Http404, sample_pending) /\
  OrderViewSet_ready_for_pickup sample_number 100 sample_other_customer 1 sample_pending
  = (Raised Http404, sample_pending) /\
  (forall reason,
     OrderViewSet_cancel sample_number 100 sample_other_customer 1 reason sample_pending
     = (Raised Http404, sample_pending)) /\
  (forall data,
     OrderViewSet_update sample_number 100 sample_other_customer 1 data sample_pending
     = (Raised Http404, sample_pending)).
Proof.
  apply (viewset_hides_foreign_orders sample_number 100 sample_other_customer 1
           sample_pending).
  intros o Ho. by apply sample_store_order in Ho as [_ ->].
Defined.

Lemma sample_only_order s ps : only_order (sample_store s ps) "KAA202401150001" 1 (sample_order s ps).
Proof.
  split_and!; [done | done |].
  intros pk' o' Ho' _. by apply sample_store_order in Ho' as [-> _].
Qed.

(** The rider of order 1 is shown the order; a number that no order has is
    not found. *)
Lemma track_order_shows_to_parties_witness :
  fst (TrackOrderView_get sample_rider "KAA202401150001" sample_pending)
  = Done (Response_ok (tracked (1, sample_order OrderStatus.confirmed OrderPayment.pending))) /\
  fst (TrackOrderView_get sample_rider "KAA202401150009" sample_pending)
  = Done (Response_status (track_error "Order not found") 404) /\
  snd (TrackOrderView_get sample_rider "KAA202401150001" sample_pending) = sample_pending.
Proof.
  split_and!.
  - apply (track_order_shows_to_parties sample_rider "KAA202401150001" sample_pending).
    + apply sample_only_order.
    + right. right. left. by split.
  - apply (track_order_shows_to_parties sample_rider "KAA202401150009" sample_pending).
    intros pk o Ho. by apply sample_store_order in Ho as [_ ->].
  - apply (track_order_shows_to_parties sample_rider "KAA202401150001" sample_pending).
Defined.

(** ** Payments *)

Lemma initiate_payment_writes_one_payment_witness :
  exists st',
    InitiatePaymentView_post "3f2a" sample_customer (Some 1) (Some "+254700000001")
      sample_pending
    = (Done (payment_initiated_response "3f2a"), st') /\
    payments sample_pending !! next_payment_pk sample_pending = None /\
    payments st'
    = <[next_payment_pk sample_pending :=
          initiated_payment 1 (sample_order OrderStatus.confirmed OrderPayment.pending)
            "+254700000001" "3f2a"]> (payments sample_pending) /\
    orders st' = orders sample_pending /\
    tracking st' = tracking sample_pending.
Proof.
  apply (initiate_payment_writes_one_payment "3f2a" sample_customer 1 "+254700000001"
           sample_pending (sample_order OrderStatus.confirmed OrderPayment.pending)); done.
Defined.

(** The four refusals: a rider, a request without a phone number, another
    customer's order, an order that is paid. *)
Lemma initiate_payment_refusals_witness :
  InitiatePaymentView_post "3f2a" sample_rider (Some 1) (Some "+254700000001") sample_pending
  = (Done (Response_status (payment_error "Only customers can initiate payments") 403),
     sample_pending) /\
  InitiatePaymentView_post "3f2a" sample_customer (Some 1) None sample_pending
  = (Done (Response_status (payment_error "Order ID and phone number required") 400),
     sample_pending) /\
  InitiatePaymentView_post "3f2a" sample_other_customer (Some 1) (Some "+254700000002")
    sample_pending
  = (Done (Response_status (payment_error "Order not found") 404), sample_pending) /\
  InitiatePaymentView_post "3f2a" sample_customer (Some 1) (Some "+254700000001")
    (sample_store OrderStatus.confirmed OrderPayment.paid)
  = (Done (Response_status (payment_error "Order already paid") 400),
     sample_store OrderStatus.confirmed OrderPayment.paid).
Proof.
  split_and!.
  - by apply (initiate_payment_refusals "3f2a" sample_rider (Some 1) (Some "+254700000001")
                sample_pending).
  - apply (initiate_payment_refusals "3f2a" sample_customer (Some 1) None sample_pending);
      [done | by right].
  - apply (initiate_payment_refusals "3f2a" sample_other_customer (Some 1)
             (Some "+254700000002") sample_pending) with (pk := 1); [done .. |].
    intros o Ho. by apply sample_store_order in Ho as [_ ->].
  - apply (initiate_payment_refusals "3f2a" sample_customer (Some 1) (Some "+254700000001")
             (sample_store OrderStatus.confirmed OrderPayment.paid)) with (pk := 1)
      (o := sample_order OrderStatus.confirmed OrderPayment.paid); done.
Defined.

Lemma initiated_payment_is_reconciled_witness :
  exists st1 st2 p,
    InitiatePaymentView_post "3f2a" sample_customer (Some 1) (Some "+254700000001")
      sample_pending
    = (Done (payment_initiated_response "3f2a"), st1) /\
    MpesaCallbackView_post sample_number 200 (sample_callback (JStr "ws_CO_3f2a") (JNum 0)) st1
    = (Done (Response_ok (message "Callback processed successfully")), st2) /\
    payments st2 !! next_payment_pk sample_pending = Some p /\
    Payment.status p = PaymentStatus.completed /\
    Payment.completed_at p = Some 200 /\
    Payment.amount p = 530000 /\
    orders st2 !! 1
    = Some (Order.set_payment_status OrderPayment.paid
              (sample_order OrderStatus.confirmed OrderPayment.pending)) /\
    InitiatePaymentView_post "77c1" sample_customer (Some 1) (Some "+254700000001") st2
    = (Done (Response_status (payment_error "Order already paid") 400), st2).
Proof.
  apply (initiated_payment_is_reconciled sample_number "3f2a" sample_customer 1
           "+254700000001" sample_pending
           (sample_order OrderStatus.confirmed OrderPayment.pending) 200
           (sample_callback (JStr "ws_CO_3f2a") (JNum 0)) (JNum 0)
           (JStr "The service request is processed.") "77c1"); try done.
  intros k p Hp. cbn [payments sample_pending sample_store] in Hp.
  by apply lookup_singleton_Some in Hp as [_ <-].
Defined.

(** A failure callback that has no [ResultDesc]. *)
Definition sample_bare_failure : json :=
  JDict [("Body",
          JDict [("stkCallback",
                  JDict [("CheckoutRequestID", JStr "ws_CO_1"); ("ResultCode", JNum 1)])])].

Lemma failure_callback_without_description_witness :
  exists st',
    MpesaCallbackView_post sample_number 100 sample_bare_failure sample_pending
    = (Done (Response_status (error "Callback processing failed") 500), st') /\
    orders st'
    = <[1 := Order.set_payment_status OrderPayment.failed
               (sample_order OrderStatus.confirmed OrderPayment.pending)]>
        (orders sample_pending) /\
    payments st' = payments sample_pending /\
    tracking st' = tracking sample_pending.
Proof.
  apply (failure_callback_without_description sample_number 100 sample_bare_failure
           (JStr "ws_CO_1") "ws_CO_1" (JNum 1) sample_pending 1 sample_payment
           (sample_order OrderStatus.confirmed OrderPayment.pending));
    [done | done | done | done | apply sample_only_match | done | done].
Defined.

(** ** Deliveries *)

(** Order 1 ready for pickup, with no rider and no delivery yet. *)
Definition sample_ready : Store :=
  with_orders
    {[1 := Order_set_rider None (sample_order OrderStatus.ready_for_pickup OrderPayment.paid)]}
    sample_empty.

Lemma sample_only_profile st :
  rider_profiles st = {[4 := 11]} -> only_profile st sample_rider 4.
Proof.
  intros H. unfold only_profile. rewrite H. split; [done |].
  intros profile' u Hp _. by apply lookup_singleton_Some in Hp as [<- _].
Qed.

Lemma accept_delivery_assigns_once_witness :
  exists st',
    AcceptDeliveryView_post sample_number 100 sample_rider (Some 1) sample_ready
    = (Done (Response_ok (accept_done "Delivery accepted successfully"
                            (next_delivery_pk sample_ready) "KAA202401150001")), st') /\
    orders st'
    = <[1 := Order_set_rider (Some 11)
               (Order_set_rider None
                  (sample_order OrderStatus.ready_for_pickup OrderPayment.paid))]>
        (orders sample_ready) /\
    deliveries sample_ready !! next_delivery_pk sample_ready = None /\
    deliveries st'
    = <[next_delivery_pk sample_ready := new_delivery 1 4 "assigned"]>
        (deliveries sample_ready) /\
    tracking st' = tracking sample_ready /\
    (forall now' user' profile',
       User.is_rider user' = true ->
       only_profile st' user' profile' ->
       AcceptDeliveryView_post sample_number now' user' (Some 1) st'
       = (Done already_assigned, st')) /\
    (forall now' user',
       User.is_rider user' = true ->
       no_profile st' user' ->
       AcceptDeliveryView_post sample_number now' user' (Some 1) st'
       = (Done (Response_status (accept_error "Rider profile not found") 404), st')).
Proof.
  apply (accept_delivery_assigns_once sample_number 100 sample_rider 4 1 sample_ready
           (Order_set_rider None
              (sample_order OrderStatus.ready_for_pickup OrderPayment.paid)));
    [done | by apply sample_only_profile | done | done | done | done |].
  unfold no_delivery_of. cbn [deliveries sample_ready with_orders sample_empty].
  apply map_Forall_empty.
Defined.

(** Order 1 without a rider, while delivery 1 of it is stored. *)
Definition sample_unassigned : Store :=
  with_orders
    {[1 := Order_set_rider None (sample_order OrderStatus.ready_for_pickup OrderPayment.paid)]}
    sample_pending.

Lemma accept_delivery_fails_after_writing_rider_witness :
  AcceptDeliveryView_post sample_number 100 sample_rider (Some 1) sample_unassigned
  = (Raised IntegrityError,
     with_orders
       (<[1 := Order_set_rider (Some 11)
                 (Order_set_rider None
                    (sample_order OrderStatus.ready_for_pickup OrderPayment.paid))]>
          (orders sample_unassigned))
       sample_unassigned).
Proof.
  apply (accept_delivery_fails_after_writing_rider sample_number 100 sample_rider 4 1
           sample_unassigned
           (Order_set_rider None
              (sample_order OrderStatus.ready_for_pickup OrderPayment.paid))
           1 sample_delivery);
    [done | by apply sample_only_profile | done ..].
Defined.

(** The rider reports the status 'lost', which no delivery status is. *)
Lemma update_delivery_status_stores_any_text_witness :
  UpdateDeliveryStatusView_post sample_number 100 sample_rider (Some 1) (Some "lost") None
    sample_pending
  = (Done (Response_ok (message "Delivery status updated to lost")),
     with_deliveries (<[1 := Delivery.set_status "lost" sample_delivery]>
                        (deliveries sample_pending)) sample_pending) /\
  UpdateDeliveryStatusView_post sample_number 100 sample_rider (Some 1) (Some "picking_up")
    (Some "at the gate") sample_pending
  = (Done (Response_ok (message "Delivery status updated to picking_up")),
     with_deliveries
       (<[1 := Delivery.set_pickup_notes "at the gate"
                 (Delivery.set_status "picking_up" sample_delivery)]>
          (deliveries sample_pending)) sample_pending) /\
  UpdateDeliveryStatusView_post sample_number 100 sample_other_rider (Some 1) (Some "lost")
    None sample_pending
  = (Done (Response_status (error "Delivery not found") 404), sample_pending).
Proof.
  split_and!.
  - by apply (update_delivery_status_stores_any_text sample_number 100 sample_rider 1 "lost"
                None sample_pending sample_delivery).
  - by apply (update_delivery_status_stores_any_text sample_number 100 sample_rider 1
                "picking_up" (Some "at the gate") sample_pending sample_delivery).
  - by apply (update_delivery_status_stores_any_text sample_number 100 sample_other_rider 1
                "lost" None sample_pending sample_delivery).
Defined.

(** Delivery 1 is 3.50 km long: each call earns 100.00 + 35.00. *)
Lemma deliver_again_pays_again_witness :
  exists st1 st2,
    DeliveryViewSet_deliver sample_number 100 sample_rider 1 None sample_pending
    = (Done (Response_ok (message "Order delivered successfully")), st1) /\
    Delivery.status <$> deliveries st1 !! 1 = Some "delivered" /\
    DeliveryViewSet_deliver sample_number 200 sample_rider 1 None st1
    = (Done (Response_ok (message "Order delivered successfully")), st2) /\
    rider_earnings st2
    = delivery_earnings 200 1 sample_delivery "KAA202401150001"
      :: delivery_earnings 100 1 sample_delivery "KAA202401150001"
      :: rider_earnings sample_pending /\
    RiderEarnings.amount (delivery_earnings 200 1 sample_delivery "KAA202401150001")
    = 13500.
Proof.
  apply (deliver_again_pays_again sample_number 100 200 sample_rider 1 None None
           sample_pending sample_delivery
           (sample_order OrderStatus.confirmed OrderPayment.pending)); done.
Defined.

(** The vendor confirms order 1 for 45 minutes; and for so many minutes
    that no [timedelta] holds them. *)
Lemma confirm_once_witness :
  (exists st',
     OrderViewSet_confirm sample_number 100 sample_vendor_user 1 (Some 45)
       (sample_store OrderStatus.pending OrderPayment.pending)
     = (Done (Response_ok (message "Order confirmed successfully")), st') /\
     orders st'
     = <[1 := confirmed_order 100 (Some 45)
                (sample_order OrderStatus.pending OrderPayment.pending)]>
         (orders (sample_store OrderStatus.pending OrderPayment.pending)) /\
     Order.estimated_delivery_time
       (confirmed_order 100 (Some 45) (sample_order OrderStatus.pending OrderPayment.pending))
     = Some 2800 /\
     tracking st'
     = confirmation_row 1 9 (Some 45)
       :: tracking (sample_store OrderStatus.pending OrderPayment.pending) /\
     (forall now' estimated_time',
        OrderViewSet_confirm sample_number now' sample_vendor_user 1 estimated_time' st'
        = (Done (Response_status (error "Order cannot be confirmed") 400), st'))) /\
  OrderViewSet_confirm sample_number 100 sample_vendor_user 1 (Some 1440000000000)
    (sample_store OrderStatus.pending OrderPayment.pending)
  = (Raised OverflowError, sample_store OrderStatus.pending OrderPayment.pending).
Proof.
  split.
  - apply (confirm_once sample_number 100 sample_vendor_user 1 (Some 45)
             (sample_store OrderStatus.pending OrderPayment.pending)
             (sample_order OrderStatus.pending OrderPayment.pending) sample_vendor);
      [done | done | done | done | done | done |].
    unfold time_in_range. by vm_compute.
  - apply (confirm_once sample_number 100 sample_vendor_user 1 (Some 1440000000000)
             (sample_store OrderStatus.pending OrderPayment.pending)
             (sample_order OrderStatus.pending OrderPayment.pending) sample_vendor);
      [done | done | done | done | done | done |].
    unfold time_in_range. intros [[_ H] _]. vm_compute in H. by apply H.
Defined.

(** ** The invariants *)

Lemma views_keep_orders_numbered_witness :
  orders_numbered
    (snd (OrderViewSet_prepare sample_number 100 sample_vendor_user 1 sample_pending)) /\
  orders_numbered
    (snd (CreateOrderView_post sample_number 1000 sample_customer
            (sample_create [sample_item 2]) sample_pending)).
Proof.
  destruct (views_keep_orders_numbered sample_number Z (fun _ _ => Ok 2) Z.leb id
              sample_gives_numbers)
    as (_ & Hcreate & _ & _ & Hprepare & _).
  split.
  - apply Hprepare, sample_store_numbered.
  - apply Hcreate, sample_store_numbered.
Defined.

(** ** The rider views, bank accounts and ratings *)

Definition sample_users : gmap Z (Role.t * string) :=
  {[11 := (Role.rider, "Asha Mwangi"); 12 := (Role.rider, "Brian Otieno")]}.

(** Order 1 delivered, with no delivery stored. *)
Definition sample_delivered_by_hand : Store :=
  with_deliveries ∅ sample_delivered.

(** The assignment of rider 11 to the delivered order 1 by its vendor. *)
Lemma assign_rider_looks_at_no_status_witness :
  exists st',
    OrderViewSet_assign_rider sample_number sample_users 100 sample_vendor_user 1 (Some 11)
      sample_delivered_by_hand
    = (Done (Response_ok (message "Rider assigned successfully")), st') /\
    orders st'
    = <[1 := assigned_order 11 (sample_order OrderStatus.delivered OrderPayment.paid)]>
        (orders sample_delivered_by_hand) /\
    deliveries sample_delivered_by_hand !! next_delivery_pk sample_delivered_by_hand = None /\
    deliveries st'
    = <[next_delivery_pk sample_delivered_by_hand := new_delivery 1 4 "assigned"]>
        (deliveries sample_delivered_by_hand) /\
    tracking st' = assignment_row 1 "Asha Mwangi" 9 :: tracking sample_delivered_by_hand.
Proof.
  apply (assign_rider_looks_at_no_status sample_number sample_users 100 sample_vendor_user
           1 11 "Asha Mwangi" 4 sample_delivered_by_hand
           (sample_order OrderStatus.delivered OrderPayment.paid));
    [done | done | done | done | done | done | by apply sample_only_profile |].
  unfold no_delivery_of. cbn [deliveries sample_delivered_by_hand with_deliveries].
  apply map_Forall_empty.
Defined.

(** The store of the samples when no rider has a profile. *)
Definition sample_no_profiles : Store :=
  {| vendor_profiles := {[3 := sample_vendor]};
     inventory := {[(3, 5) := sample_inventory]};
     orders := {[1 := sample_order OrderStatus.confirmed OrderPayment.paid]};
     order_items := [];
     tracking := [];
     payments := ∅;
     rider_profiles := ∅;
     deliveries := ∅;
     rider_earnings := [] |}.

(** Rider 11 without a rider profile; and rider 11 assigned to order 1 of
    which delivery 1 is stored. *)
Lemma assign_rider_fails_after_saving_order_witness :
  OrderViewSet_assign_rider sample_number sample_users 100 sample_vendor_user 1 (Some 11)
    sample_no_profiles
  = (Raised (DoesNotExist "RiderProfile"),
     with_orders
       (<[1 := assigned_order 11 (sample_order OrderStatus.confirmed OrderPayment.paid)]>
          (orders sample_no_profiles)) sample_no_profiles) /\
  OrderViewSet_assign_rider sample_number sample_users 100 sample_vendor_user 1 (Some 11)
    sample_paid
  = (Raised IntegrityError,
     with_orders
       (<[1 := assigned_order 11 (sample_order OrderStatus.confirmed OrderPayment.paid)]>
          (orders sample_paid)) sample_paid).
Proof.
  split.
  - apply (assign_rider_fails_after_saving_order sample_number sample_users 100
             sample_vendor_user 1 11 "Asha Mwangi" sample_no_profiles
             (sample_order OrderStatus.confirmed OrderPayment.paid)); try done.
  - apply (assign_rider_fails_after_saving_order sample_number sample_users 100
             sample_vendor_user 1 11 "Asha Mwangi" sample_paid
             (sample_order OrderStatus.confirmed OrderPayment.paid))
      with (profile := 4) (k := 1) (d := sample_delivery);
      [done | done | done | done | done | done | by apply sample_only_profile | done | done].
Defined.

(** The tables over a store, with nothing recorded beside it. *)
Definition sample_tables (st : Store) : Tables :=
  {| db := st; rider_state := ∅; delivery_log := ∅; bank_accounts := ∅; ratings := ∅ |}.

(** Profile 4 of rider 11, unverified. *)
Lemma suspend_then_verify_witness :
  exists t1 t2,
    RiderProfileViewSet_suspend sample_admin 4 (sample_tables sample_pending)
    = (Done (Response_ok (message "Rider suspended successfully")), t1) /\
    rider_state_of t1 4
    = {| RiderState.status := "suspended";
         RiderState.is_available := false;
         RiderState.verified_at := None;
         RiderState.verified_by := None |} /\
    RiderProfileViewSet_verify 100 sample_admin 4 t1
    = (Done (Response_ok (message "Rider verified successfully")), t2) /\
    rider_state_of t2 4
    = {| RiderState.status := "active";
         RiderState.is_available := false;
         RiderState.verified_at := Some 100;
         RiderState.verified_by := Some 1 |} /\
    same_but_rider_state 4 (sample_tables sample_pending) t2 /\
    RiderProfileViewSet_suspend sample_rider 4 (sample_tables sample_pending)
    = (Done permission_denied, sample_tables sample_pending) /\
    RiderProfileViewSet_verify 100 sample_rider 4 (sample_tables sample_pending)
    = (Done permission_denied, sample_tables sample_pending).
Proof.
  apply (suspend_then_verify 100 sample_admin sample_rider 4 11
           (sample_tables sample_pending)); done.
Defined.

(** Rider 11 suspended. *)
Definition sample_suspended : Tables :=
  {| db := sample_pending;
     rider_state := {[4 := {| RiderState.status := "suspended";
                              RiderState.is_available := false;
                              RiderState.verified_at := Some 50;
                              RiderState.verified_by := Some 1 |}]};
     delivery_log := ∅;
     bank_accounts := ∅;
     ratings := ∅ |}.

(** The suspended rider marks themselves available. *)
Lemma toggle_availability_looks_at_no_status_witness :
  exists t1 t2,
    RiderProfileViewSet_toggle_availability sample_rider 4 sample_suspended
    = (Done (Response_ok (message "Rider is now available")), t1) /\
    rider_state_of t1 4
    = {| RiderState.status := "suspended";
         RiderState.is_available := true;
         RiderState.verified_at := Some 50;
         RiderState.verified_by := Some 1 |} /\
    RiderProfileViewSet_toggle_availability sample_rider 4 t1
    = (Done (Response_ok (message "Rider is now unavailable")), t2) /\
    rider_state_of t2 4 = rider_state_of sample_suspended 4 /\
    same_but_rider_state 4 sample_suspended t2.
Proof.
  apply (toggle_availability_looks_at_no_status sample_rider 4 sample_suspended); done.
Defined.

Definition sample_account (rider : Z) (number : string) (primary : bool)
    : RiderBankAccount.t :=
  {| RiderBankAccount.rider := rider;
     RiderBankAccount.bank_name := "Equity";
     RiderBankAccount.account_name := "Rider";
     RiderBankAccount.account_number := number;
     RiderBankAccount.branch := "";
     RiderBankAccount.mpesa_number := "";
     RiderBankAccount.mpesa_name := "";
     RiderBankAccount.is_primary := primary;
     RiderBankAccount.is_verified := false;
     RiderBankAccount.verification_date := None |}.

(** Accounts 1 (primary) and 2 of profile 4, account 3 (primary) of
    profile 5. *)
Definition sample_banked : Tables :=
  {| db := sample_pending;
     rider_state := ∅;
     delivery_log := ∅;
     bank_accounts := {[1 := sample_account 4 "0100" true;
                        2 := sample_account 4 "0200" false;
                        3 := sample_account 5 "0300" true]};
     ratings := ∅ |}.

Lemma sample_may_address :
  may_address sample_banked sample_rider (sample_account 4 "0200" false).
Proof. right. split; [done |]. by apply sample_only_profile. Qed.

(** Rider 11 makes account 2 primary. *)
Lemma set_primary_leaves_one_primary_witness :
  exists t',
    RiderBankAccountViewSet_set_primary sample_rider 2 sample_banked
    = (Done (Response_ok (message "Bank account set as primary")), t') /\
    one_primary (bank_accounts t') 4 2 /\
    (forall k b', bank_accounts t' !! k = Some b' ->
       exists b, bank_accounts sample_banked !! k = Some b /\
                 b' = RiderBankAccount.set_is_primary (RiderBankAccount.is_primary b') b) /\
    (forall k b, bank_accounts sample_banked !! k = Some b ->
       is_Some (bank_accounts t' !! k) /\
       (RiderBankAccount.rider b ≠ 4 -> bank_accounts t' !! k = Some b)) /\
    db t' = db sample_banked /\ rider_state t' = rider_state sample_banked /\
    delivery_log t' = delivery_log sample_banked /\ ratings t' = ratings sample_banked.
Proof.
  apply (set_primary_leaves_one_primary sample_rider 2 (sample_account 4 "0200" false)
           sample_banked); [apply sample_may_address | done].
Defined.

(** Rider 11 addresses account 3, of another rider's profile. *)
Lemma set_primary_hides_foreign_accounts_witness :
  RiderBankAccountViewSet_set_primary sample_rider 3 sample_banked
  = (Raised Http404, sample_banked).
Proof.
  apply (set_primary_hides_foreign_accounts sample_rider 3 (sample_account 5 "0300" true)
           sample_banked); [done | done |].
  right. right. exists 4. split; [by apply sample_only_profile | done].
Defined.

(** Delivery 1 of order 1, assigned to profile 4. *)
Definition sample_assigned : Tables :=
  sample_tables
    (with_deliveries {[1 := Delivery.set_status "assigned" sample_delivery]} sample_pending).

Lemma delivery_is_accepted_once_witness :
  DeliveryViewSet_accept sample_number 100 sample_rider 1 (sample_tables sample_pending)
  = (Done cannot_be_accepted, sample_tables sample_pending) /\
  exists t',
    DeliveryViewSet_accept sample_number 100 sample_rider 1 sample_assigned
    = (Done (Response_ok (message "Delivery accepted successfully")), t') /\
    deliveries (db t')
    = <[1 := Delivery.set_status "accepted" (Delivery.set_status "assigned" sample_delivery)]>
        (deliveries (db sample_assigned)) /\
    delivery_log_of t' 1
    = DeliveryLog.set_accepted_at (Some 100) (delivery_log_of sample_assigned 1) /\
    orders (db t')
    = <[1 := Order.set_status OrderStatus.out_for_delivery
               (sample_order OrderStatus.confirmed OrderPayment.pending)]>
        (orders (db sample_assigned)) /\
    tracking (db t') = tracking (db sample_assigned) /\
    forall now', DeliveryViewSet_accept sample_number now' sample_rider 1 t'
                 = (Done cannot_be_accepted, t').
Proof.
  split.
  - by apply (delivery_is_accepted_once sample_number 100 sample_rider 1 sample_delivery
                (sample_order OrderStatus.confirmed OrderPayment.pending)
                (sample_tables sample_pending)).
  - by apply (delivery_is_accepted_once sample_number 100 sample_rider 1
                (Delivery.set_status "assigned" sample_delivery)
                (sample_order OrderStatus.confirmed OrderPayment.pending)
                sample_assigned).
Defined.

(** Delivery 1 delivered, of the delivered order 1. *)
Definition sample_done : Tables :=
  sample_tables
    (with_deliveries {[1 := Delivery.set_status "delivered" sample_delivery]}
       sample_delivered).

(** The delivered delivery is picked up again. *)
Lemma pickup_looks_at_no_status_witness :
  exists t',
    DeliveryViewSet_pickup 100 sample_rider 1 (Some "at the gate") sample_done
    = (Done (Response_ok (message "Order picked up successfully")), t') /\
    deliveries (db t')
    = <[1 := Delivery.set_pickup_notes "at the gate"
               (Delivery.set_status "in_transit"
                  (Delivery.set_status "delivered" sample_delivery))]>
        (deliveries (db sample_done)) /\
    delivery_log_of t' 1
    = DeliveryLog.set_picked_up_at (Some 100) (delivery_log_of sample_done 1) /\
    orders (db t') = orders (db sample_done) /\
    tracking (db t') = tracking (db sample_done) /\
    rider_earnings (db t') = rider_earnings (db sample_done).
Proof.
  by apply (pickup_looks_at_no_status 100 sample_rider 1 (Some "at the gate")
              (Delivery.set_status "delivered" sample_delivery) sample_done).
Defined.

(** An issue is reported on the delivered delivery: the delivered order
    is cancelled. *)
Lemma report_issue_cancels_in_any_status_witness :
  exists t',
    DeliveryViewSet_report_issue sample_number 100 sample_rider 1 (Some "gate locked")
      sample_done
    = (Done (Response_ok (message "Issue reported successfully")), t') /\
    deliveries (db t')
    = <[1 := Delivery.set_status "failed" (Delivery.set_status "delivered" sample_delivery)]>
        (deliveries (db sample_done)) /\
    DeliveryLog.failure_reason (delivery_log_of t' 1) = "gate locked" /\
    orders (db t')
    = <[1 := failed_order (Some "gate locked")
               (sample_order OrderStatus.delivered OrderPayment.paid)]>
        (orders (db sample_done)) /\
    Order.status (failed_order (Some "gate locked")
                    (sample_order OrderStatus.delivered OrderPayment.paid))
    = OrderStatus.cancelled /\
    Order.cancellation_reason
      (failed_order (Some "gate locked")
         (sample_order OrderStatus.delivered OrderPayment.paid))
    = "Delivery failed: gate locked" /\
    tracking (db t') = tracking (db sample_done) /\
    rider_earnings (db t') = rider_earnings (db sample_done).
Proof.
  by apply (report_issue_cancels_in_any_status sample_number 100 sample_rider 1
              (Some "gate locked") (Delivery.set_status "delivered" sample_delivery)
              (sample_order OrderStatus.delivered OrderPayment.paid) sample_done).
Defined.

(** Rider 11 takes order 1, accepts, picks up and delivers. *)
Lemma from_taking_to_delivered_witness :
  exists t1 t2 t3 t4,
    in_store (AcceptDeliveryView_post sample_number 100 sample_rider (Some 1))
      (sample_tables sample_ready)
    = (Done (Response_ok (accept_done "Delivery accepted successfully"
                            (next_delivery_pk sample_ready) "KAA202401150001")), t1) /\
    DeliveryViewSet_accept sample_number 200 sample_rider (next_delivery_pk sample_ready) t1
    = (Done (Response_ok (message "Delivery accepted successfully")), t2) /\
    DeliveryViewSet_pickup 300 sample_rider (next_delivery_pk sample_ready)
      (Some "at the gate") t2
    = (Done (Response_ok (message "Order picked up successfully")), t3) /\
    in_store (DeliveryViewSet_deliver sample_number 400 sample_rider
                (next_delivery_pk sample_ready) None) t3
    = (Done (Response_ok (message "Order delivered successfully")), t4) /\
    orders (db t4) !! 1
    = Some (delivered_order 400
              (Order.set_status OrderStatus.out_for_delivery
                 (Order_set_rider (Some 11)
                    (Order_set_rider None
                       (sample_order OrderStatus.ready_for_pickup OrderPayment.paid))))) /\
    deliveries (db t4) !! next_delivery_pk sample_ready
    = Some {| Delivery.order := 1;
              Delivery.rider := 4;
              Delivery.status := "delivered";
              Delivery.delivered_at := Some 400;
              Delivery.actual_distance := None;
              Delivery.base_fee := 10000;
              Delivery.distance_fee := 0;
              Delivery.total_earnings := 10000;
              Delivery.pickup_notes := "at the gate";
              Delivery.delivery_notes := "" |} /\
    delivery_log_of t4 (next_delivery_pk sample_ready)
    = {| DeliveryLog.accepted_at := Some 200;
         DeliveryLog.picked_up_at := Some 300;
         DeliveryLog.failure_reason := "" |} /\
    rider_earnings (db t4)
    = {| RiderEarnings.rider := 4;
         RiderEarnings.delivery := Some (next_delivery_pk sample_ready);
         RiderEarnings.earning_type := "delivery";
         RiderEarnings.amount := 10000;
         RiderEarnings.description := "Delivery for order KAA202401150001";
         RiderEarnings.earning_date := date_of 400 |} :: rider_earnings sample_ready /\
    tracking (db t4) = tracking sample_ready.
Proof.
  apply (from_taking_to_delivered sample_number 100 200 300 400 sample_rider 4 1
           (Some "at the gate") None
           (Order_set_rider None
              (sample_order OrderStatus.ready_for_pickup OrderPayment.paid))
           (sample_tables sample_ready));
    [done | by apply sample_only_profile | done | done | done | done | | done].
  unfold no_delivery_of. cbn [deliveries db sample_tables sample_ready with_orders sample_empty].
  apply map_Forall_empty.
Defined.

(** The four refusals: a rider, six stars, another customer's order, an
    order that is not delivered. *)
Lemma rate_order_refusals_witness :
  RateOrderView_post sample_rider (vendor_rating_request 1 5 None)
    (sample_tables sample_delivered)
  = (Done (Response_status (rate_error "Only customers can rate orders") 403),
     sample_tables sample_delivered) /\
  (exists fields,
     fields ≠ [] /\
     RateOrderView_post sample_customer (vendor_rating_request 1 6 None)
       (sample_tables sample_delivered)
     = (Done (Response_status (rate_errors fields) 400), sample_tables sample_delivered)) /\
  RateOrderView_post sample_other_customer (vendor_rating_request 1 5 None)
    (sample_tables sample_delivered)
  = (Done (Response_status (rate_error "Order not found") 404),
     sample_tables sample_delivered) /\
  RateOrderView_post sample_customer (vendor_rating_request 1 5 None)
    (sample_tables sample_pending)
  = (Done (Response_status (rate_error "Can only rate delivered orders") 400),
     sample_tables sample_pending).
Proof.
  split_and!.
  - by apply (rate_order_refusals sample_rider (vendor_rating_request 1 5 None)
                (sample_tables sample_delivered)).
  - apply (rate_order_refusals sample_customer (vendor_rating_request 1 6 None)
             (sample_tables sample_delivered)) with (n := 6); [done | by left | lia].
  - apply (rate_order_refusals sample_other_customer (vendor_rating_request 1 5 None)
             (sample_tables sample_delivered)) with (pk := 1); [done .. |].
    intros o Ho. by apply sample_store_order in Ho as [_ ->].
  - apply (rate_order_refusals sample_customer (vendor_rating_request 1 5 None)
             (sample_tables sample_pending)) with (pk := 1)
      (o := sample_order OrderStatus.confirmed OrderPayment.pending); done.
Defined.

(** Customer 7 gives vendor 9 two stars for order 1, then four. *)
Lemma rating_again_replaces_witness :
  exists t1 t2,
    RateOrderView_post sample_customer (vendor_rating_request 1 2 (Some "late"))
      (sample_tables sample_delivered)
    = (Done order_rated, t1) /\
    ratings (sample_tables sample_delivered)
      !! next_rating_pk (sample_tables sample_delivered) = None /\
    ratings t1
    = <[next_rating_pk (sample_tables sample_delivered)
        := new_vendor_rating 7 9 1 2 "late"]> (ratings (sample_tables sample_delivered)) /\
    RateOrderView_post sample_customer (vendor_rating_request 1 4 None) t1
    = (Done order_rated, t2) /\
    ratings t2
    = <[next_rating_pk (sample_tables sample_delivered)
        := new_vendor_rating 7 9 1 4 ""]> (ratings (sample_tables sample_delivered)) /\
    db t2 = db (sample_tables sample_delivered) /\
    rider_state t2 = rider_state (sample_tables sample_delivered) /\
    delivery_log t2 = delivery_log (sample_tables sample_delivered) /\
    bank_accounts t2 = bank_accounts (sample_tables sample_delivered).
Proof.
  apply (rating_again_replaces sample_customer 1
           (sample_order OrderStatus.delivered OrderPayment.paid) sample_vendor
           2 4 (Some "late") None (sample_tables sample_delivered));
    [done | done | done | done | done | | lia | lia].
  intros k r Hk. by cbn in Hk.
Defined.

(** Order 1 delivered without a rider: five stars for the rider. *)
Definition sample_collected : Tables :=
  sample_tables
    (with_orders
       {[1 := Order_set_rider None (sample_order OrderStatus.delivered OrderPayment.paid)]}
       sample_empty).

Lemma rider_rating_without_rider_is_dropped_witness :
  RateOrderView_post sample_customer (rider_rating_request 1 5 (Some "fast")) sample_collected
  = (Done order_rated, sample_collected).
Proof.
  apply (rider_rating_without_rider_is_dropped sample_customer 1
           (Order_set_rider None (sample_order OrderStatus.delivered OrderPayment.paid))
           5 (Some "fast") sample_collected); [done | done | done | done | done | lia].
Defined.
